(** * ryzenadj-control: command builder, telemetry parser and profile store

    A shallow embedding of [core/options.py], [core/executor.py],
    [core/monitor.py], [core/profiles.py], [core/systemd.py] and of the
    profile and apply actions of [ui/main_window.py], followed by the
    properties proved about them.

    Modelling conventions.
    - Python values are the JSON-shaped values the program handles
      ([PyVal]); integers are unbounded ([Z]) and the interpreter's limit on
      the digits of a converted integer is not modelled; a float is NaN, an
      infinity or a finite dyadic number [m * 2^e].
    - Text is ASCII: [lower], [strip], [splitlines] and the digit class follow
      the interpreter on code points below 128.
    - A [dict] is an insertion-ordered association list; every dict the
      program builds goes through [dict_set], so keys stay unique.
    - An exception is a value of [PyExc]; code that can raise returns a
      [Result]; code that also touches the profile file is a function
      [Store -> Result A * Store], so that what was written before a raise
      stays written.
    - The profile file holds JSON text; the text is identified with the JSON
      value it denotes, keys in the order they are written. *)

From Stdlib Require Import ZArith List String Ascii Bool Lia DecimalString.
Import ListNotations.

Local Open Scope string_scope.
Local Open Scope list_scope.
Local Open Scope Z_scope.

(* ===================================================================== *)
(** * Python values and builtins *)
(* ===================================================================== *)

Module Py.

(** Messages of [ProfileError], one per raise site of [core/profiles.py];
    the interpolated path and cause are left out. *)
Inductive ProfileErrorMsg : Type :=
| FailedToRead
| FailedToWrite
| NameMustNotBeEmpty
| DoesNotExist (name : string)
| FailedToImport
| InvalidFormat
| MissingProfiles
| NoValidProfiles.

Inductive PyExc : Type :=
| ValueError
| TypeError
| OverflowError
| ProfileError (msg : ProfileErrorMsg).

Inductive Result (A : Type) : Type :=
| Ok (a : A)
| Raise (e : PyExc).

Arguments Ok {A} a.
Arguments Raise {A} e.

Definition bind {A B : Type} (r : Result A) (k : A -> Result B) : Result B :=
  match r with
  | Ok a => k a
  | Raise e => Raise e
  end.

Definition returns {A : Type} (r : Result A) : bool :=
  match r with Ok _ => true | Raise _ => false end.

(** A float: not-a-number, signed infinity, or the finite value [m * 2^e]. *)
Inductive pyfloat : Type :=
| FNan
| FInf (negative : bool)
| FFin (m e : Z).

#[warnings="-register-all"]
Inductive PyVal : Type :=
| PNone
| PBool (b : bool)
| PInt (z : Z)
| PFloat (f : pyfloat)
| PStr (s : string)
| PList (l : list PyVal)
| PDict (d : list (string * PyVal)).

(** ** Characters and strings *)

Definition code (c : ascii) : Z := Z.of_N (N_of_ascii c).

Definition is_digit (c : ascii) : bool := (48 <=? code c) && (code c <=? 57).

Definition digit_value (c : ascii) : Z := code c - 48.

(** [str.isspace] on ASCII: tab to carriage return, the four separators
    0x1c-0x1f, and the space. *)
Definition is_space (c : ascii) : bool :=
  ((9 <=? code c) && (code c <=? 13))
  || ((28 <=? code c) && (code c <=? 31))
  || (code c =? 32).

Definition lower_char (c : ascii) : ascii :=
  if (65 <=? code c) && (code c <=? 90)
  then ascii_of_N (N_of_ascii c + 32)
  else c.

(** [s.lower()] *)
Fixpoint lower (s : string) : string :=
  match s with
  | EmptyString => EmptyString
  | String c rest => String (lower_char c) (lower rest)
  end.

(** [s.lstrip(chars)] for a predicate on characters. *)
Fixpoint lstrip_by (p : ascii -> bool) (s : string) : string :=
  match s with
  | EmptyString => EmptyString
  | String c rest => if p c then lstrip_by p rest else s
  end.

Fixpoint rstrip_by (p : ascii -> bool) (s : string) : string :=
  match s with
  | EmptyString => EmptyString
  | String c rest =>
      match rstrip_by p rest with
      | EmptyString => if p c then EmptyString else String c EmptyString
      | kept => String c kept
      end
  end.

(** [s.strip()] *)
Definition strip (s : string) : string :=
  rstrip_by is_space (lstrip_by is_space s).

(** [s.replace(a, b)] for single characters. *)
Fixpoint replace_char (a b : ascii) (s : string) : string :=
  match s with
  | EmptyString => EmptyString
  | String c rest =>
      String (if Ascii.eqb c a then b else c) (replace_char a b rest)
  end.

(** [needle in haystack] on strings. *)
Fixpoint contains (needle haystack : string) : bool :=
  String.prefix needle haystack
  || match haystack with
     | EmptyString => false
     | String _ rest => contains needle rest
     end.

(** Line boundaries of [str.splitlines] on ASCII: LF, VT, FF, CR, FS, GS,
    RS; CR LF counts once. *)
Definition is_linebreak (c : ascii) : bool :=
  ((10 <=? code c) && (code c <=? 13))
  || ((28 <=? code c) && (code c <=? 30)).

(** [s.splitlines()]; [cur] is the current line, reversed. *)
Fixpoint splitlines_from (cur : list ascii) (s : string) : list string :=
  match s with
  | EmptyString =>
      match cur with
      | [] => []
      | _ => [string_of_list_ascii (rev cur)]
      end
  | String c rest =>
      if is_linebreak c then
        string_of_list_ascii (rev cur)
        :: match rest with
           | EmptyString => []
           | String c' rest' =>
               if (code c =? 13) && (code c' =? 10)
               then splitlines_from [] rest'
               else splitlines_from [] rest
           end
      else splitlines_from (c :: cur) rest
  end.

Definition splitlines (s : string) : list string := splitlines_from [] s.

(** ** Numbers *)

(** The whitespace [int] skips around a numeral: tab to carriage return,
    and the space. *)
Definition is_blank (c : ascii) : bool :=
  ((9 <=? code c) && (code c <=? 13)) || (code c =? 32).

(** [int(s)] for a string: surrounding whitespace, an optional sign, and
    decimal digits in which single underscores may separate digits. *)
Fixpoint parse_digits (s : string) (acc : Z) (after_digit : bool) : option Z :=
  match s with
  | EmptyString => if after_digit then Some acc else None
  | String c rest =>
      if is_digit c then parse_digits rest (acc * 10 + digit_value c) true
      else if (code c =? 95) && after_digit then parse_digits rest acc false
      else None
  end.

Definition int_of_str (s : string) : Result Z :=
  let parsed :=
    match rstrip_by is_blank (lstrip_by is_blank s) with
    | String c rest =>
        if code c =? 45 then option_map Z.opp (parse_digits rest 0 false)
        else if code c =? 43 then parse_digits rest 0 false
        else parse_digits (String c rest) 0 false
    | EmptyString => None
    end in
  match parsed with
  | Some z => Ok z
  | None => Raise ValueError
  end.

(** [int(f)] for a float: truncation toward zero. *)
Definition int_of_float (f : pyfloat) : Result Z :=
  match f with
  | FNan => Raise ValueError
  | FInf _ => Raise OverflowError
  | FFin m e => Ok (if 0 <=? e then m * 2 ^ e else Z.quot m (2 ^ (- e)))
  end.

(** The integer nearest to [num / den] ([den > 0]), ties to even. *)
Definition round_half_even (num den : Z) : Z :=
  let q := num / den in
  let r := num mod den in
  match 2 * r ?= den with
  | Lt => q
  | Gt => q + 1
  | Eq => if Z.even q then q else q + 1
  end.

(** The binary64 float nearest to [n / 10^k] for [n >= 0]: 53 significant
    bits, exponents from -1074, infinity from [2^1024] on. *)
Definition float_of_decimal (n : Z) (k : nat) : pyfloat :=
  if n =? 0 then FFin 0 0 else
  let den := 10 ^ Z.of_nat k in
  let e0 := Z.log2 n - Z.log2 den - 52 in
  let scaled e := if 0 <=? e then n / (den * 2 ^ e) else (n * 2 ^ (- e)) / den in
  let e1 := if scaled e0 <? 2 ^ 52 then e0 - 1 else
            if 2 ^ 53 <=? scaled e0 then e0 + 1 else e0 in
  let e := Z.max e1 (-1074) in
  let m := if 0 <=? e then round_half_even n (den * 2 ^ e)
           else round_half_even (n * 2 ^ (- e)) den in
  if 2 ^ 2098 <=? m * 2 ^ (e + 1074)
  then FInf false
  else FFin m e.

Definition float_neg (f : pyfloat) : pyfloat :=
  match f with
  | FNan => FNan
  | FInf s => FInf (negb s)
  | FFin m e => FFin (- m) e
  end.

(** Digits of a decimal literal: the value read so far and how many digits
    were read; the rest of the text is returned. *)
Fixpoint read_digits (s : string) (acc : Z) (count : nat) : Z * nat * string :=
  match s with
  | String c rest =>
      if is_digit c then read_digits rest (acc * 10 + digit_value c) (S count)
      else (acc, count, s)
  | EmptyString => (acc, count, s)
  end.

(** [float(s)] on the literals [-?digits(.digits)?], the only texts the
    program passes to it; anything else is reported as [ValueError].
    [float_of_unsigned] reads what follows the sign. *)
Definition float_of_unsigned (negative : bool) (body : string) : Result pyfloat :=
  let signed := if negative then float_neg else (fun f => f) in
  let '(ipart, icount, after_int) := read_digits body 0 0 in
  match icount with
  | O => Raise ValueError
  | S _ =>
      match after_int with
      | EmptyString => Ok (signed (float_of_decimal ipart 0))
      | String c rest =>
          if code c =? 46 then
            let '(all, fcount, after_frac) := read_digits rest ipart 0 in
            match fcount, after_frac with
            | S _, EmptyString => Ok (signed (float_of_decimal all fcount))
            | _, _ => Raise ValueError
            end
          else Raise ValueError
      end
  end.

Definition float_of_str (s : string) : Result pyfloat :=
  match s with
  | String c rest =>
      if code c =? 45 then float_of_unsigned true rest
      else float_of_unsigned false s
  | EmptyString => Raise ValueError
  end.

(** [bool(v)] *)
Definition py_bool (v : PyVal) : bool :=
  match v with
  | PNone => false
  | PBool b => b
  | PInt z => negb (z =? 0)
  | PFloat FNan => true
  | PFloat (FInf _) => true
  | PFloat (FFin m _) => negb (m =? 0)
  | PStr s => negb (String.eqb s EmptyString)
  | PList l => match l with [] => false | _ => true end
  | PDict d => match d with [] => false | _ => true end
  end.

(** [int(v)] *)
Definition py_int (v : PyVal) : Result Z :=
  match v with
  | PBool b => Ok (if b then 1 else 0)
  | PInt z => Ok z
  | PFloat f => int_of_float f
  | PStr s => int_of_str s
  | PNone | PList _ | PDict _ => Raise TypeError
  end.

(** [str(n)] for an integer. *)
Definition py_str_of_int (n : Z) : string := NilZero.string_of_int (Z.to_int n).

(** [isinstance(v, bool)], [isinstance(v, str)], [isinstance(v, dict)] *)
Definition is_bool (v : PyVal) : bool :=
  match v with PBool _ => true | _ => false end.

Definition is_str (v : PyVal) : bool :=
  match v with PStr _ => true | _ => false end.

Definition is_dict (v : PyVal) : bool :=
  match v with PDict _ => true | _ => false end.

(** ** Insertion-ordered dictionaries with string keys *)

Definition dict (V : Type) : Type := list (string * V).

Fixpoint dict_get {V : Type} (k : string) (d : dict V) : option V :=
  match d with
  | [] => None
  | (k', v) :: rest => if String.eqb k' k then Some v else dict_get k rest
  end.

(** [d.get(k, dflt)] *)
Definition dict_get_default {V : Type} (k : string) (dflt : V) (d : dict V) : V :=
  match dict_get k d with
  | Some v => v
  | None => dflt
  end.

(** [k in d] *)
Definition dict_mem {V : Type} (k : string) (d : dict V) : bool :=
  match dict_get k d with
  | Some _ => true
  | None => false
  end.

(** [d[k] = v]: a present key keeps its position, a new key goes last. *)
Fixpoint dict_set {V : Type} (k : string) (v : V) (d : dict V) : dict V :=
  match d with
  | [] => [(k, v)]
  | (k', v') :: rest =>
      if String.eqb k' k then (k, v) :: rest else (k', v') :: dict_set k v rest
  end.

(** [d.pop(k)] for a present key. *)
Fixpoint dict_pop {V : Type} (k : string) (d : dict V) : dict V :=
  match d with
  | [] => []
  | (k', v') :: rest =>
      if String.eqb k' k then rest else (k', v') :: dict_pop k rest
  end.

(** [list(d.keys())] *)
Definition dict_keys {V : Type} (d : dict V) : list string := map fst d.

(** [next(iter(d.keys()))] wherever the program takes it, that is on a
    non-empty dict; the empty case is never reached. *)
Definition dict_first_key {V : Type} (d : dict V) : string :=
  match d with
  | [] => EmptyString
  | (k, _) :: _ => k
  end.

(** No string occurs twice. *)
Fixpoint distinct (l : list string) : bool :=
  match l with
  | [] => true
  | x :: rest => negb (existsb (String.eqb x) rest) && distinct rest
  end.

End Py.

Import Py.

(* ===================================================================== *)
(** * core/options.py: the option catalog *)
(* ===================================================================== *)

Module Options.

Record OptionSpec : Type := mkOption {
  key : string;
  cli : string;
  label : string;
  category : string;
  minimum : Z;
  maximum : Z;
  default : Z;
  tooltip : string;
  ui_scale : Z;
  ui_suffix : string
}.

(** An entry of [BOOLEAN_OPTIONS], a dict with these five keys. *)
Record BooleanOption : Type := mkBoolean {
  bkey : string;
  bcli : string;
  blabel : string;
  bcategory : string;
  btooltip : string
}.

Definition NUMERIC_OPTIONS : list OptionSpec :=
  [ mkOption "stapm_limit" "--stapm-limit"
      "STAPM Limit" "Power" 0 200000 25000
      "Sustained platform power limit in W."
      1000 " W";
    mkOption "fast_limit" "--fast-limit"
      "PPT Fast Limit" "Power" 0 200000 35000
      "Short boost power limit in W."
      1000 " W";
    mkOption "slow_limit" "--slow-limit"
      "PPT Slow Limit" "Power" 0 200000 30000
      "Long-duration package power limit in W."
      1000 " W";
    mkOption "slow_time" "--slow-time"
      "Slow Time" "Power" 0 512 64
      "Time window for slow limit."
      1 EmptyString;
    mkOption "stapm_time" "--stapm-time"
      "STAPM Time" "Power" 0 512 64
      "Time window for STAPM behavior."
      1 EmptyString;
    mkOption "tctl_temp" "--tctl-temp"
      "Tctl Temp" "Power" 0 105 90
      "Thermal control target temperature in C."
      1 EmptyString;
    mkOption "apu_slow_limit" "--apu-slow-limit"
      "APU Slow Limit" "Power" 0 200000 30000
      "APU-specific slow power limit in W."
      1000 " W";
    mkOption "skin_temp_limit" "--skin-temp-limit"
      "Skin Temp Limit" "Power" 0 100 60
      "Skin temperature control threshold."
      1 EmptyString;
    mkOption "apu_skin_temp" "--apu-skin-temp"
      "APU Skin Temp" "Power" 0 100 55
      "APU skin temperature target."
      1 EmptyString;
    mkOption "dgpu_skin_temp" "--dgpu-skin-temp"
      "dGPU Skin Temp" "Power" 0 100 60
      "dGPU skin temperature target."
      1 EmptyString;
    mkOption "vrm_current" "--vrm-current"
      "VRM Current" "Current" 0 400 100
      "CPU VRM current limit in A."
      1 EmptyString;
    mkOption "vrmsoc_current" "--vrmsoc-current"
      "VRMSoC Current" "Current" 0 400 80
      "SoC VRM current limit in A."
      1 EmptyString;
    mkOption "vrmmax_current" "--vrmmax-current"
      "VRM Max Current" "Current" 0 500 130
      "Maximum CPU VRM peak current in A."
      1 EmptyString;
    mkOption "vrmsocmax_current" "--vrmsocmax-current"
      "VRMSoC Max Current" "Current" 0 500 110
      "Maximum SoC VRM peak current in A."
      1 EmptyString;
    mkOption "psi0_current" "--psi0-current"
      "PSI0 Current" "Current" 0 500 80
      "PSI0 current threshold for CPU rails."
      1 EmptyString;
    mkOption "psi0soc_current" "--psi0soc-current"
      "PSI0SoC Current" "Current" 0 500 60
      "PSI0 current threshold for SoC rails."
      1 EmptyString;
    mkOption "max_socclk_frequency" "--max-socclk-frequency"
      "Max SoC Clock" "Clocks" 0 4000 1800
      "Maximum SoC clock frequency in MHz."
      1 EmptyString;
    mkOption "min_socclk_frequency" "--min-socclk-frequency"
      "Min SoC Clock" "Clocks" 0 4000 400
      "Minimum SoC clock frequency in MHz."
      1 EmptyString;
    mkOption "max_fclk_frequency" "--max-fclk-frequency"
      "Max FCLK" "Clocks" 0 4000 1800
      "Maximum fabric clock in MHz."
      1 EmptyString;
    mkOption "min_fclk_frequency" "--min-fclk-frequency"
      "Min FCLK" "Clocks" 0 4000 400
      "Minimum fabric clock in MHz."
      1 EmptyString;
    mkOption "max_vcn" "--max-vcn"
      "Max VCN" "Clocks" 0 4000 1200
      "Maximum VCN clock in MHz."
      1 EmptyString;
    mkOption "min_vcn" "--min-vcn"
      "Min VCN" "Clocks" 0 4000 300
      "Minimum VCN clock in MHz."
      1 EmptyString;
    mkOption "max_lclk" "--max-lclk"
      "Max LCLK" "Clocks" 0 4000 1200
      "Maximum LCLK in MHz."
      1 EmptyString;
    mkOption "min_lclk" "--min-lclk"
      "Min LCLK" "Clocks" 0 4000 300
      "Minimum LCLK in MHz."
      1 EmptyString;
    mkOption "max_gfxclk" "--max-gfxclk"
      "Max GFX Clock" "Clocks" 0 4000 2200
      "Maximum graphics clock in MHz."
      1 EmptyString;
    mkOption "min_gfxclk" "--min-gfxclk"
      "Min GFX Clock" "Clocks" 0 4000 400
      "Minimum graphics clock in MHz."
      1 EmptyString;
    mkOption "prochot_deassertion_ramp" "--prochot-deassertion-ramp"
      "Prochot Deassertion Ramp" "Advanced" 0 255 50
      "Ramp behavior after PROCHOT release."
      1 EmptyString ].

Definition BOOLEAN_OPTIONS : list BooleanOption :=
  [ mkBoolean "power_saving" "--power-saving" "Power Saving" "Advanced"
      "Enable ryzenadj power-saving mode.";
    mkBoolean "max_performance" "--max-performance" "Max Performance" "Advanced"
      "Enable ryzenadj max-performance mode." ].

(** The companion key [f"{key}_enabled"]. *)
Definition enabled_key (k : string) : string := (k ++ "_enabled")%string.

(** [default_profile_values()]: the comprehension, then the two loops. *)
Definition default_profile_values : dict PyVal :=
  let values :=
    fold_left (fun d spec => dict_set (key spec) (PInt (default spec)) d)
      NUMERIC_OPTIONS [] in
  let values :=
    fold_left (fun d spec => dict_set (enabled_key (key spec)) (PBool false) d)
      NUMERIC_OPTIONS values in
  fold_left (fun d option => dict_set (bkey option) (PBool false) d)
    BOOLEAN_OPTIONS values.

(** The loop of [options_by_category]: [setdefault] and [append]. *)
Fixpoint category_loop (specs : list OptionSpec) (categories : dict (list OptionSpec))
    : dict (list OptionSpec) :=
  match specs with
  | [] => categories
  | spec :: rest =>
      let group := dict_get_default (category spec) [] categories in
      category_loop rest (dict_set (category spec) (group ++ [spec]) categories)
  end.

Definition options_by_category : dict (list OptionSpec) :=
  let categories := [("Power", []); ("Current", []); ("Clocks", []); ("Advanced", [])] in
  category_loop NUMERIC_OPTIONS categories.

End Options.

Import Options.

(* ===================================================================== *)
(** * core/executor.py: the command builder *)
(* ===================================================================== *)

Module Executor.

(** The first loop of [build_ryzenadj_command]; [command] is the list built
    so far. *)
Fixpoint numeric_loop (specs : list OptionSpec) (values : dict PyVal)
    (command : list string) : Result (list string) :=
  match specs with
  | [] => Ok command
  | spec :: rest =>
      if negb (py_bool (dict_get_default (enabled_key (key spec)) (PBool false) values))
      then numeric_loop rest values command
      else
        bind (py_int (dict_get_default (key spec) (PInt 0) values)) (fun value =>
        numeric_loop rest values (command ++ [cli spec; py_str_of_int value]))
  end.

(** The second loop. *)
Fixpoint boolean_loop (options : list BooleanOption) (values : dict PyVal)
    (command : list string) : list string :=
  match options with
  | [] => command
  | option :: rest =>
      if py_bool (dict_get_default (bkey option) (PBool false) values)
      then boolean_loop rest values (command ++ [bcli option])
      else boolean_loop rest values command
  end.

Definition build_ryzenadj_command (values : dict PyVal) (binary : string)
    : Result (list string) :=
  let command := [binary] in
  bind (numeric_loop NUMERIC_OPTIONS values command) (fun command =>
  Ok (boolean_loop BOOLEAN_OPTIONS values command)).

End Executor.

Import Executor.

(* ===================================================================== *)
(** * The fragment of [re] the program uses *)
(* ===================================================================== *)

Module Re.

(** Patterns: literals, character classes with their repetitions, optional
    parts, sequence, alternation, and the capturing group (every pattern of
    the program has exactly one). *)
Inductive regex : Type :=
| Lit (s : string)
| Star (p : ascii -> bool)
| LazyStar (p : ascii -> bool)
| Plus (p : ascii -> bool)
| Opt (r : regex)
| Seq (r1 r2 : regex)
| Alt (r1 r2 : regex)
| Group (r : regex).

(** A way to match: the text left after the match, and group 1 if it took
    part. *)
Definition outcome : Type := (string * option string)%type.

(** [IGNORECASE] comparison of a literal with the start of the text. *)
Fixpoint skip_literal (lit s : string) : option string :=
  match lit, s with
  | EmptyString, _ => Some s
  | String a lit', String b s' =>
      if Ascii.eqb (lower_char a) (lower_char b) then skip_literal lit' s'
      else None
  | String _ _, EmptyString => None
  end.

(** The texts left after taking 0, 1, 2, ... characters of class [p]. *)
Fixpoint class_rests (p : ascii -> bool) (s : string) : list string :=
  s :: match s with
       | String c rest => if p c then class_rests p rest else []
       | EmptyString => []
       end.

(** The first [String.length s - String.length rest] characters of [s]. *)
Definition consumed (s rest : string) : string :=
  substring 0 (String.length s - String.length rest) s.

(** All ways to match [r] at the start of [s], in the order the
    backtracking matcher tries them. *)
Fixpoint matches (r : regex) (s : string) : list outcome :=
  match r with
  | Lit lit =>
      match skip_literal lit s with
      | Some rest => [(rest, None)]
      | None => []
      end
  | Star p => map (fun rest => (rest, None)) (rev (class_rests p s))
  | LazyStar p => map (fun rest => (rest, None)) (class_rests p s)
  | Plus p =>
      match s with
      | String c rest =>
          if p c then map (fun rest' => (rest', None)) (rev (class_rests p rest))
          else []
      | EmptyString => []
      end
  | Opt r1 => matches r1 s ++ [(s, None)]
  | Seq r1 r2 =>
      flat_map
        (fun '(rest1, g1) =>
           map (fun '(rest2, g2) =>
                  (rest2, match g2 with Some _ => g2 | None => g1 end))
               (matches r2 rest1))
        (matches r1 s)
  | Alt r1 r2 => matches r1 s ++ matches r2 s
  | Group r1 =>
      map (fun '(rest, _) => (rest, Some (consumed s rest))) (matches r1 s)
  end.

(** The texts a pattern can consume, whatever follows them. *)
Fixpoint all_in (p : ascii -> bool) (s : string) : bool :=
  match s with
  | EmptyString => true
  | String c rest => p c && all_in p rest
  end.

Fixpoint lang (r : regex) (text : string) : Prop :=
  match r with
  | Lit lit => skip_literal lit text = Some EmptyString
  | Star p | LazyStar p => all_in p text = true
  | Plus p => text <> EmptyString /\ all_in p text = true
  | Opt r1 => text = EmptyString \/ lang r1 text
  | Seq r1 r2 =>
      exists x y, text = (x ++ y)%string /\ lang r1 x /\ lang r2 y
  | Alt r1 r2 => lang r1 text \/ lang r2 text
  | Group r1 => lang r1 text
  end.

(** The texts group 1 of a pattern can hold. *)
Fixpoint captured (r : regex) (text : string) : Prop :=
  match r with
  | Group r1 => lang r1 text
  | Seq r1 r2 | Alt r1 r2 => captured r1 text \/ captured r2 text
  | Opt r1 => captured r1 text
  | _ => False
  end.

(** Whether every way to match a pattern fills group 1. *)
Fixpoint captures (r : regex) : bool :=
  match r with
  | Group _ => true
  | Seq r1 r2 => captures r1 || captures r2
  | Alt r1 r2 => captures r1 && captures r2
  | _ => false
  end.

(** A match object, as far as the program looks at it. *)
Record Match : Type := mkMatch { group1 : option string }.

(** [re.search(r, s, flags=re.IGNORECASE)]: the first way to match at the
    leftmost position that has one. *)
Fixpoint search (r : regex) (s : string) : option Match :=
  match matches r s with
  | (_, g) :: _ => Some (mkMatch g)
  | [] =>
      match s with
      | String _ rest => search r rest
      | EmptyString => None
      end
  end.

(** [match.group(1)] as a value: the text, or [None]. *)
Definition group (m : Match) : PyVal :=
  match group1 m with
  | Some s => PStr s
  | None => PNone
  end.

Definition not_newline (c : ascii) : bool := negb (code c =? 10).

(** [-?\d+(?:\.\d+)?] *)
Definition DECIMAL : regex :=
  Seq (Opt (Lit "-"))
      (Seq (Plus is_digit) (Opt (Seq (Lit ".") (Plus is_digit)))).

(** [(-?\d+(?:\.\d+)?)] *)
Definition NUMBER : regex := Group DECIMAL.

(** The pattern has no group. *)
Fixpoint groupless (r : regex) : bool :=
  match r with
  | Group _ => false
  | Opt r1 => groupless r1
  | Seq r1 r2 | Alt r1 r2 => groupless r1 && groupless r2
  | _ => true
  end.

(** The pattern is a sequence of parts without group that ends in
    [NUMBER]. *)
Fixpoint ends_in_number (r : regex) : Prop :=
  match r with
  | Seq r1 r2 => groupless r1 = true /\ ends_in_number r2
  | Group r1 => r1 = DECIMAL
  | _ => False
  end.

(** The text holds a decimal digit. *)
Fixpoint has_digit (s : string) : bool :=
  match s with
  | EmptyString => false
  | String c rest => is_digit c || has_digit rest
  end.

(** [[^\n]*?(-?\d+(?:\.\d+)?)], the tail of every telemetry pattern. *)
Definition THEN_NUMBER : regex := Seq (LazyStar not_newline) NUMBER.

End Re.

Import Re.

(* ===================================================================== *)
(** * core/monitor.py: the telemetry parser *)
(* ===================================================================== *)

Module Monitor.

Definition INFO_PATTERNS : list (string * list regex) :=
  [ (* stapm[^\n]*?(NUMBER) *)
    ("stapm", [Seq (Lit "stapm") THEN_NUMBER]);
    (* ppt\s*fast[^\n]*?(NUMBER) ; fast[^\n]*?(NUMBER) *)
    ("ppt_fast", [Seq (Lit "ppt") (Seq (Star is_space) (Seq (Lit "fast") THEN_NUMBER));
                  Seq (Lit "fast") THEN_NUMBER]);
    (* ppt\s*slow[^\n]*?(NUMBER) ; slow[^\n]*?(NUMBER) *)
    ("ppt_slow", [Seq (Lit "ppt") (Seq (Star is_space) (Seq (Lit "slow") THEN_NUMBER));
                  Seq (Lit "slow") THEN_NUMBER]);
    (* (?:cpu\s*temp|tctl|temperature)[^\n]*?(NUMBER) *)
    ("cpu_temp", [Seq (Alt (Seq (Lit "cpu") (Seq (Star is_space) (Lit "temp")))
                           (Alt (Lit "tctl") (Lit "temperature")))
                      THEN_NUMBER]);
    (* (?:current\s*power\s*draw|package\s*power|cpu\s*power)[^\n]*?(NUMBER) *)
    ("power_draw",
     [Seq (Alt (Seq (Lit "current") (Seq (Star is_space) (Seq (Lit "power")
                  (Seq (Star is_space) (Lit "draw")))))
               (Alt (Seq (Lit "package") (Seq (Star is_space) (Lit "power")))
                    (Seq (Lit "cpu") (Seq (Star is_space) (Lit "power")))))
          THEN_NUMBER]) ].

(** The inner loop of [parse_info_output]: the first pattern that matches
    stores its group and breaks. *)
Fixpoint pattern_loop (patterns : list regex) (text key : string)
    (parsed : dict PyVal) : dict PyVal :=
  match patterns with
  | [] => parsed
  | pattern :: rest =>
      match search pattern text with
      | Some m => dict_set key (group m) parsed
      | None => pattern_loop rest text key parsed
      end
  end.

(** The outer loop, over [INFO_PATTERNS.items()]. *)
Fixpoint metric_loop (items : list (string * list regex)) (text : string)
    (parsed : dict PyVal) : dict PyVal :=
  match items with
  | [] => parsed
  | (key, patterns) :: rest =>
      let parsed := dict_set key (PStr "N/A") parsed in
      metric_loop rest text (pattern_loop patterns text key parsed)
  end.

Definition parse_info_output (output : string) : dict PyVal :=
  let text := lower output in
  metric_loop INFO_PATTERNS text [].

(** [int(float(match.group(1)))] *)
Definition int_of_float_of_group (m : Match) : Result Z :=
  match group1 m with
  | Some s => bind (float_of_str s) int_of_float
  | None => Raise TypeError
  end.

(** The loop over [lines] for one option; it ends at the first line that
    stores a value. *)
Fixpoint line_loop (spec : OptionSpec) (token token_alt : string)
    (lines : list string) (values : dict PyVal) : Result (dict PyVal) :=
  match lines with
  | [] => Ok values
  | line :: rest =>
      let lowered := lower line in
      if negb (contains token lowered) && negb (contains token_alt lowered)
      then line_loop spec token token_alt rest values
      else
        match search NUMBER line with
        | None => line_loop spec token token_alt rest values
        | Some m =>
            match int_of_float_of_group m with
            | Raise ValueError => line_loop spec token token_alt rest values
            | Raise e => Raise e
            | Ok parsed_value =>
                let parsed_value :=
                  if (1 <? ui_scale spec)
                     && (parsed_value <=? maximum spec / ui_scale spec)
                  then parsed_value * ui_scale spec
                  else parsed_value in
                let values := dict_set (key spec) (PInt (Z.max 0 parsed_value)) values in
                Ok (dict_set (enabled_key (key spec)) (PBool true) values)
            end
        end
  end.

Definition is_dash (c : ascii) : bool := code c =? 45.

Fixpoint option_loop (specs : list OptionSpec) (lines : list string)
    (values : dict PyVal) : Result (dict PyVal) :=
  match specs with
  | [] => Ok values
  | spec :: rest =>
      let token := lower (lstrip_by is_dash (cli spec)) in
      let token_alt := replace_char "-" " " token in
      bind (line_loop spec token token_alt lines values) (fun values =>
      option_loop rest lines values)
  end.

Definition parse_profile_values_from_info (output : string) : Result (dict PyVal) :=
  let values := default_profile_values in
  let lines := splitlines output in
  option_loop NUMERIC_OPTIONS lines values.

End Monitor.

Import Monitor.

(* ===================================================================== *)
(** * core/profiles.py: the profile store *)
(* ===================================================================== *)

Module Profiles.

(** What is at [self.path]: nothing, something that cannot be read or
    parsed, or JSON text. *)
Inductive FileContent : Type :=
| Missing
| Unreadable
| Json (v : PyVal).

(** The world of a [ProfileManager]: the file, whether writing to it
    succeeds, and how many times it was written. *)
Record Store : Type := mkStore {
  file : FileContent;
  writable : bool;
  writes : nat
}.

(** The document [{"selected": ..., "profiles": ...}] the manager works
    on. *)
Record Document : Type := mkDocument {
  selected : string;
  profiles : dict (dict PyVal)
}.

(** Code that may raise and may touch the store. *)
Definition M (A : Type) : Type := Store -> Result A * Store.

Definition ret {A : Type} (a : A) : M A := fun st => (Ok a, st).

Definition raise {A : Type} (e : PyExc) : M A := fun st => (Raise e, st).

Definition lift {A : Type} (r : Result A) : M A := fun st => (r, st).

Definition bindM {A B : Type} (c : M A) (k : A -> M B) : M B :=
  fun st =>
    match c st with
    | (Ok a, st') => k a st'
    | (Raise e, st') => (Raise e, st')
    end.

Notation "x <- c ;; k" := (bindM c (fun x => k))
  (at level 61, c at next level, right associativity).

(** [json.dumps(..., sort_keys=True)] orders the keys of every object. *)
Fixpoint insert_sorted {V : Type} (k : string) (v : V) (d : dict V) : dict V :=
  match d with
  | [] => [(k, v)]
  | (k', v') :: rest =>
      if String.leb k k' then (k, v) :: d else (k', v') :: insert_sorted k v rest
  end.

Definition sort_keys {V : Type} (d : dict V) : dict V :=
  fold_right (fun kv acc => insert_sorted (fst kv) (snd kv) acc) [] d.

(** The JSON text of a document, as the value it denotes. *)
Definition dumps (data : Document) : PyVal :=
  PDict [ ("profiles",
           PDict (sort_keys (map (fun np => (fst np, PDict (sort_keys (snd np))))
                                 (profiles data))));
          ("selected", PStr (selected data)) ].

Definition _default_data : Document := mkDocument EmptyString [].

(** The loop of [_normalize_profile] over [raw_profile.items()]. *)
Fixpoint normalize_loop (items : list (string * PyVal)) (normalized : dict PyVal)
    : Result (dict PyVal) :=
  match items with
  | [] => Ok normalized
  | (key, value) :: rest =>
      match dict_get key normalized with
      | None => normalize_loop rest normalized
      | Some current =>
          if is_bool current
          then normalize_loop rest (dict_set key (PBool (py_bool value)) normalized)
          else
            match py_int value with
            | Ok n => normalize_loop rest (dict_set key (PInt (Z.max 0 n)) normalized)
            | Raise TypeError | Raise ValueError => normalize_loop rest normalized
            | Raise e => Raise e
            end
      end
  end.

Definition _normalize_profile (raw_profile : dict PyVal) : Result (dict PyVal) :=
  let normalized := default_profile_values in
  normalize_loop raw_profile normalized.

Definition save_all (data : Document) : M unit :=
  fun st =>
    let payload := dumps data in
    if writable st
    then (Ok tt, mkStore (Json payload) (writable st) (S (writes st)))
    else (Raise (ProfileError FailedToWrite), st).

(** The loop that fills [cleaned]; JSON keys are strings, so only the
    [isinstance(profile, dict)] test can fail. *)
Fixpoint clean_loop (items : list (string * PyVal)) (cleaned : dict (dict PyVal))
    : Result (dict (dict PyVal)) :=
  match items with
  | [] => Ok cleaned
  | (name, profile) :: rest =>
      match profile with
      | PDict raw_profile =>
          bind (_normalize_profile raw_profile) (fun normalized =>
          clean_loop rest (dict_set name normalized cleaned))
      | _ => clean_loop rest cleaned
      end
  end.

(** [v not in d] for a dict with string keys: lists and dicts are
    unhashable, other values that are not strings equal no key. *)
Definition not_in {V : Type} (v : PyVal) (d : dict V) : Result bool :=
  match v with
  | PStr s => Ok (negb (dict_mem s d))
  | PList _ | PDict _ => Raise TypeError
  | _ => Ok true
  end.

Definition is_empty {V : Type} (d : dict V) : bool :=
  match d with [] => true | _ => false end.

Definition load_all : M Document :=
  fun st =>
    match file st with
    | Missing =>
        (let data := _default_data in
         _ <- save_all data ;;
         ret data) st
    | Unreadable => raise (ProfileError FailedToRead) st
    | Json raw =>
        let profiles :=
          match raw with
          | PDict d => dict_get_default "profiles" (PDict []) d
          | _ => PDict []
          end in
        let selected :=
          match raw with
          | PDict d => dict_get_default "selected" (PStr EmptyString) d
          | _ => PStr EmptyString
          end in
        let profiles := match profiles with PDict d => d | _ => [] end in
        (cleaned <- lift (clean_loop profiles []) ;;
         absent <- lift (not_in selected cleaned) ;;
         let selected :=
           match selected with
           | PStr s => if absent then EmptyString else s
           | _ => EmptyString
           end in
         let normalized_data := mkDocument selected cleaned in
         _ <- save_all normalized_data ;;
         ret normalized_data) st
    end.

Definition upsert_profile (name : string) (profile_values : dict PyVal) : M Document :=
  data <- load_all ;;
  if String.eqb (strip name) EmptyString
  then raise (ProfileError NameMustNotBeEmpty)
  else
    normalized <- lift (_normalize_profile profile_values) ;;
    let data := mkDocument (selected data) (dict_set name normalized (profiles data)) in
    let data := mkDocument name (profiles data) in
    _ <- save_all data ;;
    ret data.

Definition delete_profile (name : string) : M Document :=
  data <- load_all ;;
  if negb (dict_mem name (profiles data))
  then raise (ProfileError (DoesNotExist name))
  else
    let data := mkDocument (selected data) (dict_pop name (profiles data)) in
    let data :=
      if String.eqb (selected data) name && negb (is_empty (profiles data))
      then mkDocument (dict_first_key (profiles data)) (profiles data)
      else if is_empty (profiles data)
      then mkDocument EmptyString (profiles data)
      else data in
    _ <- save_all data ;;
    ret data.

(** [import_profiles(source)]; [source] is what is at the source path. *)
Definition import_profiles (source : FileContent) : M Document :=
  match source with
  | Missing | Unreadable => raise (ProfileError FailedToImport)
  | Json imported =>
      match imported with
      | PDict top =>
          match dict_get "profiles" top with
          | Some (PDict profiles) =>
              cleaned <- lift (clean_loop profiles []) ;;
              if is_empty cleaned
              then raise (ProfileError NoValidProfiles)
              else
                let selected :=
                  match dict_get "selected" top with
                  | Some (PStr s) =>
                      if negb (dict_mem s cleaned) then dict_first_key cleaned else s
                  | _ => dict_first_key cleaned
                  end in
                let merged := mkDocument selected cleaned in
                _ <- save_all merged ;;
                ret merged
          | _ => raise (ProfileError MissingProfiles)
          end
      | _ => raise (ProfileError InvalidFormat)
      end
  end.

(** How [export_profiles] ends: the text written at the destination, the
    [ProfileError] of a destination that cannot be written, or what
    [load_all] raised. *)
Inductive Exported : Type :=
| Written (payload : PyVal)
| ExportFailed
| LoadFailed (e : PyExc).

(** [export_profiles(destination)]; [destination_writable] tells whether
    writing at the destination succeeds. *)
Definition export_profiles (destination_writable : bool) (st : Store)
    : Exported * Store :=
  match load_all st with
  | (Ok data, st') =>
      if destination_writable then (Written (dumps data), st')
      else (ExportFailed, st')
  | (Raise e, st') => (LoadFailed e, st')
  end.

(** The four operations of the store, and a run of several in turn. *)
Inductive Operation : Type :=
| LoadAll
| Upsert (name : string) (values : dict PyVal)
| Delete (name : string)
| Import (source : FileContent).

Definition run (op : Operation) : M Document :=
  match op with
  | LoadAll => load_all
  | Upsert name values => upsert_profile name values
  | Delete name => delete_profile name
  | Import source => import_profiles source
  end.

(** The result of each operation with the store it leaves. *)
Fixpoint run_all (ops : list Operation) (st : Store)
    : list (Result Document * Store) :=
  match ops with
  | [] => []
  | op :: rest => run op st :: run_all rest (snd (run op st))
  end.

End Profiles.

Import Profiles.

(* ===================================================================== *)
(** * The part of [shlex] the program uses *)
(* ===================================================================== *)

Module Shlex.

Definition apostrophe : ascii := ascii_of_nat 39.

Definition double_quote : ascii := ascii_of_nat 34.

(** The characters [quote] leaves alone, [[\w@%+=:,./-]] under
    [re.ASCII]: letters, digits, the underscore and nine signs. *)
Definition is_safe (c : ascii) : bool :=
  ((48 <=? code c) && (code c <=? 57))
  || ((65 <=? code c) && (code c <=? 90))
  || ((97 <=? code c) && (code c <=? 122))
  || (code c =? 95)
  || existsb (Z.eqb (code c)) [64; 37; 43; 61; 58; 44; 46; 47; 45].

(** [s.replace("'", "'\"'\"'")]: every apostrophe becomes apostrophe,
    double quote, apostrophe, double quote, apostrophe. *)
Fixpoint escape_quotes (s : string) : string :=
  match s with
  | EmptyString => EmptyString
  | String c rest =>
      if code c =? 39
      then String apostrophe (String double_quote (String apostrophe
             (String double_quote (String apostrophe (escape_quotes rest)))))
      else String c (escape_quotes rest)
  end.

(** [shlex.quote(s)] *)
Definition quote (s : string) : string :=
  match s with
  | EmptyString => "''"
  | _ =>
      if all_in is_safe s then s
      else String apostrophe (escape_quotes s ++ "'")%string
  end.

(** [shlex.join(split_command)] *)
Definition join (split_command : list string) : string :=
  String.concat " " (map quote split_command).

(** How a shell reads a command line made of plain words and quoted parts:
    blanks separate words, an apostrophe opens a part that runs to the next
    apostrophe, a double quote one that runs to the next double quote, and
    adjacent parts make one word.  A text the reading does not cover (an
    operator, an expansion, an escape, a quote left open) gives [None]. *)
Inductive Reading : Type := Between | InWord | InSingle | InDouble.

Definition add_char (word : string) (c : ascii) : string :=
  (word ++ String c EmptyString)%string.

Fixpoint shell_words_from (mode : Reading) (word : string) (text : string)
    : option (list string) :=
  match text with
  | EmptyString =>
      match mode with
      | Between => Some []
      | InWord => Some [word]
      | InSingle | InDouble => None
      end
  | String c rest =>
      match mode with
      | Between | InWord =>
          if (code c =? 32) || (code c =? 9) then
            match mode with
            | InWord => option_map (cons word) (shell_words_from Between EmptyString rest)
            | _ => shell_words_from Between EmptyString rest
            end
          else if code c =? 39 then
            shell_words_from InSingle (match mode with InWord => word | _ => EmptyString end) rest
          else if code c =? 34 then
            shell_words_from InDouble (match mode with InWord => word | _ => EmptyString end) rest
          else if is_safe c then
            shell_words_from InWord
              (add_char (match mode with InWord => word | _ => EmptyString end) c) rest
          else None
      | InSingle =>
          if code c =? 39 then shell_words_from InWord word rest
          else shell_words_from InSingle (add_char word c) rest
      | InDouble =>
          if code c =? 34 then shell_words_from InWord word rest
          else if (code c =? 36) || (code c =? 96) || (code c =? 92) || (code c =? 33)
          then None
          else shell_words_from InDouble (add_char word c) rest
      end
  end.

Definition shell_words (text : string) : option (list string) :=
  shell_words_from Between EmptyString text.

End Shlex.

(* ===================================================================== *)
(** * core/systemd.py: the integration scripts *)
(* ===================================================================== *)

Module Systemd.

Definition SERVICE_PATH : string := "/etc/systemd/system/ryzenadj-control.service".

Definition HOOK_PATH : string := "/usr/lib/systemd/system-sleep/ryzenadj-control-resume".

Definition newline : string := String (ascii_of_nat 10) EmptyString.

(** ["\n".join(lines)] *)
Definition join_lines (lines : list string) : string := String.concat newline lines.

Definition _quoted_command (command : list string) : string := Shlex.join command.

Definition build_service_content (command : list string) : string :=
  let quoted := _quoted_command command in
  join_lines
    [ "[Unit]";
      "Description=Apply ryzenadj profile (ryzenadj-control)";
      "After=multi-user.target";
      EmptyString;
      "[Service]";
      "Type=oneshot";
      ("ExecStart=" ++ quoted)%string;
      EmptyString;
      "[Install]";
      "WantedBy=multi-user.target";
      EmptyString ].

Definition build_sleep_hook_content (command : list string) : string :=
  let quoted := _quoted_command command in
  let dq := String Shlex.double_quote EmptyString in
  join_lines
    [ "#!/usr/bin/env bash";
      ("if [ " ++ dq ++ "$1" ++ dq ++ " = " ++ dq ++ "post" ++ dq ++ " ]; then")%string;
      ("  " ++ quoted)%string;
      "fi";
      EmptyString ].

Definition build_sync_script (command : list string) (enable_boot enable_resume : bool)
    : string :=
  let service_content := build_service_content command in
  let hook_content := build_sleep_hook_content command in
  let script_lines :=
    [ "set -euo pipefail";
      "mkdir -p /etc/systemd/system";
      "mkdir -p /usr/lib/systemd/system-sleep" ] in
  let script_lines :=
    if enable_boot then
      let quoted_service := Shlex.quote service_content in
      script_lines
      ++ [ ("printf '%s' " ++ quoted_service ++ " > " ++ SERVICE_PATH)%string;
           "chmod 644 /etc/systemd/system/ryzenadj-control.service";
           "systemctl daemon-reload";
           "systemctl enable ryzenadj-control.service";
           "systemctl restart ryzenadj-control.service || true" ]
    else
      script_lines
      ++ [ "systemctl disable ryzenadj-control.service || true";
           "rm -f /etc/systemd/system/ryzenadj-control.service";
           "systemctl daemon-reload" ] in
  let script_lines :=
    if enable_resume then
      let quoted_hook := Shlex.quote hook_content in
      script_lines
      ++ [ ("printf '%s' " ++ quoted_hook ++ " > " ++ HOOK_PATH)%string;
           "chmod 755 /usr/lib/systemd/system-sleep/ryzenadj-control-resume" ]
    else
      script_lines ++ [ "rm -f /usr/lib/systemd/system-sleep/ryzenadj-control-resume" ] in
  join_lines script_lines.

Definition build_boot_script (command : list string) (enable_boot : bool) : string :=
  let service_content := build_service_content command in
  let script_lines :=
    [ "set -euo pipefail";
      "mkdir -p /etc/systemd/system" ] in
  let script_lines :=
    if enable_boot then
      let quoted_service := Shlex.quote service_content in
      script_lines
      ++ [ ("printf '%s' " ++ quoted_service ++ " > " ++ SERVICE_PATH)%string;
           "chmod 644 /etc/systemd/system/ryzenadj-control.service";
           "systemctl daemon-reload";
           "systemctl enable ryzenadj-control.service";
           "systemctl restart ryzenadj-control.service || true" ]
    else
      script_lines
      ++ [ "systemctl disable ryzenadj-control.service || true";
           "rm -f /etc/systemd/system/ryzenadj-control.service";
           "systemctl daemon-reload" ] in
  join_lines script_lines.

Definition build_resume_script (command : list string) (enable_resume : bool) : string :=
  let hook_content := build_sleep_hook_content command in
  let script_lines :=
    [ "set -euo pipefail";
      "mkdir -p /usr/lib/systemd/system-sleep" ] in
  let script_lines :=
    if enable_resume then
      let quoted_hook := Shlex.quote hook_content in
      script_lines
      ++ [ ("printf '%s' " ++ quoted_hook ++ " > " ++ HOOK_PATH)%string;
           "chmod 755 /usr/lib/systemd/system-sleep/ryzenadj-control-resume" ]
    else
      script_lines ++ [ "rm -f /usr/lib/systemd/system-sleep/ryzenadj-control-resume" ] in
  join_lines script_lines.

End Systemd.

(* ===================================================================== *)
(** * ui/main_window.py: the profile actions of the main window *)
(* ===================================================================== *)

Module MainWindow.

Definition INITIAL_DEFAULT_PROFILE_NAME : string := "Initial Default".

(** What [_show_error] was given: a fixed text, or [str(exc)] of a
    [ProfileError]. *)
Inductive Notice : Type :=
| ErrorText (text : string)
| ErrorOf (msg : ProfileErrorMsg).

(** The window as far as profiles go: [self.current_data], the world of
    [self.profile_manager], and the errors shown so far.  The widgets are
    not modelled: the text of the profile box and the values of the controls
    are arguments of the actions. *)
Record Window : Type := mkWindow {
  current_data : Document;
  manager : Store;
  shown : list Notice
}.

Definition _show_error (n : Notice) (w : Window) : Window :=
  mkWindow (current_data w) (manager w) (shown w ++ [n]).

Definition _is_read_only_profile (name : string) : bool :=
  String.eqb (strip name) INITIAL_DEFAULT_PROFILE_NAME.

Definition _visible_profile_names (w : Window) : list string :=
  filter (fun name => negb (String.eqb name INITIAL_DEFAULT_PROFILE_NAME))
         (dict_keys (profiles (current_data w))).

(** [on_profile_selected]: a visible, stored, non-empty profile becomes the
    selection and the document is saved; a failing save is not caught
    here. *)
Definition on_profile_selected (profile_name : string) (w : Window)
    : Result unit * Window :=
  let profile_name := strip profile_name in
  if String.eqb profile_name EmptyString then (Ok tt, w)
  else if _is_read_only_profile profile_name then (Ok tt, w)
  else
    match dict_get profile_name (profiles (current_data w)) with
    | None | Some [] => (Ok tt, w)
    | Some _ =>
        let data := mkDocument profile_name (profiles (current_data w)) in
        match save_all data (manager w) with
        | (Ok _, st) => (Ok tt, mkWindow data st (shown w))
        | (Raise e, st) => (Raise e, mkWindow data st (shown w))
        end
    end.

(** [_reload_profile_dropdown]: the box ends on [selected] when it is
    visible, else on the first visible name, else empty; a non-empty text is
    then handed to [on_profile_selected]. *)
Definition _reload_profile_dropdown (selected : string) (w : Window)
    : Result unit * Window :=
  let visible_profiles := _visible_profile_names w in
  let text :=
    if negb (String.eqb selected EmptyString)
       && existsb (String.eqb selected) visible_profiles
    then selected
    else match visible_profiles with
         | first :: _ => first
         | [] => EmptyString
         end in
  if String.eqb text EmptyString then (Ok tt, w)
  else on_profile_selected text w.

(** [save_current_profile]; [text] is the text of the profile box and
    [values] what [collect_current_values] returns.  Only [ProfileError] is
    caught. *)
Definition save_current_profile (text : string) (values : dict PyVal) (w : Window)
    : Result unit * Window :=
  let name := strip text in
  if String.eqb name EmptyString
  then (Ok tt, _show_error (ErrorText "Please type a profile name.") w)
  else if _is_read_only_profile name
  then (Ok tt, _show_error
                 (ErrorText "Reserved name. Initial Default is internal and read-only.") w)
  else
    match upsert_profile name values (manager w) with
    | (Ok data, st) =>
        match _reload_profile_dropdown name (mkWindow data st (shown w)) with
        | (Raise (ProfileError msg), w') => (Ok tt, _show_error (ErrorOf msg) w')
        | other => other
        end
    | (Raise (ProfileError msg), st) =>
        (Ok tt, _show_error (ErrorOf msg) (mkWindow (current_data w) st (shown w)))
    | (Raise e, st) => (Raise e, mkWindow (current_data w) st (shown w))
    end.

(** [delete_selected_profile]; [confirmed] is the answer to the question
    box.  Removing the boot and resume hooks of a deleted selection is left
    to the integration code. *)
Definition delete_selected_profile (text : string) (confirmed : bool) (w : Window)
    : Result unit * Window :=
  let name := strip text in
  if String.eqb name EmptyString then (Ok tt, w)
  else if _is_read_only_profile name
  then (Ok tt, _show_error
                 (ErrorText "This profile is read-only and cannot be deleted.") w)
  else if negb confirmed then (Ok tt, w)
  else
    match delete_profile name (manager w) with
    | (Ok data, st) =>
        match _reload_profile_dropdown (selected data) (mkWindow data st (shown w)) with
        | (Raise (ProfileError msg), w') => (Ok tt, _show_error (ErrorOf msg) w')
        | other => other
        end
    | (Raise (ProfileError msg), st) =>
        (Ok tt, _show_error (ErrorOf msg) (mkWindow (current_data w) st (shown w)))
    | (Raise e, st) => (Raise e, mkWindow (current_data w) st (shown w))
    end.

(** ** [OptionControl]: the conversions between raw and displayed values *)

(** [self.ui_scale = max(1, int(ui_scale))] *)
Definition control_scale (ui_scale : Z) : Z := Z.max 1 ui_scale.

Definition _to_display (scale raw_value : Z) : Z := raw_value / scale.

Definition _to_raw (scale display_value : Z) : Z := display_value * scale.

(** ** Classifying the output of a failed run *)

Definition WARNING_PATTERNS : list string :=
  [ "not supported on this family"; "is not supported" ].

Definition FATAL_PATTERNS : list string :=
  [ "permission denied"; "command not found"; "no such file"; "failed to";
    "traceback"; "unable to"; "polkit"; "authentication" ].

Definition _is_warning_dominated_output (stdout stderr : string) : bool :=
  let text := lower (strip (Systemd.join_lines [stdout; stderr])) in
  if String.eqb text EmptyString then false
  else
    let has_warning := existsb (fun pattern => contains pattern text) WARNING_PATTERNS in
    if negb has_warning then false
    else
      let has_fatal := existsb (fun pattern => contains pattern text) FATAL_PATTERNS in
      negb has_fatal.

(** ** Applying values and integrations *)

(** What an action hands to the executor: [run_async] or
    [run_shell_async], each with the state of the pkexec box. *)
Inductive Request : Type :=
| RunCommand (command : list string) (use_pkexec : bool)
| RunShell (script : string) (use_pkexec : bool).

(** What the actions read besides the values: the boxes of the system page,
    and whether the boot service and the resume hook are found enabled. *)
Record SystemPage : Type := mkSystemPage {
  use_pkexec_checked : bool;
  apply_boot_checked : bool;
  apply_resume_checked : bool;
  auto_sync_checked : bool;
  boot_integration_enabled : bool;
  resume_integration_enabled : bool
}.

(** The status line set by an action, with its success flag, and the
    request it made, if any. *)
Record Outcome : Type := mkOutcome {
  status : string;
  status_success : bool;
  request : option Request
}.

Definition _should_auto_sync_after_apply (page : SystemPage) : bool :=
  if negb (auto_sync_checked page) then false
  else boot_integration_enabled page || resume_integration_enabled page.

Definition _run_apply_with_active_integration_sync (values : dict PyVal)
    (page : SystemPage) : Result Outcome :=
  let active_boot := boot_integration_enabled page in
  let active_resume := resume_integration_enabled page in
  bind (build_ryzenadj_command values "/usr/bin/ryzenadj") (fun command_sync =>
  if Nat.eqb (List.length command_sync) 1
  then Ok (mkOutcome "No active settings selected for Apply" false None)
  else
    let integration_script :=
      Systemd.build_sync_script command_sync active_boot active_resume in
    let apply_line := Shlex.join command_sync in
    let script :=
      Systemd.join_lines ["set -euo pipefail"; apply_line; integration_script] in
    Ok (mkOutcome "Applying profile and syncing active integration..." true
                  (Some (RunShell script (use_pkexec_checked page))))).

(** [apply_current_values]; [values] is what [collect_current_values]
    returns. *)
Definition apply_current_values (values : dict PyVal) (page : SystemPage)
    : Result Outcome :=
  bind (build_ryzenadj_command values "ryzenadj") (fun command =>
  if Nat.eqb (List.length command) 1
  then Ok (mkOutcome "No active settings selected for Apply" false None)
  else if _should_auto_sync_after_apply page
  then _run_apply_with_active_integration_sync values page
  else Ok (mkOutcome "Applying profile..." true
                     (Some (RunCommand command (use_pkexec_checked page))))).

Definition apply_system_integration (values : dict PyVal) (page : SystemPage)
    : Result Outcome :=
  bind (build_ryzenadj_command values "/usr/bin/ryzenadj") (fun command =>
  let wants_boot := apply_boot_checked page in
  let wants_resume := apply_resume_checked page in
  if (wants_boot || wants_resume) && Nat.eqb (List.length command) 1
  then Ok (mkOutcome
             "Enable at least one setting before applying boot/resume integration."
             false None)
  else
    let command :=
      if Nat.eqb (List.length command) 1 then ["/usr/bin/ryzenadj"] else command in
    let script := Systemd.build_sync_script command wants_boot wants_resume in
    Ok (mkOutcome "Applying integration settings..." true
                  (Some (RunShell script (use_pkexec_checked page))))).

(** ** Capturing the baseline *)

(** [_on_initial_default_capture_finished]; [text] is the text of the
    profile box when the run finished.  As in the other actions only
    [ProfileError] is caught. *)
Definition _on_initial_default_capture_finished (success : bool) (stdout : string)
    (text : string) (w : Window) : Result unit * Window :=
  if negb success then (Ok tt, w)
  else
    match parse_profile_values_from_info stdout with
    | Raise e => (Raise e, w)
    | Ok values =>
        let previous_visible := strip text in
        match upsert_profile INITIAL_DEFAULT_PROFILE_NAME values (manager w) with
        | (Ok data, st) =>
            let w := mkWindow data st (shown w) in
            let chosen :=
              if existsb (String.eqb previous_visible) (_visible_profile_names w)
              then previous_visible else EmptyString in
            let data := mkDocument chosen (profiles data) in
            match save_all data st with
            | (Ok _, st) =>
                match _reload_profile_dropdown chosen (mkWindow data st (shown w)) with
                | (Raise (ProfileError msg), w') => (Ok tt, _show_error (ErrorOf msg) w')
                | other => other
                end
            | (Raise (ProfileError msg), st) =>
                (Ok tt, _show_error (ErrorOf msg) (mkWindow data st (shown w)))
            | (Raise e, st) => (Raise e, mkWindow data st (shown w))
            end
        | (Raise (ProfileError msg), st) =>
            (Ok tt, _show_error (ErrorOf msg) (mkWindow (current_data w) st (shown w)))
        | (Raise e, st) => (Raise e, mkWindow (current_data w) st (shown w))
        end
    end.

(** ** More actions on profiles *)


(** [reset_to_defaults]: with a stored baseline the selection is emptied
    and the document saved; a failing save is not caught here. *)
Definition reset_to_defaults (w : Window) : Result unit * Window :=
  match dict_get INITIAL_DEFAULT_PROFILE_NAME (profiles (current_data w)) with
  | None | Some [] => (Ok tt, w)
  | Some _ =>
      let data := mkDocument EmptyString (profiles (current_data w)) in
      match save_all data (manager w) with
      | (Ok _, st) => (Ok tt, mkWindow data st (shown w))
      | (Raise e, st) => (Raise e, mkWindow data st (shown w))
      end
  end.

(** [MainWindow.import_profiles]; [picked] is what is at the path the file
    dialog returned, [None] when the dialog was cancelled. *)
Definition import_profiles_picked (picked : option FileContent) (w : Window)
    : Result unit * Window :=
  match picked with
  | None => (Ok tt, w)
  | Some source =>
      match import_profiles source (manager w) with
      | (Ok data, st) =>
          match _reload_profile_dropdown (selected data) (mkWindow data st (shown w)) with
          | (Raise (ProfileError msg), w') => (Ok tt, _show_error (ErrorOf msg) w')
          | other => other
          end
      | (Raise (ProfileError msg), st) =>
          (Ok tt, _show_error (ErrorOf msg) (mkWindow (current_data w) st (shown w)))
      | (Raise e, st) => (Raise e, mkWindow (current_data w) st (shown w))
      end
  end.

End MainWindow.

Import MainWindow.

(* ===================================================================== *)
(** * What the specification says, in its own words *)
(* ===================================================================== *)

Module Described.

(** The [<key>_enabled] flag of a numeric option is truthy. *)
Definition enabled (values : dict PyVal) (spec : OptionSpec) : bool :=
  py_bool (dict_get_default (enabled_key (key spec)) (PBool false) values).

(** The key of a boolean option is truthy. *)
Definition switched_on (values : dict PyVal) (option : BooleanOption) : bool :=
  py_bool (dict_get_default (bkey option) (PBool false) values).

(** The value of a numeric option coerced to an integer, 0 if absent. *)
Definition coerced (values : dict PyVal) (spec : OptionSpec) : Result Z :=
  py_int (dict_get_default (key spec) (PInt 0) values).


Definition all_disabled (values : dict PyVal) : bool :=
  forallb (fun spec => negb (enabled values spec)) NUMERIC_OPTIONS.

Definition only_enabled (k : string) (values : dict PyVal) : bool :=
  forallb (fun spec => Bool.eqb (enabled values spec) (String.eqb (key spec) k))
          NUMERIC_OPTIONS.

Definition all_switched_off (values : dict PyVal) : bool :=
  forallb (fun option => negb (switched_on values option)) BOOLEAN_OPTIONS.

(** Flag token and coerced value of each of [specs], in order. *)
Fixpoint numeric_arguments (specs : list OptionSpec) (values : dict PyVal)
    : Result (list string) :=
  match specs with
  | [] => Ok []
  | spec :: rest =>
      bind (coerced values spec) (fun value =>
      bind (numeric_arguments rest values) (fun arguments =>
      Ok (cli spec :: py_str_of_int value :: arguments)))
  end.

(** The executable, then the enabled numeric options, then the bare flags
    of the truthy boolean options, each in catalog order. *)
Definition described_command (values : dict PyVal) (binary : string)
    : Result (list string) :=
  bind (numeric_arguments (filter (enabled values) NUMERIC_OPTIONS) values)
       (fun arguments =>
  Ok (binary :: arguments
             ++ map bcli (filter (switched_on values) BOOLEAN_OPTIONS))).

(** *** Telemetry *)

Definition METRICS : list string :=
  ["stapm"; "ppt_fast"; "ppt_slow"; "cpu_temp"; "power_draw"].

Definition SENTINEL : PyVal := PStr "N/A".

(** The match of the first pattern, in priority order, that matches. *)
Fixpoint first_match (patterns : list regex) (text : string) : option Match :=
  match patterns with
  | [] => None
  | pattern :: rest =>
      match search pattern text with
      | Some m => Some m
      | None => first_match rest text
      end
  end.

(** What a metric resolves to: the captured token of the first matching
    pattern, or the sentinel. *)
Definition resolved (patterns : list regex) (text : string) : PyVal :=
  match first_match patterns text with
  | Some m => group m
  | None => SENTINEL
  end.

(** No pattern of any metric matches. *)
Definition unrecognized (text : string) : bool :=
  forallb (fun item =>
             forallb (fun pattern =>
                        match search pattern text with
                        | Some _ => false
                        | None => true
                        end)
                     (snd item))
          INFO_PATTERNS.

(** *** Baseline reconstruction *)

Definition token (spec : OptionSpec) : string :=
  lower (lstrip_by is_dash (cli spec)).

Definition token_alt (spec : OptionSpec) : string :=
  replace_char "-" " " (token spec).

(** The line names the option, by its flag token or by that token with
    spaces for dashes. *)
Definition mentions (spec : OptionSpec) (line : string) : bool :=
  contains (token spec) (lower line) || contains (token_alt spec) (lower line).

(** The first number of a line, as the integer the program reads. *)
Definition reported (line : string) : option (Result Z) :=
  option_map int_of_float_of_group (search NUMBER line).

Definition has_number (line : string) : bool :=
  match search NUMBER line with Some _ => true | None => false end.

(** The number of the first line that names the option and holds one. *)
Definition first_report (spec : OptionSpec) (lines : list string) : option (Result Z) :=
  match find (fun line => mentions spec line && has_number line) lines with
  | Some line => reported line
  | None => None
  end.

(** Every number the lines report fits a float. *)
Definition readable (lines : list string) : bool :=
  forallb (fun line =>
             match reported line with
             | Some (Raise _) => false
             | _ => true
             end)
          lines.

(** The scaling guard: scale a value at or under [maximum // ui_scale]. *)
Definition rescaled (spec : OptionSpec) (v : Z) : Z :=
  if v <=? maximum spec / ui_scale spec then v * ui_scale spec else v.

(** What is stored for a reported [v]: scaled if the guard says so, then
    clamped. *)
Definition stored (spec : OptionSpec) (v : Z) : Z :=
  Z.max 0 (if (1 <? ui_scale spec) && (v <=? maximum spec / ui_scale spec)
           then v * ui_scale spec
           else v).

(** The effect of one option on the value map. *)
Definition apply_report (spec : OptionSpec) (report : option (Result Z))
    (values : dict PyVal) : dict PyVal :=
  match report with
  | Some (Ok v) =>
      dict_set (enabled_key (key spec)) (PBool true)
        (dict_set (key spec) (PInt (stored spec v)) values)
  | _ => values
  end.

(** The two keys an option owns. *)
Definition touched (spec : OptionSpec) : list string :=
  [key spec; enabled_key (key spec)].

(** *** The profile store *)

(** A stored value: a boolean, or a non-negative integer. *)
Definition normal_value (v : PyVal) : bool :=
  match v with
  | PBool _ => true
  | PInt z => 0 <=? z
  | _ => false
  end.

(** The keys of a value map, each with whether it holds a boolean. *)
Definition kinds (d : dict PyVal) : list (string * bool) :=
  map (fun kv => (fst kv, is_bool (snd kv))) d.

(** A normalized value map: exactly the catalog's keys, in the catalog's
    order, booleans where the defaults have booleans and non-negative
    integers elsewhere. *)
Definition Normalized (n : dict PyVal) : Prop :=
  kinds n = kinds default_profile_values
  /\ forallb (fun kv => normal_value (snd kv)) n = true.

(** [selected] is empty or names a stored profile. *)
Definition selected_ok (d : Document) : Prop :=
  selected d = EmptyString \/ dict_mem (selected d) (profiles d) = true.

(** What every document the store hands out satisfies. *)
Definition well_kept (d : Document) : Prop :=
  NoDup (dict_keys (profiles d))
  /\ Forall (fun np => Normalized (snd np)) (profiles d)
  /\ selected_ok d.

(** An operation that returned left its document in the file, and the
    document's [selected] is in order. *)
Definition result_ok (r : Result Document * Store) : Prop :=
  match r with
  | (Ok d, st) => selected_ok d /\ file st = Json (dumps d)
  | (Raise _, _) => True
  end.

(** The name is empty or made of whitespace only. *)
Definition blank (name : string) : bool := String.eqb (strip name) EmptyString.


(** Keys in non-decreasing order. *)
Fixpoint sorted {V : Type} (d : dict V) : Prop :=
  match d with
  | [] => True
  | (k, _) :: rest =>
      match rest with
      | [] => True
      | (k', _) :: _ => String.leb k k' = true
      end /\ sorted rest
  end.

End Described.

Import Described.

(* ===================================================================== *)
(** * Notions used to state what the code shows *)
(* ===================================================================== *)

Module Observed.

Definition is_infinite (v : PyVal) : bool :=
  match v with
  | PFloat (FInf _) => true
  | _ => false
  end.

(** What normalizing stores under a catalog key whose default is [dflt]:
    the default when the key is missing; for a boolean key the truth value
    of what is given; for a numeric key the integer given, clamped at 0, or
    the default when [int] rejects it. *)
Definition normalized_entry (raw : dict PyVal) (k : string) (dflt : PyVal) : PyVal :=
  match dict_get k raw with
  | None => dflt
  | Some v =>
      if is_bool dflt then PBool (py_bool v)
      else
        match py_int v with
        | Ok z => PInt (Z.max 0 z)
        | Raise _ => dflt
        end
  end.

(** The entries of a JSON object that are objects themselves, each
    normalized, in the order of the text. *)
Fixpoint normalized_entries (items : list (string * PyVal))
    : Result (dict (dict PyVal)) :=
  match items with
  | [] => Ok []
  | (name, PDict raw_profile) :: rest =>
      bind (_normalize_profile raw_profile) (fun normalized =>
      bind (normalized_entries rest) (fun others =>
      Ok ((name, normalized) :: others)))
  | _ :: rest => normalized_entries rest
  end.

(** The names of the entries that are objects. *)
Definition object_names (items : list (string * PyVal)) : list string :=
  map fst (filter (fun np => is_dict (snd np)) items).

(** The entries of the [profiles] object of a parsed file, none if the file
    is not an object or has no such object. *)
Definition file_entries (raw : PyVal) : list (string * PyVal) :=
  match raw with
  | PDict top =>
      match dict_get "profiles" top with
      | Some (PDict entries) => entries
      | _ => []
      end
  | _ => []
  end.

(** The [selected] field of a parsed file when it is a string. *)
Definition file_selected (raw : PyVal) : option string :=
  match raw with
  | PDict top =>
      match dict_get "selected" top with
      | Some (PStr s) => Some s
      | _ => None
      end
  | _ => None
  end.

(** The lines a script has for the boot service, installing or removing
    it. *)
Definition boot_lines (command : list string) (enable_boot : bool) : list string :=
  if enable_boot then
    [ ("printf '%s' " ++ Shlex.quote (Systemd.build_service_content command)
         ++ " > " ++ Systemd.SERVICE_PATH)%string;
      "chmod 644 /etc/systemd/system/ryzenadj-control.service";
      "systemctl daemon-reload";
      "systemctl enable ryzenadj-control.service";
      "systemctl restart ryzenadj-control.service || true" ]
  else
    [ "systemctl disable ryzenadj-control.service || true";
      "rm -f /etc/systemd/system/ryzenadj-control.service";
      "systemctl daemon-reload" ].

(** The lines a script has for the resume hook. *)
Definition resume_lines (command : list string) (enable_resume : bool) : list string :=
  if enable_resume then
    [ ("printf '%s' " ++ Shlex.quote (Systemd.build_sleep_hook_content command)
         ++ " > " ++ Systemd.HOOK_PATH)%string;
      "chmod 755 /usr/lib/systemd/system-sleep/ryzenadj-control-resume" ]
  else
    [ "rm -f /usr/lib/systemd/system-sleep/ryzenadj-control-resume" ].

(** Some pattern of the list occurs in the lowercased text. *)
Definition mentioned (patterns : list string) (text : string) : bool :=
  existsb (fun pattern => contains pattern (lower text)) patterns.

(** The text ends without whitespace at either end (and is not empty). *)
Fixpoint last_char (s : string) : option ascii :=
  match s with
  | EmptyString => None
  | String c EmptyString => Some c
  | String _ rest => last_char rest
  end.

Definition solid (s : string) : bool :=
  match s, last_char s with
  | String c _, Some z => negb (is_space c) && negb (is_space z)
  | _, _ => false
  end.

(** A word [shlex.quote] leaves as it is: not empty and made of safe
    characters only. *)
Definition plain_word (s : string) : bool :=
  negb (String.eqb s EmptyString) && all_in Shlex.is_safe s.

(** No line feed occurs in the text. *)
Definition one_line (s : string) : bool := all_in (fun c => negb (code c =? 10)) s.

(** What holds of the window between two actions once the store has been
    written: the file holds the document of the window and can be written
    again. *)
Definition in_step (w : Window) : Prop :=
  writable (manager w) = true
  /\ file (manager w) = Json (dumps (current_data w)).

(** The window and the store agree: the file holds the document of the
    window, can be written again, and the document is one the store hands
    out. *)
Definition settled (w : Window) : Prop :=
  in_step w /\ well_kept (current_data w).

(** What the user can do to the profiles of the window, with what each
    action reads from the widgets and the dialogs. *)
Inductive Action : Type :=
| SaveCurrent (text : string) (values : dict PyVal)
| DeleteSelected (text : string) (confirmed : bool)
| ProfileSelected (profile_name : string)
| ResetToDefaults
| CaptureFinished (success : bool) (stdout text : string)
| ImportPicked (picked : option FileContent).

Definition act (a : Action) (w : Window) : Result unit * Window :=
  match a with
  | SaveCurrent text values => save_current_profile text values w
  | DeleteSelected text confirmed => delete_selected_profile text confirmed w
  | ProfileSelected profile_name => on_profile_selected profile_name w
  | ResetToDefaults => reset_to_defaults w
  | CaptureFinished success stdout text =>
      _on_initial_default_capture_finished success stdout text w
  | ImportPicked picked => import_profiles_picked picked w
  end.

End Observed.

Import Observed.

(* ===================================================================== *)
(** * Properties *)
(* ===================================================================== *)

(** ** Dictionaries *)

Section DictFacts.

Context {V : Type}.
Implicit Types (d : dict V) (k : string) (v : V).

Lemma dict_get_set_same k v d : dict_get k (dict_set k v d) = Some v.
Proof.
  induction d as [|[k' v'] d IH]; simpl.
  - now rewrite String.eqb_refl.
  - destruct (String.eqb k' k) eqn:E; simpl.
    + now rewrite String.eqb_refl.
    + now rewrite E.
Qed.

Lemma dict_get_set_other k k' v d :
  k <> k' -> dict_get k (dict_set k' v d) = dict_get k d.
Proof.
  intros Hne. induction d as [|[k0 v0] d IH]; simpl.
  - destruct (String.eqb_spec k' k); congruence.
  - destruct (String.eqb_spec k0 k'); simpl.
    + subst k0. destruct (String.eqb_spec k' k); congruence.
    + destruct (String.eqb_spec k0 k); congruence.
Qed.

Lemma dict_get_In k v d : dict_get k d = Some v -> In (k, v) d.
Proof.
  induction d as [|[k' v'] d IH]; simpl; [discriminate|].
  destruct (String.eqb_spec k' k); intros H.
  - left. congruence.
  - right. auto.
Qed.

Lemma dict_get_None k d : dict_get k d = None <-> ~ In k (dict_keys d).
Proof.
  induction d as [|[k' v'] d IH]; simpl.
  - tauto.
  - destruct (String.eqb_spec k' k); split; intros H.
    + discriminate.
    + exfalso. apply H. now left.
    + intros [E|Hin]; [congruence|]. now apply IH.
    + apply IH. tauto.
Qed.

Lemma dict_mem_In k d : dict_mem k d = true <-> In k (dict_keys d).
Proof.
  unfold dict_mem. destruct (dict_get k d) eqn:E.
  - split; [intros _|reflexivity].
    apply dict_get_In in E. now apply (in_map fst) in E.
  - split; [discriminate|]. intros Hin. now apply dict_get_None in E.
Qed.

Lemma In_dict_get k v d :
  NoDup (dict_keys d) -> In (k, v) d -> dict_get k d = Some v.
Proof.
  induction d as [|[k' v'] d IH]; simpl; [tauto|].
  intros Hnd [E|Hin].
  - inversion E; subst. now rewrite String.eqb_refl.
  - inversion Hnd as [|? ? Hnotin Hnd']; subst.
    destruct (String.eqb_spec k' k).
    + subst k'. exfalso. apply Hnotin. now apply (in_map fst) in Hin.
    + auto.
Qed.

Lemma dict_keys_set k v d :
  dict_keys (dict_set k v d)
  = if dict_mem k d then dict_keys d else dict_keys d ++ [k].
Proof.
  unfold dict_mem. induction d as [|[k' v'] d IH]; simpl; [reflexivity|].
  destruct (String.eqb_spec k' k); simpl.
  - now subst.
  - rewrite IH. now destruct (dict_get k d).
Qed.

Lemma dict_set_NoDup k v d :
  NoDup (dict_keys d) -> NoDup (dict_keys (dict_set k v d)).
Proof.
  intros Hnd. rewrite dict_keys_set. destruct (dict_mem k d) eqn:E; [assumption|].
  apply NoDup_app; [assumption|repeat constructor; simpl; tauto|].
  intros x Hx [<-|[]].
  apply dict_mem_In in Hx. congruence.
Qed.

Lemma dict_keys_pop_incl k k' d :
  In k' (dict_keys (dict_pop k d)) -> In k' (dict_keys d).
Proof.
  induction d as [|[k0 v0] d IH]; simpl; [tauto|].
  destruct (String.eqb k0 k); simpl; tauto.
Qed.

Lemma dict_pop_NoDup k d :
  NoDup (dict_keys d) -> NoDup (dict_keys (dict_pop k d)).
Proof.
  induction d as [|[k0 v0] d IH]; simpl; [auto|].
  intros Hnd. inversion Hnd; subst.
  destruct (String.eqb k0 k); simpl; [assumption|].
  constructor; [|auto].
  intros Hin. now apply dict_keys_pop_incl in Hin.
Qed.

Lemma dict_get_pop_same k d :
  NoDup (dict_keys d) -> dict_get k (dict_pop k d) = None.
Proof.
  induction d as [|[k0 v0] d IH]; simpl; [reflexivity|].
  intros Hnd. inversion Hnd; subst.
  destruct (String.eqb_spec k0 k); simpl.
  - subst. now apply dict_get_None.
  - destruct (String.eqb_spec k0 k); [congruence|auto].
Qed.

Lemma dict_get_pop_other k k' d :
  k <> k' -> dict_get k (dict_pop k' d) = dict_get k d.
Proof.
  intros Hne. induction d as [|[k0 v0] d IH]; simpl; [reflexivity|].
  destruct (String.eqb_spec k0 k'); simpl.
  - subst. destruct (String.eqb_spec k' k); congruence.
  - now rewrite IH.
Qed.

End DictFacts.

(** ** The command builder *)

Lemma numeric_loop_described specs values command :
  numeric_loop specs values command
  = bind (numeric_arguments (filter (enabled values) specs) values)
         (fun arguments => Ok (command ++ arguments)).
Proof.
  revert command. induction specs as [|spec specs IH]; intros command; simpl.
  - now rewrite app_nil_r.
  - unfold enabled at 1.
    destruct (py_bool (dict_get_default (enabled_key (key spec)) (PBool false) values));
      simpl; [|apply IH].
    unfold coerced.
    destruct (py_int (dict_get_default (key spec) (PInt 0) values)); simpl; [|reflexivity].
    rewrite IH.
    destruct (numeric_arguments (filter (enabled values) specs) values); simpl;
      [|reflexivity].
    now rewrite <- app_assoc.
Qed.

Lemma boolean_loop_described options values command :
  boolean_loop options values command
  = command ++ map bcli (filter (switched_on values) options).
Proof.
  revert command. induction options as [|option options IH]; intros command; simpl.
  - now rewrite app_nil_r.
  - unfold switched_on at 1.
    destruct (py_bool (dict_get_default (bkey option) (PBool false) values)); simpl.
    + rewrite IH, <- app_assoc. reflexivity.
    + apply IH.
Qed.

Lemma build_ryzenadj_command_described values binary :
  build_ryzenadj_command values binary = described_command values binary.
Proof.
  unfold build_ryzenadj_command, described_command.
  rewrite numeric_loop_described.
  destruct (numeric_arguments (filter (enabled values) NUMERIC_OPTIONS) values);
    cbn [bind]; [|reflexivity].
  now rewrite boolean_loop_described.
Qed.

Lemma filter_agree {A : Type} (f g : A -> bool) (l : list A) :
  forallb (fun x => Bool.eqb (f x) (g x)) l = true -> filter f l = filter g l.
Proof.
  induction l as [|x l IH]; simpl; [reflexivity|].
  intros H. apply andb_prop in H. destruct H as [Hx Hl].
  apply Bool.eqb_prop in Hx. rewrite Hx, (IH Hl). reflexivity.
Qed.

Lemma filter_none {A : Type} (f : A -> bool) (l : list A) :
  forallb (fun x => negb (f x)) l = true -> filter f l = [].
Proof.
  induction l as [|x l IH]; simpl; [reflexivity|].
  intros H. apply andb_prop in H. destruct H as [Hx Hl].
  apply negb_true_iff in Hx. rewrite Hx. auto.
Qed.






(** C2.  [build_ryzenadj_command] returns the executable, then flag and
    integer value (0 if absent) of every numeric option whose flag is truthy,
    then the bare flag of every truthy boolean option, all in catalog order.
    With everything off the result is the executable alone; with only
    [stapm_limit = 15000] enabled it is the executable, [--stapm-limit] and
    [15000]. *)
Theorem build_ryzenadj_command_catalog_order :
  forall (values : dict PyVal) (binary : string),
    build_ryzenadj_command values binary = described_command values binary
    /\ (all_disabled values = true -> all_switched_off values = true ->
        build_ryzenadj_command values binary = Ok [binary])
    /\ (dict_get "stapm_limit" values = Some (PInt 15000) ->
        only_enabled "stapm_limit" values = true ->
        all_switched_off values = true ->
        build_ryzenadj_command values binary
        = Ok [binary; "--stapm-limit"; "15000"]).
Proof.
  intros values binary. split; [apply build_ryzenadj_command_described|].
  rewrite build_ryzenadj_command_described. unfold described_command.
  split.
  - intros Hnum Hbool.
    rewrite (filter_none _ _ Hnum), (filter_none _ _ Hbool). reflexivity.
  - intros Hvalue Hnum Hbool.
    rewrite (filter_agree _ _ _ Hnum), (filter_none _ _ Hbool).
    cbn [filter NUMERIC_OPTIONS key String.eqb Ascii.eqb Bool.eqb].
    cbn [numeric_arguments]. unfold coerced, dict_get_default.
    cbn [key]. rewrite Hvalue. reflexivity.
Qed.

Lemma build_ryzenadj_command_catalog_order_witness :
  build_ryzenadj_command default_profile_values "tool" = Ok ["tool"]
  /\ build_ryzenadj_command
       [ ("max_performance", PBool false); ("stapm_limit_enabled", PBool true);
         ("fast_limit", PInt 35000); ("stapm_limit", PInt 15000) ]
       "tool" = Ok ["tool"; "--stapm-limit"; "15000"].
Proof.
  split.
  - apply (build_ryzenadj_command_catalog_order default_profile_values "tool");
      vm_compute; reflexivity.
  - apply (build_ryzenadj_command_catalog_order
             [ ("max_performance", PBool false); ("stapm_limit_enabled", PBool true);
               ("fast_limit", PInt 35000); ("stapm_limit", PInt 15000) ] "tool");
      vm_compute; reflexivity.
Defined.

(** ** The pattern matcher *)

Lemma append_assoc (a b c : string) : ((a ++ b) ++ c = a ++ (b ++ c))%string.
Proof. induction a as [|ch a IH]; simpl; [reflexivity|now rewrite IH]. Qed.

Lemma append_empty_r (a : string) : (a ++ EmptyString)%string = a.
Proof. induction a as [|ch a IH]; simpl; [reflexivity|now rewrite IH]. Qed.

Lemma length_append (a b : string) :
  String.length (a ++ b) = (String.length a + String.length b)%nat.
Proof. induction a as [|ch a IH]; simpl; [reflexivity|now rewrite IH]. Qed.

Lemma substring_prefix (a b : string) :
  substring 0 (String.length a) (a ++ b) = a.
Proof.
  induction a as [|ch a IH]; simpl.
  - now destruct b.
  - now rewrite IH.
Qed.

Lemma consumed_append (a b : string) : consumed (a ++ b) b = a.
Proof.
  unfold consumed. rewrite length_append.
  replace (String.length a + String.length b - String.length b)%nat
    with (String.length a) by lia.
  apply substring_prefix.
Qed.

Lemma skip_literal_split lit s rest :
  skip_literal lit s = Some rest ->
  exists text, s = (text ++ rest)%string /\ skip_literal lit text = Some EmptyString.
Proof.
  revert s. induction lit as [|a lit IH]; intros s; simpl.
  - intros H. inversion H; subst. exists EmptyString. auto.
  - destruct s as [|b s]; [discriminate|].
    destruct (Ascii.eqb (lower_char a) (lower_char b)) eqn:E; [|discriminate].
    intros H. destruct (IH s H) as [text [-> Htext]].
    exists (String b text). simpl. now rewrite E.
Qed.

Lemma class_rests_split p s rest :
  In rest (class_rests p s) ->
  exists text, s = (text ++ rest)%string /\ all_in p text = true.
Proof.
  revert rest. induction s as [|c s IH]; intros rest; simpl.
  - intros [<-|[]]. exists EmptyString. auto.
  - intros [<-|Hin]; [exists EmptyString; auto|].
    destruct (p c) eqn:E; [|destruct Hin].
    destruct (IH rest Hin) as [text [-> Htext]].
    exists (String c text). simpl. now rewrite E.
Qed.

(** Every way to match consumes a text of the pattern's language, and what
    group 1 holds is a text the group can hold. *)
Lemma matches_sound r :
  forall s rest g,
    In (rest, g) (matches r s) ->
    exists text,
      s = (text ++ rest)%string /\ lang r text
      /\ forall c, g = Some c -> captured r c.
Proof.
  induction r as [lit|p|p|p|r IH|r1 IH1 r2 IH2|r1 IH1 r2 IH2|r IH];
    intros s rest g Hin; simpl in Hin.
  - destruct (skip_literal lit s) as [rest'|] eqn:E; [|destruct Hin].
    destruct Hin as [Heq|[]]. inversion Heq; subst.
    destruct (skip_literal_split lit s rest E) as [text [-> Htext]].
    exists text. repeat split; [assumption|discriminate].
  - apply in_map_iff in Hin. destruct Hin as [rest' [Heq Hin]].
    inversion Heq; subst. apply in_rev in Hin.
    destruct (class_rests_split p s rest Hin) as [text [-> Htext]].
    exists text. repeat split; [assumption|discriminate].
  - apply in_map_iff in Hin. destruct Hin as [rest' [Heq Hin]].
    inversion Heq; subst.
    destruct (class_rests_split p s rest Hin) as [text [-> Htext]].
    exists text. repeat split; [assumption|discriminate].
  - destruct s as [|c s]; [destruct Hin|].
    destruct (p c) eqn:E; [|destruct Hin].
    apply in_map_iff in Hin. destruct Hin as [rest' [Heq Hin]].
    inversion Heq; subst. apply in_rev in Hin.
    destruct (class_rests_split p s rest Hin) as [text [-> Htext]].
    exists (String c text). simpl. rewrite E.
    repeat split; [discriminate|assumption|discriminate].
  - apply in_app_or in Hin. destruct Hin as [Hin|[Heq|[]]].
    + destruct (IH s rest g Hin) as [text [-> [Hl Hc]]].
      exists text. simpl. auto.
    + inversion Heq; subst. exists EmptyString. simpl.
      repeat split; [now left|discriminate].
  - apply in_flat_map in Hin. destruct Hin as [[rest1 g1] [Hin1 Hin2]].
    apply in_map_iff in Hin2. destruct Hin2 as [[rest2 g2] [Heq Hin2]].
    inversion Heq; subst. clear Heq.
    destruct (IH1 s rest1 g1 Hin1) as [x [-> [Hx Hc1]]].
    destruct (IH2 rest1 rest g2 Hin2) as [y [-> [Hy Hc2]]].
    exists (x ++ y)%string. rewrite append_assoc. split; [reflexivity|].
    split; [simpl; eauto|].
    intros c Hg. simpl. destruct g2 as [c2|]; [right|left]; auto.
  - apply in_app_or in Hin. destruct Hin as [Hin|Hin].
    + destruct (IH1 s rest g Hin) as [text [-> [Hl Hc]]].
      exists text. simpl. auto.
    + destruct (IH2 s rest g Hin) as [text [-> [Hl Hc]]].
      exists text. simpl. auto.
  - apply in_map_iff in Hin. destruct Hin as [[rest' g'] [Heq Hin]].
    inversion Heq; subst. clear Heq.
    destruct (IH s rest g' Hin) as [text [-> [Hl _]]].
    exists text. simpl. repeat split; [assumption|].
    intros c Hc. inversion Hc; subst. now rewrite consumed_append.
Qed.

Lemma search_sound r s m :
  search r s = Some m ->
  exists before text rest,
    s = (before ++ text ++ rest)%string /\ lang r text
    /\ forall c, group1 m = Some c -> captured r c.
Proof.
  induction s as [|ch s IH]; simpl.
  - destruct (matches r EmptyString) as [|[rest g] others] eqn:E; [discriminate|].
    intros H. inversion H; subst. clear H.
    destruct (matches_sound r EmptyString rest g) as [text [Hs [Hl Hc]]];
      [rewrite E; now left|].
    exists EmptyString, text, rest. auto.
  - destruct (matches r (String ch s)) as [|[rest g] others] eqn:E.
    + intros H. destruct (IH H) as [before [text [rest [-> [Hl Hc]]]]].
      exists (String ch before), text, rest. auto.
    + intros H. inversion H; subst. clear H.
      destruct (matches_sound r (String ch s) rest g) as [text [Hs [Hl Hc]]];
        [rewrite E; now left|].
      exists EmptyString, text, rest. auto.
Qed.

Lemma has_digit_append a b :
  has_digit (a ++ b) = has_digit a || has_digit b.
Proof.
  induction a as [|ch a IH]; simpl; [reflexivity|].
  now rewrite IH, orb_assoc.
Qed.

Lemma lang_DECIMAL_has_digit text : lang DECIMAL text -> has_digit text = true.
Proof.
  simpl. intros [x [y [-> [_ [ds [t [-> [[Hne Hds] _]]]]]]]].
  rewrite !has_digit_append.
  destruct ds as [|d ds]; [congruence|]. simpl in *.
  apply andb_prop in Hds. destruct Hds as [-> _]. simpl.
  now rewrite orb_true_r.
Qed.

Lemma ends_in_number_has_digit r text :
  ends_in_number r -> lang r text -> has_digit text = true.
Proof.
  revert text. induction r as [lit|p|p|p|r IH|r1 IH1 r2 IH2|r1 IH1 r2 IH2|r IH];
    intros text Hend Hl; simpl in Hend; try contradiction.
  - simpl in Hl. destruct Hend as [_ Hend]. destruct Hl as [x [y [-> [_ Hy]]]].
    rewrite has_digit_append, (IH2 y Hend Hy). apply orb_true_r.
  - subst r. now apply lang_DECIMAL_has_digit.
Qed.

Lemma search_needs_digit r s :
  ends_in_number r -> has_digit s = false -> search r s = None.
Proof.
  intros Hend Hs. destruct (search r s) as [m|] eqn:E; [|reflexivity].
  destruct (search_sound r s m E) as [before [text [rest [-> [Hl _]]]]].
  rewrite !has_digit_append, (ends_in_number_has_digit r text Hend Hl) in Hs.
  now rewrite orb_true_r in Hs.
Qed.

Lemma has_digit_lower s : has_digit (lower s) = has_digit s.
Proof.
  induction s as [|c s IH]; simpl; [reflexivity|]. rewrite IH. f_equal.
  unfold lower_char.
  destruct ((65 <=? code c) && (code c <=? 90)) eqn:E; [|reflexivity].
  destruct c as [[] [] [] [] [] [] [] []]; vm_compute in E; try discriminate;
    reflexivity.
Qed.

Lemma groupless_captured r c : groupless r = true -> ~ captured r c.
Proof.
  induction r as [lit|p|p|p|r IH|r1 IH1 r2 IH2|r1 IH1 r2 IH2|r IH];
    simpl; intros Hg; try tauto; try discriminate.
  - apply andb_prop in Hg. tauto.
  - apply andb_prop in Hg. tauto.
Qed.

Lemma ends_in_number_captured r c :
  ends_in_number r -> captured r c -> lang DECIMAL c.
Proof.
  induction r as [lit|p|p|p|r IH|r1 IH1 r2 IH2|r1 IH1 r2 IH2|r IH];
    cbn [ends_in_number captured]; try tauto.
  - intros [Hg Hend] [Hc|Hc]; [|now apply IH2].
    now apply groupless_captured in Hc.
  - intros -> Hc. exact Hc.
Qed.

Lemma ends_in_number_captures r : ends_in_number r -> captures r = true.
Proof.
  induction r as [lit|p|p|p|r IH|r1 IH1 r2 IH2|r1 IH1 r2 IH2|r IH];
    simpl; try tauto.
  intros [_ Hend]. rewrite (IH2 Hend). apply orb_true_r.
Qed.

Lemma lower_char_fixes (a b : ascii) :
  (code a <? 65) = true -> Ascii.eqb (lower_char a) (lower_char b) = true -> b = a.
Proof.
  intros Ha H. apply Ascii.eqb_eq in H.
  destruct a as [[] [] [] [] [] [] [] []]; vm_compute in Ha; try discriminate;
    destruct b as [[] [] [] [] [] [] [] []]; vm_compute in H; congruence.
Qed.

Lemma skip_one_char (a : ascii) text :
  (code a <? 65) = true ->
  skip_literal (String a EmptyString) text = Some EmptyString ->
  text = String a EmptyString.
Proof.
  intros Ha. destruct text as [|b text]; simpl; [discriminate|].
  destruct (Ascii.eqb (lower_char a) (lower_char b)) eqn:E; [|discriminate].
  intros H. inversion H; subst. now rewrite (lower_char_fixes a b Ha E).
Qed.

Lemma read_digits_run ds t acc n :
  all_in is_digit ds = true ->
  match t with String c _ => is_digit c = false | EmptyString => True end ->
  exists acc', read_digits (ds ++ t) acc n = (acc', (String.length ds + n)%nat, t).
Proof.
  intros Hds Ht. revert acc n.
  induction ds as [|d ds IH]; intros acc n; cbn [append read_digits String.length].
  - destruct t as [|c t]; [eexists; reflexivity|]. cbv beta iota in Ht.
    cbn [read_digits]. rewrite Ht. eexists; reflexivity.
  - cbn [all_in] in Hds. apply andb_prop in Hds. destruct Hds as [Hd Hds]. rewrite Hd.
    destruct (IH Hds (acc * 10 + digit_value d) (S n)) as [acc' ->].
    exists acc'. do 2 f_equal. lia.
Qed.

Lemma float_of_unsigned_accepts negative ds t :
  ds <> EmptyString -> all_in is_digit ds = true ->
  (t = EmptyString
   \/ exists dot fs, t = (dot ++ fs)%string
                     /\ skip_literal "." dot = Some EmptyString
                     /\ fs <> EmptyString /\ all_in is_digit fs = true) ->
  exists f, float_of_unsigned negative (ds ++ t) = Ok f.
Proof.
  intros Hne Hds Ht. unfold float_of_unsigned.
  destruct ds as [|d ds]; [congruence|].
  destruct Ht as [->|[dot [fs [-> [Hdot [Hfne Hfs]]]]]].
  - destruct (read_digits_run (String d ds) EmptyString 0 0 Hds I) as [acc ->].
    simpl. eauto.
  - apply skip_one_char in Hdot; [|reflexivity]. subst dot.
    destruct (read_digits_run (String d ds) ("." ++ fs) 0 0 Hds eq_refl) as [acc ->].
    simpl Nat.add. cbn [append]. cbn [code N_of_ascii Z.of_N].
    change (code "." =? 46) with true. cbv iota.
    destruct fs as [|f0 fs]; [congruence|].
    destruct (read_digits_run (String f0 fs) EmptyString acc 0 Hfs I) as [acc' Hrun].
    rewrite append_empty_r in Hrun. rewrite Hrun. simpl. eauto.
Qed.

Lemma lang_DECIMAL_float text :
  lang DECIMAL text -> returns (float_of_str text) = true.
Proof.
  unfold DECIMAL. cbn [lang]. intros [x [y [-> [Hx [ds [t [-> [[Hne Hds] Ht]]]]]]]].
  assert (Htail : t = EmptyString
                  \/ exists dot fs, t = (dot ++ fs)%string
                                    /\ skip_literal "." dot = Some EmptyString
                                    /\ fs <> EmptyString /\ all_in is_digit fs = true).
  { destruct Ht as [->|[dot [fs [-> [Hdot Hfs]]]]]; [now left|right; eauto]. }
  destruct Hx as [->|Hx].
  - cbn [append]. destruct ds as [|d ds]; [congruence|].
    unfold float_of_str. cbn [append].
    assert (Hd : (code d =? 45) = false).
    { cbn [all_in] in Hds. apply andb_prop in Hds. destruct Hds as [Hd _].
      unfold is_digit in Hd. apply andb_prop in Hd. destruct Hd as [Hd _].
      apply Z.leb_le in Hd. apply Z.eqb_neq. lia. }
    rewrite Hd.
    destruct (float_of_unsigned_accepts false (String d ds) t Hne Hds Htail) as [f Hf].
    cbn [append] in Hf. now rewrite Hf.
  - apply skip_one_char in Hx; [|reflexivity]. subst x.
    unfold float_of_str. cbn [append]. change (code "-" =? 45) with true. cbv iota.
    destruct (float_of_unsigned_accepts true ds t Hne Hds Htail) as [f ->].
    reflexivity.
Qed.

(** ** The telemetry parser *)

Lemma dict_set_absent {V : Type} (k : string) (v : V) (d : dict V) :
  ~ In k (dict_keys d) -> dict_set k v d = d ++ [(k, v)].
Proof.
  induction d as [|[k' v'] d IH]; simpl; [reflexivity|].
  intros Hnotin. destruct (String.eqb_spec k' k); [tauto|].
  rewrite IH; tauto.
Qed.

Lemma dict_set_last {V : Type} (k : string) (v v' : V) (d : dict V) :
  ~ In k (dict_keys d) -> dict_set k v' (d ++ [(k, v)]) = d ++ [(k, v')].
Proof.
  induction d as [|[k0 v0] d IH]; simpl.
  - now rewrite String.eqb_refl.
  - intros Hnotin. destruct (String.eqb_spec k0 k); [tauto|].
    rewrite IH; tauto.
Qed.

Lemma pattern_loop_resolved patterns text key parsed :
  ~ In key (dict_keys parsed) ->
  pattern_loop patterns text key (parsed ++ [(key, SENTINEL)])
  = parsed ++ [(key, resolved patterns text)].
Proof.
  intros Hnotin. unfold resolved.
  induction patterns as [|pattern patterns IH]; simpl; [reflexivity|].
  destruct (search pattern text) as [m|]; [|exact IH].
  now apply dict_set_last.
Qed.

Lemma metric_loop_resolved items text parsed :
  NoDup (dict_keys parsed ++ map fst items) ->
  metric_loop items text parsed
  = parsed ++ map (fun item => (fst item, resolved (snd item) text)) items.
Proof.
  revert parsed. induction items as [|[key patterns] items IH]; intros parsed Hnd; simpl.
  - now rewrite app_nil_r.
  - simpl in Hnd.
    assert (Hnotin : ~ In key (dict_keys parsed)).
    { apply NoDup_remove_2 in Hnd. intros Hin. apply Hnd. apply in_or_app. now left. }
    rewrite (dict_set_absent _ _ _ Hnotin).
    rewrite (pattern_loop_resolved _ _ _ _ Hnotin).
    rewrite IH.
    + now rewrite <- app_assoc.
    + unfold dict_keys in *. rewrite map_app, <- app_assoc. exact Hnd.
Qed.

Lemma matches_captured r :
  captures r = true ->
  forall s rest g, In (rest, g) (matches r s) -> exists text, g = Some text.
Proof.
  induction r as [lit|p|p|p|r IH|r1 IH1 r2 IH2|r1 IH1 r2 IH2|r IH];
    simpl; intros Hcap s rest g Hin; try discriminate.
  - apply in_flat_map in Hin. destruct Hin as [[rest1 g1] [Hin1 Hin2]].
    apply in_map_iff in Hin2. destruct Hin2 as [[rest2 g2] [Heq Hin2]].
    inversion Heq; subst. destruct g2 as [text|]; [eauto|].
    destruct (captures r2) eqn:E2.
    + destruct (IH2 eq_refl _ _ _ Hin2) as [text Htext]. discriminate.
    + rewrite orb_false_r in Hcap. exact (IH1 Hcap _ _ _ Hin1).
  - apply andb_prop in Hcap. destruct Hcap as [H1 H2].
    apply in_app_or in Hin. destruct Hin; eauto.
  - apply in_map_iff in Hin. destruct Hin as [[rest' g'] [Heq _]].
    inversion Heq; subst. eauto.
Qed.

Lemma search_captured r s m :
  captures r = true -> search r s = Some m -> exists text, group m = PStr text.
Proof.
  intros Hcap. induction s as [|c s IH]; simpl.
  - destruct (matches r EmptyString) as [|[rest g] others] eqn:E; [discriminate|].
    intros H. inversion H; subst.
    destruct (matches_captured r Hcap EmptyString rest g) as [text ->].
    + rewrite E. now left.
    + exists text. reflexivity.
  - destruct (matches r (String c s)) as [|[rest g] others] eqn:E; [exact IH|].
    intros H. inversion H; subst.
    destruct (matches_captured r Hcap (String c s) rest g) as [text ->].
    + rewrite E. now left.
    + exists text. reflexivity.
Qed.

Lemma INFO_PATTERNS_end_in_number :
  Forall (fun item => Forall ends_in_number (snd item)) INFO_PATTERNS.
Proof. repeat constructor. Qed.

(** What a metric resolves to is the sentinel or a decimal literal. *)
Lemma resolved_numeric patterns text :
  Forall ends_in_number patterns ->
  resolved patterns text = SENTINEL
  \/ exists token,
       resolved patterns text = PStr token /\ returns (float_of_str token) = true.
Proof.
  unfold resolved.
  induction patterns as [|pattern patterns IH]; intros Hall; cbn [first_match];
    [now left|].
  inversion Hall as [|? ? Hp Hrest]; subst.
  destruct (search pattern text) as [m|] eqn:E; [|auto].
  right.
  destruct (search_captured _ _ _ (ends_in_number_captures _ Hp) E) as [token Htoken].
  destruct (search_sound _ _ _ E) as [before [consumed_text [rest [_ [_ Hcap]]]]].
  exists token. split; [exact Htoken|].
  apply lang_DECIMAL_float, (ends_in_number_captured pattern); [exact Hp|].
  apply Hcap. unfold group in Htoken. destruct (group1 m); congruence.
Qed.

Lemma no_digit_no_match patterns text :
  Forall ends_in_number patterns -> has_digit text = false ->
  forallb (fun pattern =>
             match search pattern text with Some _ => false | None => true end)
          patterns = true.
Proof.
  intros Hall Hdigit. apply forallb_forall. intros pattern Hin.
  rewrite Forall_forall in Hall.
  now rewrite (search_needs_digit pattern text (Hall pattern Hin) Hdigit).
Qed.

Lemma first_match_unrecognized patterns text :
  forallb (fun pattern =>
             match search pattern text with Some _ => false | None => true end)
          patterns = true ->
  resolved patterns text = SENTINEL.
Proof.
  unfold resolved.
  induction patterns as [|pattern patterns IH]; simpl; [reflexivity|].
  intros H. apply andb_prop in H. destruct H as [Hp Hrest].
  destruct (search pattern text); [discriminate|auto].
Qed.

Lemma parse_info_output_resolved output :
  parse_info_output output
  = map (fun item => (fst item, resolved (snd item) (lower output))) INFO_PATTERNS.
Proof.
  unfold parse_info_output. rewrite metric_loop_resolved; [reflexivity|].
  simpl. repeat constructor; simpl; intuition discriminate.
Qed.

(** C9.  [parse_info_output] is total: for every text it returns one
    entry per metric, in the order of the metrics; the entry of a metric is
    the text captured by the first of its patterns, in priority order, that
    matches the lowercased input, or ["N/A"] when none matches; every entry
    is ["N/A"] or a signed decimal literal; a text that no pattern matches
    gives ["N/A"] for every metric, and a text without a digit is such a
    text. *)
Theorem parse_info_output_resolves :
  forall output : string,
    parse_info_output output
    = map (fun item => (fst item, resolved (snd item) (lower output))) INFO_PATTERNS
    /\ dict_keys (parse_info_output output) = METRICS
    /\ Forall (fun entry =>
                 snd entry = SENTINEL
                 \/ exists token,
                      snd entry = PStr token
                      /\ returns (float_of_str token) = true)
              (parse_info_output output)
    /\ (unrecognized (lower output) = true ->
        parse_info_output output = map (fun metric => (metric, SENTINEL)) METRICS)
    /\ (has_digit output = false -> unrecognized (lower output) = true).
Proof.
  intros output. rewrite parse_info_output_resolved.
  split; [reflexivity|]. split; [reflexivity|]. split; [|split].
  - apply Forall_map. apply Forall_forall. intros item Hin. cbn [snd].
    apply resolved_numeric.
    pose proof INFO_PATTERNS_end_in_number as Hall.
    rewrite Forall_forall in Hall. exact (Hall item Hin).
  - unfold unrecognized. intros H.
    assert (Hall : forall item, In item INFO_PATTERNS ->
                     resolved (snd item) (lower output) = SENTINEL).
    { intros item Hin. apply first_match_unrecognized.
      rewrite forallb_forall in H. exact (H item Hin). }
    transitivity (map (fun item : string * list regex => (fst item, SENTINEL))
                      INFO_PATTERNS); [|reflexivity].
    apply map_ext_in. intros item Hin. now rewrite Hall.
  - intros Hdigit. unfold unrecognized. apply forallb_forall. intros item Hin.
    apply no_digit_no_match; [|now rewrite has_digit_lower].
    pose proof INFO_PATTERNS_end_in_number as Hall.
    rewrite Forall_forall in Hall. exact (Hall item Hin).
Qed.

Lemma parse_info_output_resolves_witness :
  parse_info_output "ryzenadj: unable to init"
  = [ ("stapm", PStr "N/A"); ("ppt_fast", PStr "N/A"); ("ppt_slow", PStr "N/A");
      ("cpu_temp", PStr "N/A"); ("power_draw", PStr "N/A") ].
Proof.
  apply (parse_info_output_resolves "ryzenadj: unable to init").
  vm_compute. reflexivity.
Defined.

(** ** Baseline reconstruction *)

Lemma distinct_NoDup l : distinct l = true -> NoDup l.
Proof.
  induction l as [|x l IH]; simpl; intros H; constructor.
  - apply andb_prop in H. destruct H as [H _]. apply negb_true_iff in H.
    intros Hin. assert (existsb (String.eqb x) l = true); [|congruence].
    apply existsb_exists. exists x. split; [assumption|apply String.eqb_refl].
  - apply andb_prop in H. tauto.
Qed.

Lemma touched_distinct : NoDup (flat_map touched NUMERIC_OPTIONS).
Proof. apply distinct_NoDup. vm_compute. reflexivity. Qed.

Lemma line_loop_report spec lines values :
  readable lines = true ->
  line_loop spec (token spec) (token_alt spec) lines values
  = Ok (apply_report spec (first_report spec lines) values).
Proof.
  unfold first_report.
  induction lines as [|line lines IH]; [reflexivity|].
  cbn [readable forallb line_loop find]. intros Hread.
  apply andb_prop in Hread. destruct Hread as [Hline Hrest].
  specialize (IH Hrest).
  unfold reported in Hline. unfold mentions at 1, has_number at 1, reported.
  rewrite <- negb_orb.
  destruct (contains (token spec) (lower line) || contains (token_alt spec) (lower line));
    cbn [negb andb]; [|exact IH].
  destruct (search NUMBER line) as [m|] eqn:E; cbn [option_map] in *; [|exact IH].
  rewrite E. cbn [option_map].
  destruct (int_of_float_of_group m) as [v|e]; [reflexivity|discriminate].
Qed.

Lemma option_loop_fold specs lines values :
  readable lines = true ->
  option_loop specs lines values
  = Ok (fold_left (fun vs spec => apply_report spec (first_report spec lines) vs)
                  specs values).
Proof.
  intros Hread. revert values.
  induction specs as [|spec specs IH]; intros values; simpl; [reflexivity|].
  fold (token spec). fold (token_alt spec).
  rewrite (line_loop_report _ _ _ Hread). simpl. apply IH.
Qed.

Lemma apply_report_other spec report values k :
  ~ In k (touched spec) ->
  dict_get k (apply_report spec report values) = dict_get k values.
Proof.
  intros Hk. destruct report as [[v|e]|]; simpl; try reflexivity.
  rewrite !dict_get_set_other; [reflexivity| |]; intros E; apply Hk; simpl; auto.
Qed.

Lemma fold_report_other specs lines values k :
  ~ In k (flat_map touched specs) ->
  dict_get k (fold_left (fun vs spec => apply_report spec (first_report spec lines) vs)
                        specs values)
  = dict_get k values.
Proof.
  revert values. induction specs as [|spec specs IH]; intros values Hk;
    [reflexivity|].
  cbn [fold_left]. cbn [flat_map] in Hk.
  rewrite IH, apply_report_other; [reflexivity| |];
    intros Hin; apply Hk; apply in_or_app; auto.
Qed.

Lemma fold_report_own specs lines values spec v :
  NoDup (flat_map touched specs) ->
  In spec specs ->
  first_report spec lines = Some (Ok v) ->
  let values' :=
    fold_left (fun vs spec => apply_report spec (first_report spec lines) vs)
              specs values in
  dict_get (key spec) values' = Some (PInt (stored spec v))
  /\ dict_get (enabled_key (key spec)) values' = Some (PBool true).
Proof.
  revert values. induction specs as [|spec0 specs IH]; intros values Hnd Hin Hrep;
    [destruct Hin|].
  cbn [fold_left]. cbn [flat_map] in Hnd.
  assert (Hnd' : NoDup (flat_map touched specs)).
  { apply NoDup_app_remove_l in Hnd. exact Hnd. }
  destruct Hin as [->|Hin]; [|now apply IH].
  assert (Hk : ~ In (key spec) (flat_map touched specs)).
  { simpl in Hnd. now inversion Hnd; subst; intros Hin; apply H1; right. }
  assert (He : ~ In (enabled_key (key spec)) (flat_map touched specs)).
  { simpl in Hnd. inversion Hnd as [|? ? _ Hnd1]; subst. now inversion Hnd1. }
  assert (Hne : key spec <> enabled_key (key spec)).
  { simpl in Hnd. inversion Hnd as [|? ? Hnotin _]; subst.
    intros E. apply Hnotin. left. now symmetry. }
  rewrite !fold_report_other by assumption.
  rewrite Hrep. simpl. split.
  - rewrite dict_get_set_other by exact Hne. apply dict_get_set_same.
  - apply dict_get_set_same.
Qed.

(** C5.  For a catalog option with display scale [s > 1] and maximum [M]:
    when every number in the text fits a float and the first line that names
    the option and holds a number reports the integer [v],
    [parse_profile_values_from_info] returns a value map that stores, under
    the option's key, [v * s] if [v <= M // s] and [v] otherwise, clamped at
    0, and [True] under its enabled key.  For [stapm_limit] (scale 1000,
    maximum 200000) a reported 25 is stored as 25000 and a reported 25000
    stays 25000. *)
Theorem parse_profile_values_from_info_scaling_guard :
  (forall (spec : OptionSpec) (output : string) (v : Z),
      In spec NUMERIC_OPTIONS ->
      1 < ui_scale spec ->
      readable (splitlines output) = true ->
      first_report spec (splitlines output) = Some (Ok v) ->
      exists values,
        parse_profile_values_from_info output = Ok values
        /\ dict_get (key spec) values = Some (PInt (Z.max 0 (rescaled spec v)))
        /\ dict_get (enabled_key (key spec)) values = Some (PBool true))
  /\ (exists values,
        parse_profile_values_from_info "stapm-limit 25" = Ok values
        /\ dict_get "stapm_limit" values = Some (PInt 25000)
        /\ dict_get "stapm_limit_enabled" values = Some (PBool true))
  /\ (exists values,
        parse_profile_values_from_info "stapm-limit 25000" = Ok values
        /\ dict_get "stapm_limit" values = Some (PInt 25000)
        /\ dict_get "stapm_limit_enabled" values = Some (PBool true)).
Proof.
  split; [|split].
  - intros spec output v Hin Hscale Hread Hrep.
    unfold parse_profile_values_from_info.
    rewrite (option_loop_fold _ _ _ Hread).
    eexists. split; [reflexivity|].
    destruct (fold_report_own NUMERIC_OPTIONS (splitlines output)
                default_profile_values spec v touched_distinct Hin Hrep)
      as [Hvalue Henabled].
    split; [|exact Henabled].
    rewrite Hvalue. unfold stored, rescaled.
    apply Z.ltb_lt in Hscale. rewrite Hscale. reflexivity.
  - eexists. split; [vm_compute; reflexivity|]. split; reflexivity.
  - eexists. split; [vm_compute; reflexivity|]. split; reflexivity.
Qed.

Lemma parse_profile_values_from_info_scaling_guard_witness :
  exists values,
    parse_profile_values_from_info "| STAPM LIMIT | 45.000 | stapm-limit |" = Ok values
    /\ dict_get "stapm_limit" values = Some (PInt 45000)
    /\ dict_get "stapm_limit_enabled" values = Some (PBool true).
Proof.
  apply (proj1 parse_profile_values_from_info_scaling_guard
           (mkOption "stapm_limit" "--stapm-limit" "STAPM Limit" "Power"
                     0 200000 25000 "Sustained platform power limit in W."
                     1000 " W")
           "| STAPM LIMIT | 45.000 | stapm-limit |" 45).
  - simpl. left. reflexivity.
  - reflexivity.
  - vm_compute. reflexivity.
  - vm_compute. reflexivity.
Defined.

(** ** Sorted keys *)

Section SortFacts.

Context {V : Type}.
Implicit Types (d : dict V) (k : string) (v : V).

Lemma In_insert_sorted x k v d :
  In x (insert_sorted k v d) <-> x = (k, v) \/ In x d.
Proof.
  induction d as [|[k' v'] d IH]; simpl.
  - intuition.
  - destruct (String.leb k k'); simpl; [intuition|]. rewrite IH. intuition.
Qed.

Lemma In_sort_keys x d : In x (sort_keys d) <-> In x d.
Proof.
  induction d as [|[k v] d IH]; simpl; [tauto|].
  rewrite In_insert_sorted, IH. intuition.
Qed.

Lemma In_keys_insert_sorted k' k v d :
  In k' (dict_keys (insert_sorted k v d)) <-> k' = k \/ In k' (dict_keys d).
Proof.
  induction d as [|[k0 v0] d IH]; simpl.
  - intuition.
  - destruct (String.leb k k0); simpl; [intuition|]. rewrite IH. intuition.
Qed.

Lemma In_keys_sort_keys k d :
  In k (dict_keys (sort_keys d)) <-> In k (dict_keys d).
Proof.
  induction d as [|[k0 v0] d IH]; simpl; [tauto|].
  rewrite In_keys_insert_sorted, IH. intuition.
Qed.

Lemma insert_sorted_NoDup k v d :
  ~ In k (dict_keys d) -> NoDup (dict_keys d) ->
  NoDup (dict_keys (insert_sorted k v d)).
Proof.
  induction d as [|[k0 v0] d IH]; simpl; intros Hk Hnd.
  - repeat constructor. simpl. tauto.
  - destruct (String.leb k k0); simpl.
    + constructor; assumption.
    + inversion Hnd; subst. constructor.
      * rewrite In_keys_insert_sorted. intuition.
      * apply IH; tauto.
Qed.

Lemma sort_keys_NoDup d :
  NoDup (dict_keys d) -> NoDup (dict_keys (sort_keys d)).
Proof.
  induction d as [|[k v] d IH]; simpl; intros Hnd; [constructor|].
  inversion Hnd; subst. apply insert_sorted_NoDup; [|auto].
  now rewrite In_keys_sort_keys.
Qed.

Lemma dict_get_sort_keys k d :
  NoDup (dict_keys d) -> dict_get k (sort_keys d) = dict_get k d.
Proof.
  intros Hnd. destruct (dict_get k d) as [v|] eqn:E.
  - apply In_dict_get; [now apply sort_keys_NoDup|].
    apply In_sort_keys. now apply dict_get_In.
  - apply dict_get_None. rewrite In_keys_sort_keys. now apply dict_get_None.
Qed.

Lemma dict_mem_sort_keys k d :
  NoDup (dict_keys d) -> dict_mem k (sort_keys d) = dict_mem k d.
Proof. intros Hnd. unfold dict_mem. now rewrite dict_get_sort_keys. Qed.

Lemma insert_sorted_sorted k v d :
  sorted d -> sorted (insert_sorted k v d).
Proof.
  induction d as [|[k0 v0] d IH]; simpl; [tauto|].
  intros [Hhead Htail]. destruct (String.leb k k0) eqn:E.
  - simpl. tauto.
  - assert (Hle : String.leb k0 k = true).
    { destruct (String.leb_total k k0); congruence. }
    specialize (IH Htail). split; [|exact IH].
    destruct d as [|[k1 v1] d]; simpl in *; [exact Hle|].
    destruct (String.leb k k1); assumption.
Qed.

Lemma sort_keys_sorted d : sorted (sort_keys d).
Proof.
  induction d as [|[k v] d IH]; simpl; [exact I|].
  now apply insert_sorted_sorted.
Qed.

Lemma sort_keys_of_sorted d : sorted d -> sort_keys d = d.
Proof.
  induction d as [|[k v] d IH]; simpl; [reflexivity|].
  intros [Hhead Htail]. rewrite (IH Htail).
  destruct d as [|[k1 v1] d]; simpl; [reflexivity|].
  now rewrite Hhead.
Qed.

Lemma sort_keys_idempotent d : sort_keys (sort_keys d) = sort_keys d.
Proof. apply sort_keys_of_sorted, sort_keys_sorted. Qed.

End SortFacts.

Lemma insert_sorted_map {V W : Type} (f : V -> W) k v (d : dict V) :
  insert_sorted k (f v) (map (fun np => (fst np, f (snd np))) d)
  = map (fun np => (fst np, f (snd np))) (insert_sorted k v d).
Proof.
  induction d as [|[k0 v0] d IH]; simpl; [reflexivity|].
  destruct (String.leb k k0); simpl; [reflexivity|]. now rewrite IH.
Qed.

Lemma sort_keys_map {V W : Type} (f : V -> W) (d : dict V) :
  sort_keys (map (fun np => (fst np, f (snd np))) d)
  = map (fun np => (fst np, f (snd np))) (sort_keys d).
Proof.
  induction d as [|[k v] d IH]; simpl; [reflexivity|].
  now rewrite IH, insert_sorted_map.
Qed.

(** ** Normalized value maps *)

Lemma default_profile_values_Normalized : Normalized default_profile_values.
Proof. split; [reflexivity|vm_compute; reflexivity]. Qed.

Lemma kinds_keys d : map fst (kinds d) = dict_keys d.
Proof. unfold kinds, dict_keys. rewrite map_map. reflexivity. Qed.

Lemma Normalized_keys n : Normalized n -> dict_keys n = dict_keys default_profile_values.
Proof. intros [Hk _]. now rewrite <- !kinds_keys, Hk. Qed.

Lemma Normalized_NoDup n : Normalized n -> NoDup (dict_keys n).
Proof.
  intros Hn. rewrite (Normalized_keys n Hn).
  apply distinct_NoDup. vm_compute. reflexivity.
Qed.

Lemma kinds_set k v cur d :
  dict_get k d = Some cur -> is_bool v = is_bool cur ->
  kinds (dict_set k v d) = kinds d.
Proof.
  induction d as [|[k0 v0] d IH]; simpl; [discriminate|].
  destruct (String.eqb_spec k0 k); simpl.
  - intros H Hb. inversion H; subst. now rewrite Hb.
  - intros H Hb. now rewrite IH.
Qed.

Lemma normal_set k v d :
  normal_value v = true ->
  forallb (fun kv => normal_value (snd kv)) d = true ->
  forallb (fun kv => normal_value (snd kv)) (dict_set k v d) = true.
Proof.
  intros Hv. induction d as [|[k0 v0] d IH]; simpl.
  - now rewrite Hv.
  - intros H. apply andb_prop in H. destruct H as [H0 Hd].
    destruct (String.eqb k0 k); simpl.
    + now rewrite Hv.
    + now rewrite H0, IH.
Qed.

Lemma Normalized_set k v cur n :
  Normalized n -> dict_get k n = Some cur -> is_bool v = is_bool cur ->
  normal_value v = true -> Normalized (dict_set k v n).
Proof.
  intros [Hk Hv] Hget Hb Hnv. split.
  - now rewrite (kinds_set k v cur n Hget Hb).
  - now apply normal_set.
Qed.

Lemma max_normal n : normal_value (PInt (Z.max 0 n)) = true.
Proof. simpl. apply Z.leb_le. lia. Qed.

Lemma Normalized_value k v n :
  Normalized n -> dict_get k n = Some v -> normal_value v = true.
Proof.
  intros [_ Hv] Hget. apply dict_get_In in Hget.
  rewrite forallb_forall in Hv. exact (Hv (k, v) Hget).
Qed.

Lemma normal_not_bool v :
  normal_value v = true -> is_bool v = false -> exists z, v = PInt z /\ 0 <= z.
Proof.
  destruct v; simpl; try discriminate. intros H _. exists z. split; [reflexivity|].
  now apply Z.leb_le.
Qed.

(** The loop keeps a normalized map normalized. *)
Lemma normalize_loop_Normalized items acc n :
  Normalized acc -> normalize_loop items acc = Ok n -> Normalized n.
Proof.
  revert acc. induction items as [|[key value] items IH]; intros acc Hacc; simpl.
  - intros H. now inversion H; subst.
  - destruct (dict_get key acc) as [current|] eqn:Hget; [|now apply IH].
    destruct (is_bool current) eqn:Hb.
    + apply IH. now apply (Normalized_set key _ current).
    + destruct (py_int value) as [z|e].
      * apply IH. apply (Normalized_set key _ current); auto using max_normal.
      * destruct e; try discriminate; now apply IH.
Qed.

Lemma _normalize_profile_Normalized raw n :
  _normalize_profile raw = Ok n -> Normalized n.
Proof.
  apply normalize_loop_Normalized, default_profile_values_Normalized.
Qed.

Lemma kinds_get k a b x :
  kinds a = kinds b -> dict_get k a = Some x ->
  exists y, dict_get k b = Some y /\ is_bool y = is_bool x.
Proof.
  revert b. induction a as [|[ka va] a IH]; intros [|[kb vb] b]; simpl;
    try discriminate.
  intros Hk. inversion Hk; subst.
  destruct (String.eqb kb k).
  - intros H. inversion H; subst. eauto.
  - now apply IH.
Qed.

(** Feeding entries of a normalized map [n] to the loop installs them. *)
Lemma normalize_loop_entries n items acc :
  Normalized n -> Normalized acc ->
  (forall k v, In (k, v) items -> dict_get k n = Some v) ->
  exists acc',
    normalize_loop items acc = Ok acc'
    /\ Normalized acc'
    /\ forall k, dict_get k acc'
                 = if existsb (String.eqb k) (map fst items)
                   then dict_get k n else dict_get k acc.
Proof.
  intros Hn. revert acc.
  induction items as [|[key value] items IH]; intros acc Hacc Hitems; simpl.
  - eauto.
  - assert (Hget : dict_get key n = Some value) by (apply Hitems; now left).
    destruct Hn as [Hkn Hvn]. destruct Hacc as [Hka Hva].
    destruct (kinds_get key n acc value) as [current [Hcur Hkind]];
      [congruence|assumption|].
    rewrite Hcur.
    assert (Hnormal : normal_value value = true)
      by exact (Normalized_value key value n (conj Hkn Hvn) Hget).
    assert (Hstep : exists acc1,
               Normalized acc1
               /\ (forall k, dict_get k acc1
                             = if String.eqb k key then Some value else dict_get k acc)
               /\ (if is_bool current
                   then normalize_loop items
                          (dict_set key (PBool (py_bool value)) acc)
                   else match py_int value with
                        | Ok z => normalize_loop items
                                    (dict_set key (PInt (Z.max 0 z)) acc)
                        | Raise TypeError | Raise ValueError =>
                            normalize_loop items acc
                        | Raise e => Raise e
                        end)
                  = normalize_loop items acc1).
    { exists (dict_set key value acc). split; [|split].
      - apply (Normalized_set key value current); try assumption.
        + now split.
        + congruence.
      - intros k. destruct (String.eqb_spec k key).
        + subst. apply dict_get_set_same.
        + now apply dict_get_set_other.
      - destruct (is_bool current) eqn:Hb.
        + destruct value; simpl in Hkind; try congruence. reflexivity.
        + destruct (normal_not_bool value Hnormal) as [z [-> Hz]]; [congruence|].
          simpl. now rewrite Z.max_r. }
    destruct Hstep as [acc1 [Hacc1 [Hget1 ->]]].
    destruct (IH acc1 Hacc1) as [acc' [Hrun [Hacc' Hfinal]]].
    { intros k v Hin. apply Hitems. now right. }
    exists acc'. split; [exact Hrun|]. split; [exact Hacc'|].
    intros k. rewrite Hfinal, Hget1.
    destruct (String.eqb_spec k key); simpl.
    + subst k. rewrite Hget. now destruct (existsb _ _).
    + reflexivity.
Qed.

Lemma dict_eq_pointwise {V : Type} (a b : dict V) :
  dict_keys a = dict_keys b -> NoDup (dict_keys a) ->
  (forall k, dict_get k a = dict_get k b) -> a = b.
Proof.
  revert b. induction a as [|[ka va] a IH]; intros [|[kb vb] b]; simpl;
    try discriminate; [reflexivity|].
  intros Hk Hnd Hget. inversion Hk; subst. inversion Hnd as [|? ? Hnotin Hnd']; subst.
  assert (Hhead := Hget kb). rewrite String.eqb_refl in Hhead.
  inversion Hhead; subst. f_equal.
  apply IH; [assumption|assumption|].
  intros k. specialize (Hget k).
  destruct (String.eqb_spec kb k); [|assumption].
  subst k. transitivity (@None V).
  - now apply dict_get_None.
  - symmetry. apply dict_get_None. now rewrite <- H1.
Qed.

(** Normalizing a normalized map, whatever the order of its entries, gives
    it back. *)
Lemma _normalize_profile_entries n items :
  Normalized n ->
  (forall k v, In (k, v) items <-> In (k, v) n) ->
  _normalize_profile items = Ok n.
Proof.
  intros Hn Hitems. unfold _normalize_profile.
  destruct (normalize_loop_entries n items default_profile_values Hn
              default_profile_values_Normalized) as [acc' [Hrun [Hacc' Hfinal]]].
  { intros k v Hin. apply In_dict_get; [now apply Normalized_NoDup|].
    now apply Hitems. }
  rewrite Hrun. f_equal.
  apply dict_eq_pointwise.
  - now rewrite (Normalized_keys _ Hacc'), (Normalized_keys _ Hn).
  - now apply Normalized_NoDup.
  - intros k. rewrite Hfinal.
    destruct (existsb (String.eqb k) (map fst items)) eqn:E; [reflexivity|].
    assert (Hnot : ~ In k (dict_keys n)).
    { intros Hin. apply dict_mem_In in Hin. unfold dict_mem in Hin.
      destruct (dict_get k n) as [v|] eqn:Hv; [|discriminate].
      apply dict_get_In, Hitems in Hv.
      assert (existsb (String.eqb k) (map fst items) = true); [|congruence].
      apply existsb_exists. exists k. split; [|apply String.eqb_refl].
      now apply (in_map fst) in Hv. }
    transitivity (@None PyVal).
    + apply dict_get_None. now rewrite <- (Normalized_keys n Hn).
    + symmetry. now apply dict_get_None.
Qed.

Lemma _normalize_profile_sorted n :
  Normalized n -> _normalize_profile (sort_keys n) = Ok n.
Proof.
  intros Hn. apply _normalize_profile_entries; [assumption|].
  intros k v. apply In_sort_keys.
Qed.


(** ** The profile store *)

Lemma dict_set_Forall {V : Type} (Q : V -> Prop) k v (d : dict V) :
  Forall (fun np => Q (snd np)) d -> Q v ->
  Forall (fun np => Q (snd np)) (dict_set k v d).
Proof.
  intros Hd Hv. induction d as [|[k0 v0] d IH]; simpl.
  - repeat constructor. exact Hv.
  - inversion Hd; subst. destruct (String.eqb k0 k); constructor; auto.
Qed.

Lemma dict_pop_Forall {V : Type} (Q : string * V -> Prop) k (d : dict V) :
  Forall Q d -> Forall Q (dict_pop k d).
Proof.
  induction d as [|[k0 v0] d IH]; simpl; [auto|].
  intros Hd. inversion Hd; subst. destruct (String.eqb k0 k); [assumption|].
  constructor; auto.
Qed.

Lemma fold_dict_set_fresh {V : Type} (entries acc : dict V) :
  NoDup (dict_keys acc ++ dict_keys entries) ->
  fold_left (fun c np => dict_set (fst np) (snd np) c) entries acc = acc ++ entries.
Proof.
  revert acc. induction entries as [|[k v] entries IH]; intros acc Hnd; simpl.
  - now rewrite app_nil_r.
  - simpl in Hnd. rewrite dict_set_absent.
    + rewrite IH; [now rewrite <- app_assoc|].
      unfold dict_keys in *. rewrite map_app, <- app_assoc. exact Hnd.
    + apply NoDup_remove_2 in Hnd. intros Hin. apply Hnd, in_or_app. now left.
Qed.

Lemma clean_loop_kept items acc cleaned :
  NoDup (dict_keys acc) -> Forall (fun np => Normalized (snd np)) acc ->
  clean_loop items acc = Ok cleaned ->
  NoDup (dict_keys cleaned) /\ Forall (fun np => Normalized (snd np)) cleaned.
Proof.
  revert acc. induction items as [|[name profile] items IH]; intros acc Hnd Hall; simpl.
  - intros H. inversion H; subst. auto.
  - destruct profile; try (now apply IH).
    destruct (_normalize_profile d) as [normalized|e] eqn:Hn; [|discriminate].
    simpl. apply IH.
    + now apply dict_set_NoDup.
    + apply dict_set_Forall; [assumption|].
      exact (_normalize_profile_Normalized _ _ Hn).
Qed.

(** Reading back what [dumps] wrote. *)
Lemma clean_loop_saved entries acc :
  Forall (fun np => Normalized (snd np)) entries ->
  clean_loop (map (fun np => (fst np, PDict (sort_keys (snd np)))) entries) acc
  = Ok (fold_left (fun c np => dict_set (fst np) (snd np) c) entries acc).
Proof.
  revert acc. induction entries as [|[name n] entries IH]; intros acc Hall; simpl;
    [reflexivity|].
  inversion Hall; subst. simpl in *.
  rewrite _normalize_profile_sorted by assumption. simpl. now apply IH.
Qed.


Lemma well_kept_default : well_kept _default_data.
Proof. repeat split; simpl; [constructor|constructor|now left]. Qed.

(** A load that returns has checked the document and written it back. *)
Lemma load_all_inv st d st' :
  load_all st = (Ok d, st') ->
  well_kept d
  /\ writable st = true
  /\ st' = mkStore (Json (dumps d)) true (S (writes st)).
Proof.
  unfold load_all. destruct (file st) as [| |raw].
  - unfold bindM, save_all, ret. destruct (writable st); [|discriminate].
    intros H. inversion H; subst. auto using well_kept_default.
  - discriminate.
  - set (entries := match match raw with
                            | PDict top => dict_get_default "profiles" (PDict []) top
                            | _ => PDict []
                            end with PDict d0 => d0 | _ => [] end).
    set (chosen := match raw with
                   | PDict top => dict_get_default "selected" (PStr EmptyString) top
                   | _ => PStr EmptyString
                   end).
    unfold bindM, lift, save_all, ret.
    destruct (clean_loop entries []) as [cleaned|e] eqn:Hclean; [|discriminate].
    destruct (not_in chosen cleaned) as [absent|e] eqn:Habsent; [|discriminate].
    destruct (writable st); [|discriminate].
    intros H. inversion H; subst. clear H.
    destruct (clean_loop_kept entries [] cleaned) as [Hnd Hall];
      [constructor|constructor|assumption|].
    repeat split; try assumption.
    unfold selected_ok. simpl.
    destruct chosen as [| | | |s| |]; auto.
    simpl in Habsent. inversion Habsent; subst.
    destruct (dict_mem s cleaned) eqn:E; simpl; auto.
Qed.

(** Loading a file that holds a well-kept document. *)
Lemma load_all_saved st d0 :
  well_kept d0 -> writable st = true -> file st = Json (dumps d0) ->
  let d := mkDocument (selected d0) (sort_keys (profiles d0)) in
  load_all st = (Ok d, mkStore (Json (dumps d)) true (S (writes st))).
Proof.
  intros [Hnd [Hall Hsel]] Hw Hfile d.
  unfold load_all. rewrite Hfile. unfold dumps.
  change (dict_get_default "profiles" (PDict []) ?l)
    with (PDict (sort_keys (map (fun np => (fst np, PDict (sort_keys (snd np))))
                                (profiles d0)))).
  change (dict_get_default "selected" (PStr EmptyString) ?l)
    with (PStr (selected d0)).
  rewrite (sort_keys_map (fun p => PDict (sort_keys p))).
  unfold bindM, lift, ret, save_all.
  rewrite clean_loop_saved.
  2:{ apply Forall_forall. intros np Hin. rewrite Forall_forall in Hall.
      apply Hall. destruct np. now apply In_sort_keys. }
  rewrite (fold_dict_set_fresh (sort_keys (profiles d0)) []) by
    (simpl; now apply sort_keys_NoDup).
  simpl app. unfold not_in. rewrite dict_mem_sort_keys by assumption.
  rewrite Hw.
  assert (Hchosen : (if negb (dict_mem (selected d0) (profiles d0))
                     then EmptyString else selected d0) = selected d0).
  { destruct Hsel as [->| ->]; [now destruct (dict_mem _ _)|reflexivity]. }
  rewrite Hchosen. reflexivity.
Qed.

Lemma dumps_sorted d :
  dumps (mkDocument (selected d) (sort_keys (profiles d))) = dumps d.
Proof.
  unfold dumps. simpl.
  rewrite !(sort_keys_map (fun p => PDict (sort_keys p))).
  now rewrite sort_keys_idempotent.
Qed.

Lemma upsert_profile_run name values st d st1 n :
  load_all st = (Ok d, st1) ->
  blank name = false ->
  _normalize_profile values = Ok n ->
  let d1 := mkDocument name (dict_set name n (profiles d)) in
  upsert_profile name values st
  = (Ok d1, mkStore (Json (dumps d1)) true (S (writes st1)))
  /\ well_kept d1.
Proof.
  intros Hload Hname Hn d1.
  destruct (load_all_inv _ _ _ Hload) as [[Hnd [Hall Hsel]] [Hw Hst1]].
  split.
  - unfold upsert_profile, bindM. rewrite Hload.
    unfold blank in Hname. rewrite Hname.
    unfold lift. rewrite Hn. unfold save_all, ret.
    rewrite Hst1. reflexivity.
  - unfold well_kept, selected_ok, d1. cbn [selected profiles].
    split; [|split].
    + now apply dict_set_NoDup.
    + apply dict_set_Forall; [assumption|].
      exact (_normalize_profile_Normalized _ _ Hn).
    + right. unfold dict_mem. now rewrite dict_get_set_same.
Qed.

Lemma upsert_profile_inv name values st d1 st2 :
  upsert_profile name values st = (Ok d1, st2) ->
  well_kept d1 /\ file st2 = Json (dumps d1).
Proof.
  unfold upsert_profile, bindM.
  destruct (load_all st) as [[d|e] st1] eqn:Hload; [|discriminate].
  destruct (String.eqb (strip name) EmptyString) eqn:Hname; [discriminate|].
  unfold lift.
  destruct (_normalize_profile values) as [n|e] eqn:Hn; [|discriminate].
  intros H.
  destruct (upsert_profile_run name values st d st1 n Hload Hname Hn) as [Hrun Hkept].
  unfold upsert_profile, bindM, lift in Hrun. rewrite Hload, Hname, Hn in Hrun.
  rewrite Hrun in H. inversion H; subst. auto.
Qed.

Lemma dict_first_key_mem {V : Type} (d : dict V) :
  d <> [] -> dict_mem (dict_first_key d) d = true.
Proof.
  destruct d as [|[k v] d]; [congruence|]. intros _.
  unfold dict_mem. simpl. now rewrite String.eqb_refl.
Qed.

Lemma is_empty_nil {V : Type} (d : dict V) : is_empty d = true <-> d = [].
Proof. destruct d; simpl; split; congruence. Qed.

Lemma delete_profile_run name st d st1 :
  load_all st = (Ok d, st1) ->
  dict_mem name (profiles d) = true ->
  let rest := dict_pop name (profiles d) in
  let d' := mkDocument (if String.eqb (selected d) name
                        then dict_first_key rest else selected d) rest in
  delete_profile name st = (Ok d', mkStore (Json (dumps d')) true (S (writes st1)))
  /\ well_kept d'.
Proof.
  intros Hload Hmem rest d'.
  destruct (load_all_inv _ _ _ Hload) as [[Hnd [Hall Hsel]] [Hw Hst1]].
  assert (Hother : String.eqb (selected d) name = false -> rest = [] ->
                   selected d = EmptyString).
  { intros Hne Hrest. destruct Hsel as [Hsel|Hsel]; [assumption|].
    apply String.eqb_neq in Hne. unfold dict_mem in Hsel.
    rewrite <- (dict_get_pop_other (selected d) name) in Hsel by assumption.
    fold rest in Hsel. rewrite Hrest in Hsel. discriminate. }
  split.
  - unfold delete_profile, bindM. rewrite Hload, Hmem. cbn [negb selected profiles].
    fold rest. unfold save_all, ret. rewrite Hst1. cbn [writable writes].
    unfold d'. destruct (String.eqb (selected d) name) eqn:Hs; cbn [andb].
    + destruct rest; reflexivity.
    + destruct (is_empty rest) eqn:He; [|reflexivity].
      apply is_empty_nil in He. now rewrite (Hother eq_refl He).
  - unfold well_kept, selected_ok, d'. cbn [selected profiles].
    split; [now apply dict_pop_NoDup|]. split; [now apply dict_pop_Forall|].
    destruct (String.eqb_spec (selected d) name) as [Hs|Hs].
    + destruct rest as [|entry rest'] eqn:Hrest; [now left|].
      right. now apply dict_first_key_mem.
    + destruct Hsel as [Hsel|Hsel]; [now left|]. right.
      unfold dict_mem, rest. now rewrite dict_get_pop_other.
Qed.

Lemma delete_profile_absent name st d st1 :
  load_all st = (Ok d, st1) ->
  dict_mem name (profiles d) = false ->
  delete_profile name st = (Raise (ProfileError (DoesNotExist name)), st1).
Proof.
  intros Hload Hmem. unfold delete_profile, bindM. now rewrite Hload, Hmem.
Qed.

Lemma delete_profile_inv name st d' st2 :
  delete_profile name st = (Ok d', st2) ->
  well_kept d' /\ file st2 = Json (dumps d').
Proof.
  intros H.
  destruct (load_all st) as [[d|e] st1] eqn:Hload.
  - destruct (dict_mem name (profiles d)) eqn:Hmem.
    + destruct (delete_profile_run name st d st1 Hload Hmem) as [Hrun Hkept].
      rewrite Hrun in H. inversion H; subst. auto.
    + rewrite (delete_profile_absent name st d st1 Hload Hmem) in H. discriminate.
  - unfold delete_profile, bindM in H. rewrite Hload in H. discriminate.
Qed.

Lemma import_profiles_inv source st d st' :
  import_profiles source st = (Ok d, st') ->
  well_kept d /\ file st' = Json (dumps d).
Proof.
  unfold import_profiles.
  destruct source as [| |imported]; try discriminate.
  destruct imported as [| | | | | |top]; try discriminate.
  destruct (dict_get "profiles" top) as [entries|]; [|discriminate].
  destruct entries as [| | | | | |entries]; try discriminate.
  unfold bindM, lift.
  destruct (clean_loop entries []) as [cleaned|e] eqn:Hclean; [|discriminate].
  destruct (is_empty cleaned) eqn:Hempty; [discriminate|].
  unfold save_all, ret. destruct (writable st); [|discriminate].
  intros H. inversion H; subst. clear H. split; [|reflexivity].
  destruct (clean_loop_kept entries [] cleaned) as [Hnd Hall];
    [constructor|constructor|assumption|].
  unfold well_kept, selected_ok. cbn [selected profiles].
  split; [assumption|]. split; [assumption|]. right.
  assert (Hfirst : dict_mem (dict_first_key cleaned) cleaned = true).
  { apply dict_first_key_mem. intros ->. discriminate. }
  destruct (dict_get "selected" top) as [chosen|]; [|assumption].
  destruct chosen as [| | | |s| |]; try assumption.
  destruct (dict_mem s cleaned) eqn:Hs; assumption.
Qed.

Lemma import_profiles_raise source st e st' :
  import_profiles source st = (Raise e, st') -> st' = st.
Proof.
  unfold import_profiles.
  destruct source as [| |imported]; try (unfold raise; congruence).
  destruct imported as [| | | | | |top]; try (unfold raise; congruence).
  destruct (dict_get "profiles" top) as [entries|]; [|unfold raise; congruence].
  destruct entries as [| | | | | |entries]; try (unfold raise; congruence).
  unfold bindM, lift.
  destruct (clean_loop entries []) as [cleaned|e'] eqn:Hclean; [|congruence].
  destruct (is_empty cleaned); [unfold raise; congruence|].
  unfold save_all, ret. destruct (writable st); [discriminate|congruence].
Qed.

Lemma run_inv op st d st' :
  run op st = (Ok d, st') -> well_kept d /\ file st' = Json (dumps d).
Proof.
  destruct op as [|name values|name|source]; simpl; intros H.
  - destruct (load_all_inv _ _ _ H) as [Hkept [_ ->]]. auto.
  - exact (upsert_profile_inv _ _ _ _ _ H).
  - exact (delete_profile_inv _ _ _ _ H).
  - exact (import_profiles_inv _ _ _ _ H).
Qed.






(** C7.  Whatever operations are run in turn on whatever store, every
    operation that returns a document returns one whose [selected] is empty
    or a key of its [profiles], and that document is what the file then
    holds. *)
Theorem selected_is_empty_or_a_profile :
  forall (ops : list Operation) (st : Store),
    Forall result_ok (run_all ops st).
Proof.
  induction ops as [|op ops IH]; intros st; simpl; constructor; [|apply IH].
  destruct (run op st) as [[d|e] st'] eqn:Hrun; simpl; [|exact I].
  destruct (run_inv op st d st' Hrun) as [[_ [_ Hsel]] Hfile]. auto.
Qed.

(** C8.  On a store that loads: deleting a name that is not among the
    loaded profiles raises [ProfileError]; deleting one that is returns a
    document from which just that profile is gone, whose [selected] is the
    first remaining key (empty if none remains) when the deleted profile was
    selected and is unchanged otherwise, and which is written to the file. *)
Theorem delete_profile_removes_and_reselects :
  forall (name : string) (st : Store) (d : Document) (st1 : Store),
    load_all st = (Ok d, st1) ->
    (dict_mem name (profiles d) = false ->
     delete_profile name st = (Raise (ProfileError (DoesNotExist name)), st1))
    /\ (dict_mem name (profiles d) = true ->
        exists d' st2,
          delete_profile name st = (Ok d', st2)
          /\ profiles d' = dict_pop name (profiles d)
          /\ dict_mem name (profiles d') = false
          /\ (forall other, other <> name ->
                dict_get other (profiles d') = dict_get other (profiles d))
          /\ selected d'
             = (if String.eqb (selected d) name
                then dict_first_key (profiles d') else selected d)
          /\ (profiles d' = [] -> selected d' = EmptyString)
          /\ file st2 = Json (dumps d')).
Proof.
  intros name st d st1 Hload. split; [now apply delete_profile_absent|].
  intros Hmem.
  destruct (delete_profile_run name st d st1 Hload Hmem) as [Hrun Hkept].
  destruct (load_all_inv _ _ _ Hload) as [[Hnd _] _].
  eexists. eexists. split; [exact Hrun|]. cbn [selected profiles file].
  split; [reflexivity|]. split; [|split; [|split; [reflexivity|split; [|reflexivity]]]].
  - unfold dict_mem. now rewrite dict_get_pop_same.
  - intros other Hne. now apply dict_get_pop_other.
  - intros Hrest. destruct Hkept as [_ [_ Hsel]].
    unfold selected_ok in Hsel. cbn [selected profiles] in Hsel.
    destruct Hsel as [Hsel|Hsel]; [exact Hsel|].
    rewrite Hrest in Hsel. discriminate.
Qed.

Lemma delete_profile_removes_and_reselects_witness :
  exists d' st2,
    delete_profile "Quiet"
      (mkStore (Json (PDict [("selected", PStr "Quiet");
                             ("profiles", PDict [("Quiet", PDict []);
                                                 ("Loud", PDict [])])]))
               true 0) = (Ok d', st2)
    /\ dict_keys (profiles d') = ["Loud"]
    /\ selected d' = "Loud"
    /\ file st2 = Json (dumps d').
Proof.
  pose (st := mkStore (Json (PDict [("selected", PStr "Quiet");
                                    ("profiles", PDict [("Quiet", PDict []);
                                                        ("Loud", PDict [])])]))
                      true 0).
  pose (d := mkDocument "Quiet" [("Quiet", default_profile_values);
                                 ("Loud", default_profile_values)]).
  destruct (delete_profile_removes_and_reselects "Quiet" st d
              (mkStore (Json (dumps d)) true 1))
    as [_ Hpresent]; [vm_compute; reflexivity|].
  destruct (Hpresent eq_refl) as [d' [st2 [Hrun [Hrest [_ [_ [Hsel [_ Hfile]]]]]]]].
  exists d', st2. split; [exact Hrun|].
  split; [now rewrite Hrest|]. split; [|exact Hfile].
  rewrite Hsel, Hrest. reflexivity.
Defined.

(** C10.  Every [load_all] that returns has written the file: the file
    then holds the serialization of the returned document and the write
    count has gone up by one.  It returns on a missing file (writing the
    empty document) and on a file that holds a document the store wrote
    before, where it writes the very same text again. *)
Theorem load_all_rewrites_the_file :
  (forall (st : Store) (d : Document) (st' : Store),
      load_all st = (Ok d, st') ->
      file st' = Json (dumps d) /\ writes st' = S (writes st))
  /\ (forall st : Store,
        file st = Missing -> writable st = true ->
        load_all st
        = (Ok _default_data, mkStore (Json (dumps _default_data)) true (S (writes st))))
  /\ (forall (st : Store) (d0 : Document),
        well_kept d0 -> file st = Json (dumps d0) -> writable st = true ->
        exists d,
          load_all st = (Ok d, mkStore (Json (dumps d0)) true (S (writes st)))
          /\ dumps d = dumps d0).
Proof.
  split; [|split].
  - intros st d st' H. destruct (load_all_inv _ _ _ H) as [_ [_ ->]]. auto.
  - intros st Hfile Hw. unfold load_all. rewrite Hfile.
    unfold bindM, save_all, ret. now rewrite Hw.
  - intros st d0 Hkept Hfile Hw.
    exists (mkDocument (selected d0) (sort_keys (profiles d0))).
    rewrite (load_all_saved st d0 Hkept Hw Hfile).
    now rewrite dumps_sorted.
Qed.

Lemma load_all_rewrites_the_file_witness :
  (file (snd (load_all (mkStore Missing true 0)))
   = Json (dumps _default_data)
   /\ writes (snd (load_all (mkStore Missing true 0))) = 1%nat)
  /\ load_all (mkStore Missing true 0)
     = (Ok _default_data, mkStore (Json (dumps _default_data)) true 1)
  /\ exists d,
       load_all (mkStore (Json (dumps _default_data)) true 1)
       = (Ok d, mkStore (Json (dumps _default_data)) true 2)
       /\ dumps d = dumps _default_data.
Proof.
  destruct load_all_rewrites_the_file as [Hwritten [Hmissing Hsaved]].
  split; [|split].
  - apply (Hwritten (mkStore Missing true 0) _default_data). reflexivity.
  - apply Hmissing; reflexivity.
  - apply (Hsaved (mkStore (Json (dumps _default_data)) true 1) _default_data);
      [exact well_kept_default|reflexivity|reflexivity].
Defined.

(** ** The main window *)



(** ** Behaviour at the edges *)

(** The store itself takes the reserved name: capturing the baseline goes
    through [upsert_profile]. *)
Example upsert_profile_takes_reserved_name :
  exists d st,
    upsert_profile INITIAL_DEFAULT_PROFILE_NAME default_profile_values
                   (mkStore Missing true 0) = (Ok d, st)
    /\ selected d = INITIAL_DEFAULT_PROFILE_NAME
    /\ dict_get INITIAL_DEFAULT_PROFILE_NAME (profiles d) = Some default_profile_values.
Proof.
  eexists. eexists. split; [vm_compute; reflexivity|]. split; reflexivity.
Qed.

(** [int] of an infinite float raises [OverflowError], which the handler of
    [_normalize_profile] does not catch; a NaN raises [ValueError] and is
    skipped. *)
Example _normalize_profile_infinite_float :
  _normalize_profile [("tctl_temp", PFloat (FInf false))] = Raise OverflowError
  /\ _normalize_profile [("tctl_temp", PFloat FNan)] = Ok default_profile_values.
Proof. split; vm_compute; reflexivity. Qed.

(** A [selected] that is a list cannot be looked up in a dict:
    [load_all] raises [TypeError] and writes nothing. *)
Example load_all_unhashable_selected :
  load_all (mkStore (Json (PDict [("selected", PList []); ("profiles", PDict [])]))
                    true 0)
  = (Raise TypeError,
     mkStore (Json (PDict [("selected", PList []); ("profiles", PDict [])])) true 0).
Proof. reflexivity. Qed.

(** A run in which each of the four operations returns. *)
Example run_all_returns :
  forallb (fun r => returns (fst r))
          (run_all [ LoadAll;
                     Upsert "Quiet" [("tctl_temp", PInt 80)];
                     Import (Json (PDict [("profiles",
                                           PDict [("Loud", PDict [("max_performance",
                                                                   PBool true)]);
                                                  ("Cool", PDict [])])]));
                     Delete "Loud" ]
                   (mkStore Missing true 0))
  = true.
Proof. vm_compute. reflexivity. Qed.

(* ===================================================================== *)
(** * Further properties *)
(* ===================================================================== *)

(** ** More on normalization *)

Lemma normalize_loop_pointwise items :
  NoDup (dict_keys items) ->
  forall acc n,
    normalize_loop items acc = Ok n ->
    forall k cur,
      dict_get k acc = Some cur ->
      dict_get k n = Some (normalized_entry items k cur).
Proof.
  induction items as [|[key value] items IH]; intros Hnd acc n Hrun k cur Hcur.
  - simpl in Hrun. inversion Hrun; subst. exact Hcur.
  - simpl in Hnd. inversion Hnd as [|? ? Hfresh Hnd']; subst.
    assert (Hnone : dict_get key items = None) by now apply dict_get_None.
    cbn [normalize_loop] in Hrun. unfold normalized_entry. cbn [dict_get].
    destruct (dict_get key acc) as [current|] eqn:Hget.
    + destruct (String.eqb_spec key k) as [->|Hne].
      * rewrite Hcur in Hget. inversion Hget; subst current. clear Hget.
        destruct (is_bool cur) eqn:Hb.
        -- rewrite (IH Hnd' _ _ Hrun k (PBool (py_bool value)))
             by apply dict_get_set_same.
           unfold normalized_entry. now rewrite Hnone.
        -- destruct (py_int value) as [z|e].
           ++ rewrite (IH Hnd' _ _ Hrun k (PInt (Z.max 0 z)))
                by apply dict_get_set_same.
              unfold normalized_entry. now rewrite Hnone.
           ++ assert (Hskip : normalize_loop items acc = Ok n)
                by (destruct e; try discriminate; exact Hrun).
              rewrite (IH Hnd' _ _ Hskip k cur Hcur).
              unfold normalized_entry. now rewrite Hnone.
      * assert (Hstep : exists acc1, normalize_loop items acc1 = Ok n
                                     /\ dict_get k acc1 = Some cur).
        { destruct (is_bool current).
          - eexists. split; [exact Hrun|].
            rewrite dict_get_set_other by congruence. exact Hcur.
          - destruct (py_int value) as [z|e].
            + eexists. split; [exact Hrun|].
              rewrite dict_get_set_other by congruence. exact Hcur.
            + exists acc. split; [|exact Hcur].
              destruct e; try discriminate; exact Hrun. }
        destruct Hstep as [acc1 [Hrun1 Hcur1]].
        rewrite (IH Hnd' _ _ Hrun1 k cur Hcur1). reflexivity.
    + destruct (String.eqb_spec key k) as [->|Hne]; [congruence|].
      rewrite (IH Hnd' _ _ Hrun k cur Hcur). reflexivity.
Qed.

Lemma dict_get_map_entry {V W : Type} (f : string -> V -> W) k (d : dict V) :
  dict_get k (map (fun kv => (fst kv, f (fst kv) (snd kv))) d)
  = option_map (f k) (dict_get k d).
Proof.
  induction d as [|[k0 v0] d IH]; simpl; [reflexivity|].
  destruct (String.eqb_spec k0 k); [now subst|exact IH].
Qed.

(** X1.  Normalizing a dict gives the catalog's keys in the catalog's order: each
    with the value given for it, coerced and clamped, and with its default
    when the key is missing or, for a numeric key, when [int] rejects the
    value; keys outside the catalog are dropped. *)
Theorem _normalize_profile_by_key :
  forall (raw n : dict PyVal),
    NoDup (dict_keys raw) ->
    _normalize_profile raw = Ok n ->
    n = map (fun kd => (fst kd, normalized_entry raw (fst kd) (snd kd)))
            default_profile_values.
Proof.
  intros raw n Hnd Hrun.
  assert (Hn : Normalized n) by exact (_normalize_profile_Normalized raw n Hrun).
  apply dict_eq_pointwise.
  - rewrite (Normalized_keys n Hn). unfold dict_keys. rewrite map_map. reflexivity.
  - now apply Normalized_NoDup.
  - intros k. rewrite dict_get_map_entry.
    destruct (dict_get k default_profile_values) as [cur|] eqn:Hcur; simpl.
    + exact (normalize_loop_pointwise raw Hnd _ _ Hrun k cur Hcur).
    + apply dict_get_None. rewrite (Normalized_keys n Hn). now apply dict_get_None.
Qed.

Lemma _normalize_profile_by_key_witness :
  dict_set "max_performance" (PBool true)
    (dict_set "tctl_temp" (PInt 0) default_profile_values)
  = map (fun kd =>
           (fst kd,
            normalized_entry [("tctl_temp", PInt (-5)); ("fan", PInt 3);
                              ("stapm_limit", PStr "oops"); ("max_performance", PInt 1)]
                             (fst kd) (snd kd)))
        default_profile_values.
Proof.
  apply _normalize_profile_by_key.
  - apply distinct_NoDup. reflexivity.
  - vm_compute. reflexivity.
Defined.

Lemma py_int_overflow v :
  py_int v = Raise OverflowError -> is_infinite v = true.
Proof.
  destruct v as [|b|z|f|s|l|d]; simpl; try discriminate.
  - destruct f; simpl; try discriminate. reflexivity.
  - unfold int_of_str. destruct (match rstrip_by is_blank (lstrip_by is_blank s) with
                                 | EmptyString => _ | String _ _ => _ end); discriminate.
Qed.

Lemma normalize_loop_returns items :
  forallb (fun kv => negb (is_infinite (snd kv))) items = true ->
  forall acc, exists n, normalize_loop items acc = Ok n.
Proof.
  induction items as [|[key value] items IH]; intros Hfin acc; simpl; [eauto|].
  simpl in Hfin. apply andb_prop in Hfin. destruct Hfin as [Hv Hrest].
  destruct (dict_get key acc) as [current|]; [|auto].
  destruct (is_bool current); [auto|].
  destruct (py_int value) as [z|e] eqn:E; [auto|].
  destruct e; auto.
  - apply py_int_overflow in E. rewrite E in Hv. discriminate.
  - destruct value as [|b|z|f|s|l|d]; simpl in E; try discriminate.
    + destruct f; discriminate.
    + unfold int_of_str in E.
      destruct (match rstrip_by is_blank (lstrip_by is_blank s) with
                | EmptyString => _ | String _ _ => _ end); discriminate.
Qed.

(** X2.  Normalizing returns for every dict that holds no infinite float: what
    [int] rejects with [TypeError] or [ValueError] is skipped. *)
Theorem _normalize_profile_returns :
  forall raw : dict PyVal,
    forallb (fun kv => negb (is_infinite (snd kv))) raw = true ->
    exists n, _normalize_profile raw = Ok n /\ Normalized n.
Proof.
  intros raw Hfin.
  destruct (normalize_loop_returns raw Hfin default_profile_values) as [n Hn].
  exists n. split; [exact Hn|]. exact (_normalize_profile_Normalized raw n Hn).
Qed.

Lemma _normalize_profile_returns_witness :
  exists n,
    _normalize_profile [("tctl_temp", PNone); ("slow_time", PList []);
                        ("stapm_limit", PFloat FNan); ("power_saving", PDict [])]
    = Ok n /\ Normalized n.
Proof.
  apply _normalize_profile_returns. reflexivity.
Defined.

(** ** More on the profile store *)

Lemma clean_loop_entries items :
  forall acc,
    NoDup (dict_keys acc ++ map fst items) ->
    clean_loop items acc
    = bind (normalized_entries items) (fun entries => Ok (acc ++ entries)).
Proof.
  induction items as [|[name profile] items IH]; intros acc Hnd.
  - simpl. now rewrite app_nil_r.
  - simpl in Hnd.
    assert (Hrest : NoDup (dict_keys acc ++ map fst items))
      by exact (NoDup_remove_1 _ _ _ Hnd).
    assert (Hfresh : ~ In name (dict_keys acc)).
    { apply NoDup_remove_2 in Hnd. intros Hin. apply Hnd, in_or_app. now left. }
    destruct profile as [|b|z|f|s|l|raw_profile];
      try (cbn [clean_loop normalized_entries]; now apply IH).
    cbn [clean_loop normalized_entries].
    destruct (_normalize_profile raw_profile) as [normalized|e]; [|reflexivity].
    cbn [bind]. rewrite (dict_set_absent _ _ _ Hfresh), IH.
    + destruct (normalized_entries items); cbn [bind]; [|reflexivity].
      now rewrite <- app_assoc.
    + unfold dict_keys in *. rewrite map_app, <- app_assoc. exact Hnd.
Qed.

Lemma normalized_entries_names items entries :
  normalized_entries items = Ok entries ->
  dict_keys entries = object_names items.
Proof.
  unfold object_names.
  revert entries. induction items as [|[name profile] items IH]; intros entries.
  - simpl. intros H. now inversion H.
  - destruct profile as [|b|z|f|s|l|raw_profile];
      try (cbn [normalized_entries filter snd is_dict]; now apply IH).
    cbn [normalized_entries filter snd is_dict map fst].
    destruct (_normalize_profile raw_profile) as [normalized|e]; [|discriminate].
    cbn [bind]. destruct (normalized_entries items) as [others|e]; [|discriminate].
    cbn [bind]. intros H. inversion H; subst. simpl. f_equal. now apply IH.
Qed.

Lemma load_all_entries raw :
  match match raw with
        | PDict top => dict_get_default "profiles" (PDict []) top
        | _ => PDict []
        end with
  | PDict entries => entries
  | _ => []
  end = file_entries raw.
Proof.
  unfold file_entries, dict_get_default. destruct raw; try reflexivity.
  destruct (dict_get "profiles" d) as [v|]; [|reflexivity]. now destruct v.
Qed.

(** X3.  What [load_all] makes of a file that parses: the entries of its
    [profiles] object that are objects, normalized, in the order of the
    file, everything else dropped; [selected] kept when it is a string that
    names one of them and emptied otherwise. *)
Theorem load_all_reads_file :
  forall (st : Store) (raw : PyVal) (d : Document) (st' : Store),
    file st = Json raw ->
    NoDup (map fst (file_entries raw)) ->
    load_all st = (Ok d, st') ->
    normalized_entries (file_entries raw) = Ok (profiles d)
    /\ dict_keys (profiles d) = object_names (file_entries raw)
    /\ selected d
       = match file_selected raw with
         | Some s => if dict_mem s (profiles d) then s else EmptyString
         | None => EmptyString
         end.
Proof.
  intros st raw d st' Hfile Hnd. unfold load_all. rewrite Hfile.
  rewrite load_all_entries. unfold bindM, lift, save_all, ret.
  rewrite (clean_loop_entries (file_entries raw) []) by exact Hnd.
  destruct (normalized_entries (file_entries raw)) as [entries|e] eqn:Hentries;
    [|discriminate].
  cbn [bind app].
  set (chosen := match raw with
                 | PDict top => dict_get_default "selected" (PStr EmptyString) top
                 | _ => PStr EmptyString
                 end).
  destruct (not_in chosen entries) as [absent|e] eqn:Habsent; [|discriminate].
  destruct (writable st); [|discriminate].
  intros H. inversion H; subst. clear H. cbn [profiles selected].
  split; [reflexivity|]. split; [exact (normalized_entries_names _ _ Hentries)|].
  unfold file_selected. subst chosen. unfold dict_get_default in *.
  destruct raw as [|b|z|f|s|l|top]; simpl in Habsent; inversion Habsent; subst;
    try (now destruct (dict_mem EmptyString entries)).
  destruct (dict_get "selected" top) as [v|].
  - destruct v as [|b|z|f|s|l|d0]; simpl in *; try discriminate; try reflexivity.
    inversion H0; subst. now destruct (dict_mem s entries).
  - simpl in *. inversion H0; subst. now destruct (dict_mem EmptyString entries).
Qed.

Lemma load_all_reads_file_witness :
  normalized_entries
    (file_entries (PDict [("selected", PStr "Gone");
                          ("profiles", PDict [("Loud", PDict []); ("Broken", PInt 7);
                                              ("Cool", PDict [])])]))
  = Ok [("Loud", default_profile_values); ("Cool", default_profile_values)]
  /\ ["Loud"; "Cool"]
     = object_names
         (file_entries (PDict [("selected", PStr "Gone");
                               ("profiles", PDict [("Loud", PDict []);
                                                   ("Broken", PInt 7);
                                                   ("Cool", PDict [])])]))
  /\ EmptyString
     = match file_selected (PDict [("selected", PStr "Gone");
                                   ("profiles", PDict [("Loud", PDict []);
                                                       ("Broken", PInt 7);
                                                       ("Cool", PDict [])])]) with
       | Some s =>
           if dict_mem s [("Loud", default_profile_values);
                          ("Cool", default_profile_values)]
           then s else EmptyString
       | None => EmptyString
       end.
Proof.
  apply (load_all_reads_file
           (mkStore (Json (PDict [("selected", PStr "Gone");
                                  ("profiles", PDict [("Loud", PDict []);
                                                      ("Broken", PInt 7);
                                                      ("Cool", PDict [])])]))
                    true 0)
           _
           (mkDocument EmptyString [("Loud", default_profile_values);
                                    ("Cool", default_profile_values)])
           (mkStore (Json (dumps (mkDocument EmptyString
                                    [("Loud", default_profile_values);
                                     ("Cool", default_profile_values)])))
                    true 1)).
  - reflexivity.
  - apply distinct_NoDup. reflexivity.
  - vm_compute. reflexivity.
Defined.

Lemma import_profiles_entries top :
  match dict_get "profiles" top with
  | Some (PDict entries) => entries
  | _ => []
  end = file_entries (PDict top).
Proof. reflexivity. Qed.

(** X4.  What [import_profiles] returns is made from the source alone: the
    entries of its [profiles] object that are objects, normalized, in the
    order of the source, at least one; [selected] is the source's when it is
    a string that names one of them and the first imported name otherwise;
    and that document is written to the file. *)
Theorem import_profiles_replaces :
  forall (source : FileContent) (st : Store) (d : Document) (st' : Store),
    import_profiles source st = (Ok d, st') ->
    exists raw,
      source = Json raw
      /\ profiles d <> []
      /\ (NoDup (map fst (file_entries raw)) ->
          normalized_entries (file_entries raw) = Ok (profiles d)
          /\ dict_keys (profiles d) = object_names (file_entries raw))
      /\ selected d
         = match file_selected raw with
           | Some s => if dict_mem s (profiles d) then s
                       else dict_first_key (profiles d)
           | None => dict_first_key (profiles d)
           end
      /\ st' = mkStore (Json (dumps d)) true (S (writes st)).
Proof.
  intros source st d st'. unfold import_profiles.
  destruct source as [| |imported]; try discriminate.
  destruct imported as [|b|z|f|s|l|top]; try discriminate.
  destruct (dict_get "profiles" top) as [entries|] eqn:Hprofiles; [|discriminate].
  destruct entries as [|b|z|f|s|l|entries]; try discriminate.
  unfold bindM, lift.
  destruct (clean_loop entries []) as [cleaned|e] eqn:Hclean; [|discriminate].
  destruct (is_empty cleaned) eqn:Hempty; [discriminate|].
  unfold save_all, ret. destruct (writable st) eqn:Hw; [|discriminate].
  intros H. inversion H; subst. clear H. cbn [profiles selected].
  exists (PDict top). split; [reflexivity|].
  split; [intros ->; discriminate|]. split; [|split; [|reflexivity]].
  - unfold file_entries. rewrite Hprofiles. intros Hnd.
    rewrite (clean_loop_entries entries []) in Hclean by exact Hnd.
    destruct (normalized_entries entries) as [found|e] eqn:Hfound; [|discriminate].
    cbn [bind app] in Hclean. inversion Hclean; subst.
    split; [reflexivity|]. exact (normalized_entries_names _ _ Hfound).
  - unfold file_selected.
    destruct (dict_get "selected" top) as [v|]; [|reflexivity].
    destruct v as [|b|z|f|s|l|d0]; try reflexivity.
    now destruct (dict_mem s cleaned).
Qed.

Lemma import_profiles_replaces_witness :
  exists raw,
    Json (PDict [("profiles", PDict [("Quiet", PDict [("tctl_temp", PInt 80)])])])
    = Json raw
    /\ [("Quiet", dict_set "tctl_temp" (PInt 80) default_profile_values)] <> []
    /\ (NoDup (map fst (file_entries raw)) ->
        normalized_entries (file_entries raw)
        = Ok [("Quiet", dict_set "tctl_temp" (PInt 80) default_profile_values)]
        /\ ["Quiet"] = object_names (file_entries raw))
    /\ "Quiet"
       = match file_selected raw with
         | Some s =>
             if dict_mem s [("Quiet", dict_set "tctl_temp" (PInt 80)
                                        default_profile_values)]
             then s else "Quiet"
         | None => "Quiet"
         end
    /\ mkStore (Json (dumps (mkDocument "Quiet"
                               [("Quiet", dict_set "tctl_temp" (PInt 80)
                                            default_profile_values)])))
               true 1
       = mkStore (Json (dumps (mkDocument "Quiet"
                                 [("Quiet", dict_set "tctl_temp" (PInt 80)
                                              default_profile_values)])))
                 true 1.
Proof.
  apply (import_profiles_replaces
           (Json (PDict [("profiles", PDict [("Quiet", PDict [("tctl_temp", PInt 80)])])]))
           (mkStore Missing true 0)
           (mkDocument "Quiet"
              [("Quiet", dict_set "tctl_temp" (PInt 80) default_profile_values)])).
  vm_compute. reflexivity.
Defined.










Lemma sort_keys_nil {V : Type} (d : dict V) : sort_keys d = [] -> d = [].
Proof.
  destruct d as [|[k v] d]; [reflexivity|]. simpl.
  destruct (sort_keys d) as [|[k' v'] rest]; simpl; [discriminate|].
  destruct (String.leb k k'); discriminate.
Qed.

Lemma import_profiles_saved d st :
  well_kept d -> writable st = true ->
  import_profiles (Json (dumps d)) st
  = if is_empty (profiles d)
    then (Raise (ProfileError NoValidProfiles), st)
    else
      let d' := mkDocument (if dict_mem (selected d) (profiles d) then selected d
                            else dict_first_key (sort_keys (profiles d)))
                           (sort_keys (profiles d)) in
      (Ok d', mkStore (Json (dumps d')) true (S (writes st))).
Proof.
  intros [Hnd [Hall _]] Hw. unfold import_profiles, dumps.
  change (dict_get "profiles" ?l)
    with (Some (PDict (sort_keys (map (fun np => (fst np, PDict (sort_keys (snd np))))
                                      (profiles d))))).
  change (dict_get "selected" ?l) with (Some (PStr (selected d))).
  rewrite (sort_keys_map (fun p => PDict (sort_keys p))).
  unfold bindM, lift, raise, ret, save_all.
  rewrite clean_loop_saved.
  2:{ apply Forall_forall. intros np Hin. rewrite Forall_forall in Hall.
      apply Hall. destruct np. now apply In_sort_keys. }
  rewrite (fold_dict_set_fresh (sort_keys (profiles d)) []) by
    (simpl; now apply sort_keys_NoDup).
  cbn [app]. rewrite dict_mem_sort_keys by assumption.
  destruct (is_empty (sort_keys (profiles d))) eqn:Hempty.
  - apply is_empty_nil, sort_keys_nil in Hempty. now rewrite Hempty.
  - destruct (is_empty (profiles d)) eqn:Hempty'.
    + apply is_empty_nil in Hempty'. rewrite Hempty' in Hempty. discriminate.
    + rewrite Hw. now destruct (dict_mem (selected d) (profiles d)).
Qed.

(** X9.  An export writes the serialization of what [load_all] returns.
    Importing that text into a store fails when there is no profile; with
    profiles it brings all of them back, in the order of their names, and
    keeps [selected] when it names one of them, taking the first name
    otherwise. *)
Theorem export_then_import_profiles :
  forall (st : Store) (d : Document) (st1 st2 : Store),
    load_all st = (Ok d, st1) ->
    writable st2 = true ->
    export_profiles true st = (Written (dumps d), st1)
    /\ (profiles d = [] ->
        import_profiles (Json (dumps d)) st2
        = (Raise (ProfileError NoValidProfiles), st2))
    /\ (profiles d <> [] ->
        exists d' st3,
          import_profiles (Json (dumps d)) st2 = (Ok d', st3)
          /\ profiles d' = sort_keys (profiles d)
          /\ selected d'
             = (if dict_mem (selected d) (profiles d) then selected d
                else dict_first_key (sort_keys (profiles d)))).
Proof.
  intros st d st1 st2 Hload Hw.
  destruct (load_all_inv _ _ _ Hload) as [Hkept _].
  split; [unfold export_profiles; now rewrite Hload|].
  rewrite (import_profiles_saved d st2 Hkept Hw). split.
  - intros ->. reflexivity.
  - intros Hne. destruct (is_empty (profiles d)) eqn:Hempty.
    + apply is_empty_nil in Hempty. contradiction.
    + eexists. eexists. split; [reflexivity|]. split; reflexivity.
Qed.

Lemma export_then_import_profiles_witness :
  export_profiles true
    (mkStore (Json (dumps (mkDocument "Gone" [("Quiet", default_profile_values);
                                              ("Loud", default_profile_values)])))
             true 0)
  = (Written (dumps (mkDocument EmptyString [("Loud", default_profile_values);
                                             ("Quiet", default_profile_values)])),
     mkStore (Json (dumps (mkDocument EmptyString [("Loud", default_profile_values);
                                                   ("Quiet", default_profile_values)])))
             true 1)
  /\ (profiles (mkDocument EmptyString [("Loud", default_profile_values);
                                        ("Quiet", default_profile_values)]) = [] ->
      import_profiles
        (Json (dumps (mkDocument EmptyString [("Loud", default_profile_values);
                                              ("Quiet", default_profile_values)])))
        (mkStore Missing true 0)
      = (Raise (ProfileError NoValidProfiles), mkStore Missing true 0))
  /\ (profiles (mkDocument EmptyString [("Loud", default_profile_values);
                                        ("Quiet", default_profile_values)]) <> [] ->
      exists d' st3,
        import_profiles
          (Json (dumps (mkDocument EmptyString [("Loud", default_profile_values);
                                                ("Quiet", default_profile_values)])))
          (mkStore Missing true 0)
        = (Ok d', st3)
        /\ profiles d'
           = sort_keys (profiles (mkDocument EmptyString
                                    [("Loud", default_profile_values);
                                     ("Quiet", default_profile_values)]))
        /\ selected d'
           = (if dict_mem (selected (mkDocument EmptyString
                                       [("Loud", default_profile_values);
                                        ("Quiet", default_profile_values)]))
                          (profiles (mkDocument EmptyString
                                       [("Loud", default_profile_values);
                                        ("Quiet", default_profile_values)]))
              then selected (mkDocument EmptyString
                               [("Loud", default_profile_values);
                                ("Quiet", default_profile_values)])
              else dict_first_key
                     (sort_keys (profiles (mkDocument EmptyString
                                             [("Loud", default_profile_values);
                                              ("Quiet", default_profile_values)]))))).
Proof.
  apply (export_then_import_profiles
           (mkStore (Json (dumps (mkDocument "Gone" [("Quiet", default_profile_values);
                                                     ("Loud", default_profile_values)])))
                    true 0)
           (mkDocument EmptyString [("Loud", default_profile_values);
                                    ("Quiet", default_profile_values)])
           (mkStore (Json (dumps (mkDocument EmptyString
                                    [("Loud", default_profile_values);
                                     ("Quiet", default_profile_values)])))
                    true 1)
           (mkStore Missing true 0)).
  - vm_compute. reflexivity.
  - reflexivity.
Defined.

(** ** More on baseline reconstruction *)

Lemma catalog_defaults spec :
  In spec NUMERIC_OPTIONS ->
  dict_get (key spec) default_profile_values = Some (PInt (default spec))
  /\ dict_get (enabled_key (key spec)) default_profile_values = Some (PBool false).
Proof.
  intros Hin.
  assert (Hall : forallb
                   (fun spec =>
                      match dict_get (key spec) default_profile_values,
                            dict_get (enabled_key (key spec)) default_profile_values with
                      | Some (PInt z), Some (PBool false) => z =? default spec
                      | _, _ => false
                      end) NUMERIC_OPTIONS = true)
    by (vm_compute; reflexivity).
  rewrite forallb_forall in Hall. specialize (Hall spec Hin).
  destruct (dict_get (key spec) default_profile_values) as [[|b|z|f|s|l|d]|];
    try discriminate.
  destruct (dict_get (enabled_key (key spec)) default_profile_values)
    as [[|[]|z'|f|s|l|d]|]; try discriminate.
  apply Z.eqb_eq in Hall. now subst.
Qed.

Lemma NoDup_app_disjoint {A : Type} (a b : list A) x :
  NoDup (a ++ b) -> In x a -> In x b -> False.
Proof.
  induction a as [|y a IH]; simpl; [tauto|].
  intros Hnd [->|Hin] Hb.
  - inversion Hnd; subst. apply H1. apply in_or_app. now right.
  - inversion Hnd; subst. now apply IH.
Qed.

Lemma fold_report_unreported specs lines values spec k :
  NoDup (flat_map touched specs) ->
  In spec specs -> In k (touched spec) ->
  first_report spec lines = None ->
  dict_get k (fold_left (fun vs spec => apply_report spec (first_report spec lines) vs)
                        specs values)
  = dict_get k values.
Proof.
  revert values. induction specs as [|spec0 specs IH]; intros values Hnd Hin Hk Hnone;
    [destruct Hin|].
  cbn [fold_left]. cbn [flat_map] in Hnd.
  assert (Hnd' : NoDup (flat_map touched specs))
    by exact (NoDup_app_remove_l _ _ Hnd).
  destruct Hin as [->|Hin].
  - rewrite Hnone. cbn [apply_report]. apply fold_report_other.
    intros Hin. exact (NoDup_app_disjoint _ _ k Hnd Hk Hin).
  - rewrite (IH _ Hnd' Hin Hk Hnone). apply apply_report_other.
    intros Hk0. apply (NoDup_app_disjoint _ _ k Hnd Hk0).
    apply in_flat_map. eauto.
Qed.

(** X10.  An option that no line with a number names keeps its catalog default
    and stays disabled. *)
Theorem parse_profile_values_from_info_unmentioned :
  forall (spec : OptionSpec) (output : string),
    In spec NUMERIC_OPTIONS ->
    readable (splitlines output) = true ->
    first_report spec (splitlines output) = None ->
    exists values,
      parse_profile_values_from_info output = Ok values
      /\ dict_get (key spec) values = Some (PInt (default spec))
      /\ dict_get (enabled_key (key spec)) values = Some (PBool false).
Proof.
  intros spec output Hin Hread Hnone.
  unfold parse_profile_values_from_info.
  rewrite (option_loop_fold _ _ _ Hread).
  eexists. split; [reflexivity|].
  destruct (catalog_defaults spec Hin) as [Hvalue Henabled].
  split.
  - rewrite (fold_report_unreported _ _ _ spec (key spec) touched_distinct Hin);
      [exact Hvalue|now left|exact Hnone].
  - rewrite (fold_report_unreported _ _ _ spec (enabled_key (key spec))
               touched_distinct Hin); [exact Henabled|right; now left|exact Hnone].
Qed.

Lemma parse_profile_values_from_info_unmentioned_witness :
  exists values,
    parse_profile_values_from_info "| STAPM LIMIT | 45.000 | stapm-limit |" = Ok values
    /\ dict_get "tctl_temp" values = Some (PInt 90)
    /\ dict_get "tctl_temp_enabled" values = Some (PBool false).
Proof.
  apply (parse_profile_values_from_info_unmentioned
           (mkOption "tctl_temp" "--tctl-temp" "Tctl Temp" "Power" 0 105 90
                     "Thermal control target temperature in C." 1 EmptyString)
           "| STAPM LIMIT | 45.000 | stapm-limit |").
  - simpl. do 5 right. left. reflexivity.
  - vm_compute. reflexivity.
  - vm_compute. reflexivity.
Defined.

Lemma apply_report_Normalized spec report values :
  In spec NUMERIC_OPTIONS -> Normalized values ->
  Normalized (apply_report spec report values).
Proof.
  intros Hin Hn. destruct report as [[v|e]|]; cbn [apply_report]; try exact Hn.
  destruct (catalog_defaults spec Hin) as [Hvalue Henabled].
  destruct (kinds_get (key spec) default_profile_values values _
              (eq_sym (proj1 Hn)) Hvalue) as [cur [Hcur Hkind]].
  assert (Hn1 : Normalized (dict_set (key spec) (PInt (stored spec v)) values)).
  { apply (Normalized_set _ _ cur); [exact Hn|exact Hcur|now rewrite Hkind|].
    unfold stored. apply max_normal. }
  destruct (kinds_get (enabled_key (key spec)) default_profile_values _ _
              (eq_sym (proj1 Hn1)) Henabled) as [flag [Hflag Hkind']].
  apply (Normalized_set _ _ flag); [exact Hn1|exact Hflag|now rewrite Hkind'|reflexivity].
Qed.

Lemma line_loop_apply spec tok alt lines values values' :
  line_loop spec tok alt lines values = Ok values' ->
  exists report, values' = apply_report spec report values.
Proof.
  induction lines as [|line lines IH]; cbn [line_loop].
  - intros H. inversion H; subst. now exists None.
  - destruct (negb (contains tok (lower line)) && negb (contains alt (lower line)));
      [exact IH|].
    destruct (search NUMBER line) as [m|]; [|exact IH].
    destruct (int_of_float_of_group m) as [v|e].
    + intros H. inversion H; subst. now exists (Some (Ok v)).
    + destruct e; try discriminate. exact IH.
Qed.

Lemma option_loop_Normalized specs lines values values' :
  (forall spec, In spec specs -> In spec NUMERIC_OPTIONS) ->
  Normalized values ->
  option_loop specs lines values = Ok values' ->
  Normalized values'.
Proof.
  revert values. induction specs as [|spec specs IH]; intros values Hsub Hn;
    cbn [option_loop].
  - intros H. now inversion H; subst.
  - destruct (line_loop spec _ _ lines values) as [values1|e] eqn:Hline;
      [|discriminate].
    cbn [bind]. apply IH; [intros s Hs; apply Hsub; now right|].
    destruct (line_loop_apply _ _ _ _ _ _ Hline) as [report ->].
    apply apply_report_Normalized; [apply Hsub; now left|exact Hn].
Qed.

Lemma parse_profile_values_from_info_Normalized output values :
  parse_profile_values_from_info output = Ok values -> Normalized values.
Proof.
  intros Hrun.
  apply (option_loop_Normalized NUMERIC_OPTIONS (splitlines output)
           default_profile_values); [auto|apply default_profile_values_Normalized|].
  exact Hrun.
Qed.

(** X11.  Whatever text is parsed, a reconstructed baseline is a normalized value
    map: it has exactly the catalog's keys and normalizing it changes
    nothing. *)
Theorem parse_profile_values_from_info_is_normalized :
  forall (output : string) (values : dict PyVal),
    parse_profile_values_from_info output = Ok values ->
    dict_keys values = dict_keys default_profile_values
    /\ _normalize_profile values = Ok values.
Proof.
  intros output values Hrun.
  assert (Hn : Normalized values)
    by exact (parse_profile_values_from_info_Normalized output values Hrun).
  split; [now apply Normalized_keys|].
  apply _normalize_profile_entries; [exact Hn|tauto].
Qed.

Lemma parse_profile_values_from_info_is_normalized_witness :
  dict_keys (dict_set "stapm_limit_enabled" (PBool true)
               (dict_set "stapm_limit" (PInt 45000) default_profile_values))
  = dict_keys default_profile_values
  /\ _normalize_profile (dict_set "stapm_limit_enabled" (PBool true)
                           (dict_set "stapm_limit" (PInt 45000) default_profile_values))
     = Ok (dict_set "stapm_limit_enabled" (PBool true)
             (dict_set "stapm_limit" (PInt 45000) default_profile_values)).
Proof.
  apply (parse_profile_values_from_info_is_normalized
           "| STAPM LIMIT | 45.000 | stapm-limit |").
  vm_compute. reflexivity.
Defined.

(** X12.  The capture path of the store: a baseline parsed from a text whose
    numbers fit a float, saved under the reserved name on a store that
    loads, is read back exactly as parsed. *)
Theorem captured_baseline_is_stored :
  forall (output : string) (st : Store) (d0 : Document) (st0 : Store),
    readable (splitlines output) = true ->
    load_all st = (Ok d0, st0) ->
    exists values d1 st1 d2 st2,
      parse_profile_values_from_info output = Ok values
      /\ upsert_profile INITIAL_DEFAULT_PROFILE_NAME values st = (Ok d1, st1)
      /\ load_all st1 = (Ok d2, st2)
      /\ dict_get INITIAL_DEFAULT_PROFILE_NAME (profiles d2) = Some values.
Proof.
  intros output st d0 st0 Hread Hload.
  assert (Hparse : exists values, parse_profile_values_from_info output = Ok values).
  { unfold parse_profile_values_from_info.
    rewrite (option_loop_fold _ _ _ Hread). eauto. }
  destruct Hparse as [values Hparse].
  assert (Hnorm : _normalize_profile values = Ok values).
  { apply _normalize_profile_entries; [|tauto].
    exact (parse_profile_values_from_info_Normalized output values Hparse). }
  destruct (upsert_profile_run INITIAL_DEFAULT_PROFILE_NAME values st d0 st0 values
              Hload eq_refl Hnorm) as [Hrun Hkept].
  exists values. eexists. eexists. eexists. eexists.
  split; [exact Hparse|]. split; [exact Hrun|].
  split; [apply (load_all_saved _ _ Hkept); reflexivity|].
  cbn [profiles]. destruct Hkept as [Hnd _].
  rewrite dict_get_sort_keys by exact Hnd. apply dict_get_set_same.
Qed.

Lemma captured_baseline_is_stored_witness :
  exists values d1 st1 d2 st2,
    parse_profile_values_from_info "| STAPM LIMIT | 45.000 | stapm-limit |" = Ok values
    /\ upsert_profile INITIAL_DEFAULT_PROFILE_NAME values (mkStore Missing true 0)
       = (Ok d1, st1)
    /\ load_all st1 = (Ok d2, st2)
    /\ dict_get INITIAL_DEFAULT_PROFILE_NAME (profiles d2) = Some values.
Proof.
  apply (captured_baseline_is_stored "| STAPM LIMIT | 45.000 | stapm-limit |"
           (mkStore Missing true 0) _default_data
           (mkStore (Json (dumps _default_data)) true 1)).
  - vm_compute. reflexivity.
  - reflexivity.
Defined.

Lemma has_digit_of_list l :
  has_digit (string_of_list_ascii l) = existsb is_digit l.
Proof. induction l as [|c l IH]; simpl; [reflexivity|now rewrite IH]. Qed.

Lemma existsb_rev {A : Type} (f : A -> bool) l : existsb f (rev l) = existsb f l.
Proof.
  induction l as [|x l IH]; simpl; [reflexivity|].
  rewrite existsb_app, IH. simpl. rewrite orb_false_r. apply orb_comm.
Qed.

Lemma splitlines_from_no_digit n :
  forall s cur,
    (String.length s <= n)%nat ->
    has_digit s = false -> existsb is_digit cur = false ->
    Forall (fun line => has_digit line = false) (splitlines_from cur s).
Proof.
  induction n as [|n IH]; intros s cur Hlen Hs Hcur.
  - destruct s; [|simpl in Hlen; lia]. simpl.
    destruct cur; constructor; [|constructor].
    now rewrite has_digit_of_list, existsb_rev.
  - destruct s as [|c rest]; cbn [splitlines_from].
    + destruct cur; constructor; [|constructor].
      now rewrite has_digit_of_list, existsb_rev.
    + cbn [has_digit] in Hs. apply orb_false_iff in Hs. destruct Hs as [Hc Hrest].
      cbn [String.length] in Hlen.
      destruct (is_linebreak c).
      * constructor; [now rewrite has_digit_of_list, existsb_rev|].
        destruct rest as [|c' rest']; [constructor|].
        cbn [has_digit] in Hrest. apply orb_false_iff in Hrest.
        destruct Hrest as [Hc' Hrest'].
        cbn [String.length] in Hlen.
        destruct ((code c =? 13) && (code c' =? 10)).
        -- apply IH; [lia|exact Hrest'|reflexivity].
        -- apply IH; [cbn [String.length]; lia| |reflexivity].
           cbn [has_digit]. now rewrite Hc', Hrest'.
      * apply IH; [lia|exact Hrest|].
        cbn [existsb]. now rewrite Hc, Hcur.
Qed.

Lemma line_loop_no_number spec tok alt lines values :
  Forall (fun line => search NUMBER line = None) lines ->
  line_loop spec tok alt lines values = Ok values.
Proof.
  induction 1 as [|line lines Hline _ IH]; cbn [line_loop]; [reflexivity|].
  rewrite Hline. now destruct (negb _ && negb _).
Qed.

Lemma option_loop_no_number specs lines values :
  Forall (fun line => search NUMBER line = None) lines ->
  option_loop specs lines values = Ok values.
Proof.
  intros Hlines. induction specs as [|spec specs IH]; cbn [option_loop];
    [reflexivity|].
  now rewrite (line_loop_no_number _ _ _ _ _ Hlines).
Qed.

(** X13.  A text without any digit reconstructs to the catalog defaults, nothing
    enabled. *)
Theorem parse_profile_values_from_info_without_digits :
  forall output : string,
    has_digit output = false ->
    parse_profile_values_from_info output = Ok default_profile_values.
Proof.
  intros output Hdigit. unfold parse_profile_values_from_info.
  apply option_loop_no_number.
  assert (Hlines : Forall (fun line => has_digit line = false) (splitlines output)).
  { apply (splitlines_from_no_digit (String.length output)); auto. }
  apply Forall_forall. intros line Hin. rewrite Forall_forall in Hlines.
  apply search_needs_digit; [reflexivity|auto].
Qed.

Lemma parse_profile_values_from_info_without_digits_witness :
  parse_profile_values_from_info "stapm-limit: unknown" = Ok default_profile_values.
Proof.
  apply parse_profile_values_from_info_without_digits. reflexivity.
Defined.

(** ** Capturing the baseline in the window *)


Lemma on_profile_selected_in_step name w :
  in_step w ->
  exists w',
    on_profile_selected name w = (Ok tt, w')
    /\ in_step w'
    /\ profiles (current_data w') = profiles (current_data w)
    /\ shown w' = shown w
    /\ (selected (current_data w') = selected (current_data w)
        \/ selected (current_data w') <> INITIAL_DEFAULT_PROFILE_NAME
           /\ dict_mem (selected (current_data w')) (profiles (current_data w')) = true).
Proof.
  intros [Hw Hfile]. unfold on_profile_selected.
  destruct (String.eqb (strip name) EmptyString);
    [exists w; repeat split; auto|].
  destruct (_is_read_only_profile (strip name)) eqn:Hro;
    [exists w; repeat split; auto|].
  destruct (dict_get (strip name) (profiles (current_data w))) as [values|] eqn:Hget;
    [|exists w; repeat split; auto].
  destruct values as [|entry values]; [exists w; repeat split; auto|].
  unfold save_all. rewrite Hw. eexists. split; [reflexivity|].
  cbn [current_data manager shown profiles selected writable file].
  repeat split; auto. right. split.
  - intros E. unfold _is_read_only_profile in Hro. rewrite E in Hro. discriminate.
  - unfold dict_mem. now rewrite Hget.
Qed.


Lemma visible_profile_name name w :
  existsb (String.eqb name) (_visible_profile_names w) = true ->
  name <> INITIAL_DEFAULT_PROFILE_NAME
  /\ dict_mem name (profiles (current_data w)) = true.
Proof.
  intros H. apply existsb_exists in H. destruct H as (other & Hin & Heq).
  apply String.eqb_eq in Heq. subst other.
  unfold _visible_profile_names in Hin. apply filter_In in Hin.
  destruct Hin as [Hin Hne]. split.
  - intros E. rewrite E in Hne. discriminate.
  - apply dict_mem_In. exact Hin.
Qed.



(** ** The window and the file *)

Lemma settled_show_error n w : settled w -> settled (_show_error n w).
Proof. intros H. exact H. Qed.

Lemma on_profile_selected_settled name w :
  settled w ->
  exists w',
    on_profile_selected name w = (Ok tt, w')
    /\ settled w'
    /\ profiles (current_data w') = profiles (current_data w)
    /\ shown w' = shown w.
Proof.
  intros [Hstep (Hnd & Hall & Hsel)].
  destruct (on_profile_selected_in_step name w Hstep)
    as (w' & Hrun & Hstep' & Hprofiles & Hshown & Hselected).
  exists w'. split; [exact Hrun|]. split; [|split; assumption].
  split; [exact Hstep'|]. unfold well_kept, selected_ok. rewrite Hprofiles.
  split; [exact Hnd|]. split; [exact Hall|].
  destruct Hselected as [->|[_ Hmem]]; [exact Hsel|].
  right. now rewrite <- Hprofiles.
Qed.

Lemma _reload_profile_dropdown_settled chosen w :
  settled w ->
  exists w',
    _reload_profile_dropdown chosen w = (Ok tt, w')
    /\ settled w'
    /\ profiles (current_data w') = profiles (current_data w)
    /\ shown w' = shown w.
Proof.
  intros Hsettled. unfold _reload_profile_dropdown. cbv zeta.
  destruct (String.eqb _ EmptyString); [exists w; auto|].
  now apply on_profile_selected_settled.
Qed.

Lemma reloaded_settled chosen w :
  settled w ->
  settled (snd (match _reload_profile_dropdown chosen w with
                | (Raise (ProfileError msg), w') => (Ok tt, _show_error (ErrorOf msg) w')
                | other => other
                end)).
Proof.
  intros Hsettled.
  destruct (_reload_profile_dropdown_settled chosen w Hsettled) as (w' & -> & H & _).
  exact H.
Qed.

Lemma load_all_on_saved st d :
  well_kept d -> writable st = true -> file st = Json (dumps d) ->
  exists d' st',
    load_all st = (Ok d', st')
    /\ well_kept d' /\ writable st' = true /\ file st' = Json (dumps d)
    /\ file st' = Json (dumps d').
Proof.
  intros Hkept Hw Hfile.
  pose proof (load_all_saved st d Hkept Hw Hfile) as Hload. cbv zeta in Hload.
  eexists. eexists. split; [exact Hload|].
  destruct (load_all_inv _ _ _ Hload) as [Hkept' _].
  split; [exact Hkept'|]. split; [reflexivity|]. cbn [file].
  split; [now rewrite dumps_sorted|reflexivity].
Qed.

Lemma upsert_profile_on_saved name values st d :
  well_kept d -> writable st = true -> file st = Json (dumps d) ->
  match upsert_profile name values st with
  | (Ok d1, st1) => well_kept d1 /\ writable st1 = true /\ file st1 = Json (dumps d1)
  | (Raise _, st1) => writable st1 = true /\ file st1 = Json (dumps d)
  end.
Proof.
  intros Hkept Hw Hfile.
  destruct (load_all_on_saved st d Hkept Hw Hfile)
    as (d' & st' & Hload & Hkept' & Hw' & Hfile' & _).
  destruct (upsert_profile name values st) as [[d1|e] st1] eqn:E.
  - destruct (upsert_profile_inv _ _ _ _ _ E) as [Hkept1 Hfile1].
    split; [exact Hkept1|]. split; [|exact Hfile1].
    unfold upsert_profile, bindM in E. rewrite Hload in E.
    destruct (String.eqb (strip name) EmptyString); [discriminate|].
    unfold lift in E. destruct (_normalize_profile values); [|discriminate].
    unfold save_all, ret in E. rewrite Hw' in E.
    assert (Hst : st1 = mkStore (Json (dumps d1)) true (S (writes st')))
      by congruence.
    now rewrite Hst.
  - unfold upsert_profile, bindM in E. rewrite Hload in E.
    destruct (String.eqb (strip name) EmptyString).
    + unfold raise in E. assert (st1 = st') by congruence. subst. auto.
    + unfold lift in E. destruct (_normalize_profile values).
      * unfold save_all, ret in E. rewrite Hw' in E. discriminate.
      * assert (st1 = st') by congruence. subst. auto.
Qed.

Lemma delete_profile_on_saved name st d :
  well_kept d -> writable st = true -> file st = Json (dumps d) ->
  match delete_profile name st with
  | (Ok d1, st1) => well_kept d1 /\ writable st1 = true /\ file st1 = Json (dumps d1)
  | (Raise _, st1) => writable st1 = true /\ file st1 = Json (dumps d)
  end.
Proof.
  intros Hkept Hw Hfile.
  destruct (load_all_on_saved st d Hkept Hw Hfile)
    as (d' & st' & Hload & Hkept' & Hw' & Hfile' & _).
  destruct (dict_mem name (profiles d')) eqn:Hmem.
  - destruct (delete_profile_run name st d' st' Hload Hmem) as [Hrun Hkept1].
    cbv zeta in Hrun, Hkept1. rewrite Hrun. auto.
  - rewrite (delete_profile_absent name st d' st' Hload Hmem). auto.
Qed.

Lemma import_profiles_on_saved source st d :
  writable st = true -> file st = Json (dumps d) ->
  match import_profiles source st with
  | (Ok d1, st1) => well_kept d1 /\ writable st1 = true /\ file st1 = Json (dumps d1)
  | (Raise _, st1) => writable st1 = true /\ file st1 = Json (dumps d)
  end.
Proof.
  intros Hw Hfile.
  destruct (import_profiles source st) as [[d1|e] st1] eqn:E.
  - destruct (import_profiles_inv _ _ _ _ E) as [Hkept1 Hfile1].
    split; [exact Hkept1|]. split; [|exact Hfile1].
    unfold import_profiles in E.
    destruct source as [| |imported]; try discriminate.
    destruct imported as [|b|z|f|s|l|top]; try discriminate.
    destruct (dict_get "profiles" top) as [entries|]; [|discriminate].
    destruct entries as [|b|z|f|s|l|entries]; try discriminate.
    unfold bindM, lift in E.
    destruct (clean_loop entries []) as [cleaned|e]; [|discriminate].
    destruct (is_empty cleaned); [discriminate|].
    unfold save_all, ret in E. rewrite Hw in E.
    match type of E with
    | (_, ?s) = _ => assert (Hst : st1 = s) by congruence
    end.
    now rewrite Hst.
  - rewrite (import_profiles_raise _ _ _ _ E). auto.
Qed.

Lemma save_current_profile_settled text values w :
  settled w -> settled (snd (save_current_profile text values w)).
Proof.
  intros Hsettled. unfold save_current_profile. cbv zeta.
  destruct (String.eqb (strip text) EmptyString); [exact Hsettled|].
  destruct (_is_read_only_profile (strip text)); [exact Hsettled|].
  destruct Hsettled as [[Hw Hfile] Hkept].
  pose proof (upsert_profile_on_saved (strip text) values (manager w) _ Hkept Hw Hfile)
    as Hrun.
  destruct (upsert_profile (strip text) values (manager w)) as [[data|e] st].
  - apply reloaded_settled. destruct Hrun as (Hk & Hw1 & Hf1).
    split; [split|]; assumption.
  - destruct Hrun as [Hw1 Hf1].
    destruct e; cbn [snd]; (split; [split|]; assumption).
Qed.

Lemma delete_selected_profile_settled text confirmed w :
  settled w -> settled (snd (delete_selected_profile text confirmed w)).
Proof.
  intros Hsettled. unfold delete_selected_profile. cbv zeta.
  destruct (String.eqb (strip text) EmptyString); [exact Hsettled|].
  destruct (_is_read_only_profile (strip text)); [exact Hsettled|].
  destruct (negb confirmed); [exact Hsettled|].
  destruct Hsettled as [[Hw Hfile] Hkept].
  pose proof (delete_profile_on_saved (strip text) (manager w) _ Hkept Hw Hfile) as Hrun.
  destruct (delete_profile (strip text) (manager w)) as [[data|e] st].
  - apply reloaded_settled. destruct Hrun as (Hk & Hw1 & Hf1).
    split; [split|]; assumption.
  - destruct Hrun as [Hw1 Hf1].
    destruct e; cbn [snd]; (split; [split|]; assumption).
Qed.

Lemma import_profiles_picked_settled picked w :
  settled w -> settled (snd (import_profiles_picked picked w)).
Proof.
  intros Hsettled. unfold import_profiles_picked.
  destruct picked as [source|]; [|exact Hsettled].
  destruct Hsettled as [[Hw Hfile] Hkept].
  pose proof (import_profiles_on_saved source (manager w) _ Hw Hfile) as Hrun.
  destruct (import_profiles source (manager w)) as [[data|e] st].
  - apply reloaded_settled. destruct Hrun as (Hk & Hw1 & Hf1).
    split; [split|]; assumption.
  - destruct Hrun as [Hw1 Hf1].
    destruct e; cbn [snd]; (split; [split|]; assumption).
Qed.

Lemma reset_to_defaults_settled w :
  settled w -> settled (snd (reset_to_defaults w)).
Proof.
  intros Hsettled. unfold reset_to_defaults.
  destruct (dict_get INITIAL_DEFAULT_PROFILE_NAME (profiles (current_data w)))
    as [[|entry values]|]; try exact Hsettled.
  destruct Hsettled as [[Hw Hfile] (Hnd & Hall & _)].
  cbv zeta. unfold save_all. rewrite Hw. cbn [snd].
  split; [split; reflexivity|]. split; [exact Hnd|]. split; [exact Hall|]. now left.
Qed.

Lemma capture_finished_settled success stdout text w :
  settled w ->
  settled (snd (_on_initial_default_capture_finished success stdout text w)).
Proof.
  intros Hsettled. unfold _on_initial_default_capture_finished.
  destruct (negb success); [exact Hsettled|].
  destruct (parse_profile_values_from_info stdout) as [values|e]; [|exact Hsettled].
  destruct Hsettled as [[Hw Hfile] Hkept].
  pose proof (upsert_profile_on_saved INITIAL_DEFAULT_PROFILE_NAME values (manager w) _
                Hkept Hw Hfile) as Hrun.
  cbv zeta.
  destruct (upsert_profile INITIAL_DEFAULT_PROFILE_NAME values (manager w))
    as [[data|e] st].
  - destruct Hrun as ((Hnd & Hall & _) & Hw1 & Hf1).
    unfold save_all. rewrite Hw1. cbn [profiles shown].
    apply reloaded_settled. split; [split; reflexivity|].
    split; [exact Hnd|]. split; [exact Hall|].
    unfold selected_ok. cbn [selected profiles].
    destruct (existsb _ _) eqn:E; [|now left].
    right. exact (proj2 (visible_profile_name _ _ E)).
  - destruct Hrun as [Hw1 Hf1].
    destruct e; cbn [snd]; (split; [split|]; assumption).
Qed.

(** X25.  Whatever the user does to the profiles, the window and the file stay
    together: if the file holds the document of the window and can be
    written, it still does after any action, whether the action returns,
    shows an error or raises. *)
Theorem window_and_file_stay_settled :
  forall (a : Action) (w : Window), settled w -> settled (snd (act a w)).
Proof.
  intros a w Hsettled. destruct a; cbn [act].
  - now apply save_current_profile_settled.
  - now apply delete_selected_profile_settled.
  - destruct (on_profile_selected_settled profile_name w Hsettled) as (w' & -> & H & _).
    exact H.
  - now apply reset_to_defaults_settled.
  - now apply capture_finished_settled.
  - now apply import_profiles_picked_settled.
Qed.

Lemma window_and_file_stay_settled_witness :
  settled (snd (act (SaveCurrent " Quiet " [("tctl_temp", PInt 80)])
                    (mkWindow _default_data
                       (mkStore (Json (dumps _default_data)) true 1) []))).
Proof.
  apply window_and_file_stay_settled.
  split; [split; reflexivity|apply well_kept_default].
Defined.



(** ** More on the command builder *)

Lemma numeric_loop_lookup specs v1 v2 command :
  (forall k, dict_get k v1 = dict_get k v2) ->
  numeric_loop specs v1 command = numeric_loop specs v2 command.
Proof.
  intros Hsame. revert command.
  induction specs as [|spec specs IH]; intros command; cbn [numeric_loop];
    [reflexivity|].
  unfold dict_get_default. rewrite !Hsame.
  destruct (negb _); [apply IH|].
  destruct (py_int _); cbn [bind]; [apply IH|reflexivity].
Qed.

Lemma boolean_loop_lookup options v1 v2 command :
  (forall k, dict_get k v1 = dict_get k v2) ->
  boolean_loop options v1 command = boolean_loop options v2 command.
Proof.
  intros Hsame. revert command.
  induction options as [|option options IH]; intros command; cbn [boolean_loop];
    [reflexivity|].
  unfold dict_get_default. rewrite !Hsame. destruct (py_bool _); apply IH.
Qed.

Lemma same_entries_same_lookup {V : Type} (a b : dict V) :
  NoDup (dict_keys a) -> NoDup (dict_keys b) ->
  (forall entry, In entry a <-> In entry b) ->
  forall k, dict_get k a = dict_get k b.
Proof.
  intros Ha Hb Hsame k.
  destruct (dict_get k a) as [v|] eqn:E.
  - symmetry. apply In_dict_get; [exact Hb|]. apply Hsame. now apply dict_get_In.
  - destruct (dict_get k b) as [v|] eqn:E'; [|reflexivity].
    apply dict_get_In, Hsame in E'. apply (In_dict_get _ _ _ Ha) in E'. congruence.
Qed.

(** X15.  The command depends on the value map through its lookups only: two
    maps with the same entries, in whatever order, give the same command or
    the same exception. *)
Theorem build_ryzenadj_command_ignores_order :
  forall (values values' : dict PyVal) (binary : string),
    NoDup (dict_keys values) -> NoDup (dict_keys values') ->
    (forall entry, In entry values <-> In entry values') ->
    build_ryzenadj_command values binary = build_ryzenadj_command values' binary.
Proof.
  intros values values' binary Hnd Hnd' Hsame.
  assert (Hget := same_entries_same_lookup values values' Hnd Hnd' Hsame).
  unfold build_ryzenadj_command.
  rewrite (numeric_loop_lookup _ _ _ _ Hget).
  destruct (numeric_loop NUMERIC_OPTIONS values' [binary]); cbn [bind]; [|reflexivity].
  now rewrite (boolean_loop_lookup _ _ _ _ Hget).
Qed.

Lemma build_ryzenadj_command_ignores_order_witness :
  build_ryzenadj_command
    [("tctl_temp", PInt 80); ("stapm_limit_enabled", PBool true);
     ("stapm_limit", PInt 15000); ("tctl_temp_enabled", PBool true)] "ryzenadj"
  = build_ryzenadj_command
      [("stapm_limit", PInt 15000); ("tctl_temp_enabled", PBool true);
       ("tctl_temp", PInt 80); ("stapm_limit_enabled", PBool true)] "ryzenadj".
Proof.
  apply build_ryzenadj_command_ignores_order.
  - apply distinct_NoDup. reflexivity.
  - apply distinct_NoDup. reflexivity.
  - intros entry. simpl. tauto.
Defined.

Lemma numeric_arguments_length specs values arguments :
  numeric_arguments specs values = Ok arguments ->
  List.length arguments = (2 * List.length specs)%nat.
Proof.
  revert arguments. induction specs as [|spec specs IH]; intros arguments;
    cbn [numeric_arguments].
  - intros H. now inversion H.
  - destruct (coerced values spec); [|discriminate]. cbn [bind].
    destruct (numeric_arguments specs values) as [rest|]; [|discriminate].
    cbn [bind]. intros H. inversion H; subst. cbn [List.length].
    rewrite (IH rest eq_refl). lia.
Qed.

Lemma filter_nil_iff {A : Type} (f : A -> bool) (l : list A) :
  filter f l = [] <-> forallb (fun x => negb (f x)) l = true.
Proof.
  induction l as [|x l IH]; simpl; [tauto|].
  destruct (f x); simpl; [split; discriminate|exact IH].
Qed.

Lemma described_length specs options values binary command :
  bind (numeric_arguments (filter (enabled values) specs) values)
       (fun arguments =>
          Ok (binary :: arguments ++ map bcli (filter (switched_on values) options)))
  = Ok command ->
  List.length command
  = (1 + 2 * List.length (filter (enabled values) specs)
     + List.length (filter (switched_on values) options))%nat
  /\ (List.length command = 1%nat
      <-> forallb (fun spec => negb (enabled values spec)) specs = true
          /\ forallb (fun option => negb (switched_on values option)) options = true).
Proof.
  rewrite <- (filter_nil_iff (enabled values)), <- (filter_nil_iff (switched_on values)).
  generalize (filter (enabled values) specs) as chosen.
  generalize (filter (switched_on values) options) as flags.
  intros flags chosen Hrun.
  destruct (numeric_arguments chosen values) as [arguments|] eqn:Hargs; [|discriminate].
  cbn [bind] in Hrun. injection Hrun as <-.
  assert (Hlen : List.length (binary :: arguments ++ map bcli flags)
                 = (1 + 2 * List.length chosen + List.length flags)%nat).
  { cbn [List.length]. rewrite length_app, length_map.
    rewrite (numeric_arguments_length _ _ _ Hargs). lia. }
  split; [exact Hlen|]. rewrite Hlen. split.
  - intros H. destruct chosen; [|cbn [List.length] in H; lia].
    destruct flags; [|cbn [List.length] in H; lia]. auto.
  - intros [-> ->]. reflexivity.
Qed.

(** X16.  A command of length one is the sign that nothing is active: the built
    command has one element exactly when no numeric option is enabled and no
    boolean option is on; otherwise it has the executable, two elements per
    enabled numeric option and one per boolean option. *)
Theorem build_ryzenadj_command_length :
  forall (values : dict PyVal) (binary : string) (command : list string),
    build_ryzenadj_command values binary = Ok command ->
    List.length command
    = (1 + 2 * List.length (filter (enabled values) NUMERIC_OPTIONS)
       + List.length (filter (switched_on values) BOOLEAN_OPTIONS))%nat
    /\ (List.length command = 1%nat
        <-> all_disabled values = true /\ all_switched_off values = true).
Proof.
  intros values binary command. rewrite build_ryzenadj_command_described.
  unfold described_command, all_disabled, all_switched_off.
  generalize NUMERIC_OPTIONS as specs. generalize BOOLEAN_OPTIONS as options.
  intros options specs. apply described_length.
Qed.

Lemma build_ryzenadj_command_length_witness :
  List.length ["tool"; "--stapm-limit"; "15000"; "--max-performance"]
  = (1 + 2 * List.length
             (filter (enabled [("stapm_limit", PInt 15000);
                               ("stapm_limit_enabled", PBool true);
                               ("max_performance", PBool true)]) NUMERIC_OPTIONS)
     + List.length
         (filter (switched_on [("stapm_limit", PInt 15000);
                               ("stapm_limit_enabled", PBool true);
                               ("max_performance", PBool true)]) BOOLEAN_OPTIONS))%nat
  /\ (List.length ["tool"; "--stapm-limit"; "15000"; "--max-performance"] = 1%nat
      <-> all_disabled [("stapm_limit", PInt 15000);
                        ("stapm_limit_enabled", PBool true);
                        ("max_performance", PBool true)] = true
          /\ all_switched_off [("stapm_limit", PInt 15000);
                               ("stapm_limit_enabled", PBool true);
                               ("max_performance", PBool true)] = true).
Proof.
  apply (build_ryzenadj_command_length
           [("stapm_limit", PInt 15000); ("stapm_limit_enabled", PBool true);
            ("max_performance", PBool true)] "tool").
  vm_compute. reflexivity.
Defined.

(** ** The controls of the numeric options *)

(** X17.  Showing a raw value and reading it back rounds it down to a multiple of
    the scale of the control: the displayed value survives the round trip,
    the raw value loses less than one step, and nothing exactly when it is a
    multiple of the scale. *)
Theorem control_value_round_trip :
  forall ui_scale display_value raw_value : Z,
    _to_display (control_scale ui_scale) (_to_raw (control_scale ui_scale) display_value)
    = display_value
    /\ 0 <= raw_value
            - _to_raw (control_scale ui_scale)
                      (_to_display (control_scale ui_scale) raw_value)
         < control_scale ui_scale
    /\ (_to_raw (control_scale ui_scale) (_to_display (control_scale ui_scale) raw_value)
        = raw_value
        <-> raw_value mod control_scale ui_scale = 0).
Proof.
  intros ui_scale display_value raw_value.
  unfold _to_display, _to_raw.
  assert (Hpos : 0 < control_scale ui_scale) by (unfold control_scale; lia).
  generalize dependent (control_scale ui_scale). intros scale Hpos.
  split; [apply Z.div_mul; lia|].
  pose proof (Z.div_mod raw_value scale ltac:(lia)) as Hdm.
  pose proof (Z.mod_pos_bound raw_value scale Hpos) as Hb.
  split; [lia|]. split; intros H; lia.
Qed.

(** ** Grouping the catalog *)

Lemma category_loop_lookup specs : forall categories c,
  dict_get c (category_loop specs categories)
  = match dict_get c categories,
          filter (fun spec => String.eqb (category spec) c) specs with
    | None, [] => None
    | None, group => Some group
    | Some listed, group => Some (listed ++ group)
    end.
Proof.
  induction specs as [|spec specs IH]; intros categories c; cbn [category_loop filter].
  - destruct (dict_get c categories); [now rewrite app_nil_r|reflexivity].
  - rewrite IH. destruct (String.eqb_spec (category spec) c) as [->|Hne].
    + rewrite dict_get_set_same. unfold dict_get_default.
      destruct (dict_get c categories); [now rewrite <- app_assoc|reflexivity].
    + rewrite dict_get_set_other by congruence. reflexivity.
Qed.

Lemma category_loop_keeps_keys specs : forall categories c,
  dict_get c categories <> None -> dict_get c (category_loop specs categories) <> None.
Proof.
  intros categories c. rewrite category_loop_lookup.
  destruct (dict_get c categories); [discriminate|congruence].
Qed.

(** X18.  A group of [options_by_category] lists the options of its category, all
    of them and no other, in catalog order; and every option of the catalog
    has its group. *)
Theorem options_by_category_groups :
  (forall c group,
      dict_get c options_by_category = Some group ->
      group = filter (fun spec => String.eqb (category spec) c) NUMERIC_OPTIONS)
  /\ (forall spec,
         In spec NUMERIC_OPTIONS ->
         exists group,
           dict_get (category spec) options_by_category = Some group
           /\ In spec group).
Proof.
  unfold options_by_category. generalize NUMERIC_OPTIONS as specs. intros specs.
  split.
  - intros c group. rewrite category_loop_lookup.
    set (chosen := filter _ specs).
    assert (Hstart : forall listed,
               dict_get c [("Power", []); ("Current", []); ("Clocks", []);
                           ("Advanced", @nil OptionSpec)] = Some listed ->
               listed = []).
    { intros listed. cbn [dict_get].
      repeat (destruct (String.eqb _ c); [congruence|]). discriminate. }
    destruct (dict_get c _) as [listed|].
    + rewrite (Hstart listed eq_refl). cbn [app]. congruence.
    + destruct chosen; congruence.
  - intros spec Hin.
    pose proof (category_loop_lookup specs
                  [("Power", []); ("Current", []); ("Clocks", []); ("Advanced", [])]
                  (category spec)) as Hget.
    assert (Hmem : In spec (filter (fun other => String.eqb (category other) (category spec))
                                   specs)).
    { apply filter_In. split; [exact Hin|apply String.eqb_refl]. }
    destruct (dict_get (category spec) [("Power", []); ("Current", []); ("Clocks", []);
                                        ("Advanced", @nil OptionSpec)]) as [listed|].
    + eexists. split; [exact Hget|]. apply in_or_app. now right.
    + destruct (filter _ specs) as [|first others] eqn:E; [contradiction|].
      eexists. split; [exact Hget|exact Hmem].
Qed.

Lemma options_by_category_groups_witness :
  exists group,
    dict_get "Clocks" options_by_category = Some group
    /\ group = filter (fun spec => String.eqb (category spec) "Clocks") NUMERIC_OPTIONS.
Proof.
  eexists. split; [vm_compute; reflexivity|].
  apply (proj1 options_by_category_groups "Clocks"). vm_compute. reflexivity.
Defined.

Import Shlex Systemd.

(** ** Quoting for the shell *)

Lemma code_inj (c : ascii) (n : nat) :
  (n < 256)%nat -> code c = Z.of_nat n -> c = ascii_of_nat n.
Proof.
  intros Hn Hc. unfold code in Hc.
  rewrite <- (ascii_nat_embedding c). f_equal.
  unfold nat_of_ascii. apply Nat2Z.inj. rewrite <- Hc. apply N_nat_Z.
Qed.

Lemma is_safe_plain (c : ascii) :
  is_safe c = true ->
  (code c =? 32) = false /\ (code c =? 9) = false
  /\ (code c =? 39) = false /\ (code c =? 34) = false.
Proof.
  unfold is_safe, existsb. intros H.
  repeat split; apply Z.eqb_neq; intros E; rewrite E in H; discriminate H.
Qed.

Lemma shell_words_from_safe s : forall word rest,
  all_in is_safe s = true ->
  shell_words_from InWord word (s ++ rest)%string
  = shell_words_from InWord (word ++ s)%string rest.
Proof.
  induction s as [|c s IH]; intros word rest Hsafe.
  - now rewrite append_empty_r.
  - cbn [all_in] in Hsafe. apply andb_prop in Hsafe. destruct Hsafe as [Hc Hs].
    destruct (is_safe_plain c Hc) as (H32 & H9 & H39 & H34).
    cbn [append shell_words_from]. rewrite H32, H9, H39, H34, Hc. cbn [orb].
    rewrite (IH _ _ Hs). unfold add_char. now rewrite append_assoc.
Qed.

Lemma shell_words_from_quoted s : forall word rest,
  shell_words_from InSingle word (escape_quotes s ++ String apostrophe rest)%string
  = shell_words_from InWord (word ++ s)%string rest.
Proof.
  induction s as [|c s IH]; intros word rest.
  - rewrite append_empty_r. reflexivity.
  - cbn [escape_quotes]. destruct (code c =? 39) eqn:E.
    + apply Z.eqb_eq in E. apply (code_inj c 39) in E; [|lia]. subst c.
      cbn [append]. cbn -[escape_quotes append add_char]. rewrite IH.
      unfold add_char. now rewrite append_assoc.
    + cbn [append shell_words_from]. rewrite E, IH.
      unfold add_char. now rewrite append_assoc.
Qed.

Lemma shell_words_from_quote s rest :
  shell_words_from Between EmptyString (quote s ++ rest)%string
  = shell_words_from InWord s rest.
Proof.
  unfold quote. destruct s as [|c s]; [reflexivity|].
  destruct (all_in is_safe (String c s)) eqn:Hsafe.
  - cbn [all_in] in Hsafe. apply andb_prop in Hsafe. destruct Hsafe as [Hc Hs].
    destruct (is_safe_plain c Hc) as (H32 & H9 & H39 & H34).
    cbn [append shell_words_from]. rewrite H32, H9, H39, H34, Hc. cbn [orb].
    rewrite (shell_words_from_safe s _ _ Hs). reflexivity.
  - change (String apostrophe (escape_quotes (String c s) ++ "'") ++ rest)%string
      with (String apostrophe
              ((escape_quotes (String c s) ++ "'") ++ rest))%string.
    rewrite append_assoc.
    change (shell_words_from Between EmptyString
              (String apostrophe (escape_quotes (String c s) ++ "'" ++ rest)%string))
      with (shell_words_from InSingle EmptyString
              (escape_quotes (String c s) ++ String apostrophe rest)%string).
    now rewrite shell_words_from_quoted.
Qed.

(** X19.  A shell reads the words of a joined command back as they were: quoting
    loses nothing and splits no word, whatever the words contain. *)
Theorem shlex_join_round_trip :
  forall command : list string, shell_words (Shlex.join command) = Some command.
Proof.
  unfold shell_words, Shlex.join.
  induction command as [|word command IH]; [reflexivity|].
  destruct command as [|next command].
  - cbn [map String.concat].
    rewrite <- (append_empty_r (quote word)), shell_words_from_quote. reflexivity.
  - change (String.concat " " (map quote (word :: next :: command)))
      with (quote word ++ " " ++ String.concat " " (map quote (next :: command)))%string.
    rewrite shell_words_from_quote.
    change (shell_words_from InWord word
              (" " ++ String.concat " " (map quote (next :: command)))%string)
      with (option_map (cons word)
              (shell_words_from Between EmptyString
                 (String.concat " " (map quote (next :: command))))).
    now rewrite IH.
Qed.

(** ** What the executor and the scripts are given *)


Lemma quote_plain_word s : plain_word s = true -> quote s = s.
Proof.
  unfold plain_word, quote. intros H. apply andb_prop in H. destruct H as [Hne Hsafe].
  destruct s as [|c s]; [discriminate|]. now rewrite Hsafe.
Qed.

Lemma join_plain_words command :
  forallb plain_word command = true -> Shlex.join command = String.concat " " command.
Proof.
  unfold Shlex.join. intros H. f_equal.
  induction command as [|word command IH]; [reflexivity|].
  cbn [forallb] in H. apply andb_prop in H. destruct H as [Hword Hrest].
  cbn [map]. now rewrite (quote_plain_word _ Hword), (IH Hrest).
Qed.

Lemma string_of_uint_digits d :
  all_in is_safe (NilEmpty.string_of_uint d) = true.
Proof. induction d; cbn [NilEmpty.string_of_uint all_in]; auto. Qed.

Lemma py_str_of_int_plain n : plain_word (py_str_of_int n) = true.
Proof.
  unfold py_str_of_int, plain_word, NilZero.string_of_int.
  destruct (Z.to_int n) as [d|d].
  - unfold NilZero.string_of_uint.
    destruct d; try reflexivity;
      cbn [NilEmpty.string_of_uint String.eqb negb andb all_in];
      apply string_of_uint_digits.
  - unfold NilZero.string_of_uint.
    destruct d; try reflexivity;
      cbn [NilEmpty.string_of_uint String.eqb negb andb all_in];
      apply string_of_uint_digits.
Qed.

Lemma numeric_arguments_plain specs values : forall arguments,
  forallb (fun spec => plain_word (cli spec)) specs = true ->
  numeric_arguments specs values = Ok arguments ->
  forallb plain_word arguments = true.
Proof.
  induction specs as [|spec specs IH]; intros arguments Hcli; cbn [numeric_arguments].
  - intros H. assert (arguments = []) by congruence. now subst.
  - cbn [forallb] in Hcli. apply andb_prop in Hcli. destruct Hcli as [Hspec Hrest].
    destruct (coerced values spec) as [z|]; [|discriminate]. cbn [bind].
    destruct (numeric_arguments specs values) as [others|]; [|discriminate].
    cbn [bind]. intros H.
    assert (arguments = cli spec :: py_str_of_int z :: others) by congruence. subst.
    cbn [forallb]. now rewrite Hspec, py_str_of_int_plain, (IH others Hrest eq_refl).
Qed.

Lemma forallb_filter {A : Type} (p f : A -> bool) (l : list A) :
  forallb p l = true -> forallb p (filter f l) = true.
Proof.
  induction l as [|x l IH]; [reflexivity|]. cbn [forallb filter].
  intros H. apply andb_prop in H. destruct H as [Hx Hl].
  destruct (f x); [cbn [forallb]; now rewrite Hx, IH|auto].
Qed.

Lemma described_plain specs options values binary command :
  forallb (fun spec => plain_word (cli spec)) specs = true ->
  forallb (fun option => plain_word (bcli option)) options = true ->
  plain_word binary = true ->
  bind (numeric_arguments (filter (enabled values) specs) values)
       (fun arguments =>
          Ok (binary :: arguments ++ map bcli (filter (switched_on values) options)))
  = Ok command ->
  forallb plain_word command = true.
Proof.
  intros Hspecs Hoptions Hbinary.
  destruct (numeric_arguments (filter (enabled values) specs) values)
    as [arguments|] eqn:Hargs; [|discriminate].
  cbn [bind]. intros H.
  assert (command = binary :: arguments
                      ++ map bcli (filter (switched_on values) options)) by congruence.
  subst. cbn [forallb]. rewrite Hbinary. cbn [andb].
  rewrite forallb_app.
  rewrite (numeric_arguments_plain _ _ _ (forallb_filter _ _ _ Hspecs) Hargs).
  cbn [andb]. rewrite forallb_forall. intros word Hin.
  apply in_map_iff in Hin. destruct Hin as (option & <- & Hin).
  apply filter_In in Hin. destruct Hin as [Hin _].
  rewrite forallb_forall in Hoptions. now apply Hoptions.
Qed.

Lemma catalog_flags_plain :
  forallb (fun spec => plain_word (cli spec)) NUMERIC_OPTIONS = true
  /\ forallb (fun option => plain_word (bcli option)) BOOLEAN_OPTIONS = true.
Proof. split; vm_compute; reflexivity. Qed.

(** X20.  Nothing in a built command needs quoting when the name of the
    executable needs none: what the service file and the scripts run is the
    elements of the command separated by single spaces. *)
Theorem build_ryzenadj_command_needs_no_quoting :
  forall (values : dict PyVal) (binary : string) (command : list string),
    plain_word binary = true ->
    build_ryzenadj_command values binary = Ok command ->
    _quoted_command command = String.concat " " command.
Proof.
  intros values binary command Hbinary. rewrite build_ryzenadj_command_described.
  unfold described_command, _quoted_command.
  destruct catalog_flags_plain as [Hspecs Hoptions]. revert Hspecs Hoptions.
  generalize NUMERIC_OPTIONS as specs. generalize BOOLEAN_OPTIONS as options.
  intros options specs Hspecs Hoptions Hrun. apply join_plain_words.
  exact (described_plain specs options values binary command Hspecs Hoptions Hbinary Hrun).
Qed.

Lemma build_ryzenadj_command_needs_no_quoting_witness :
  _quoted_command ["/usr/bin/ryzenadj"; "--stapm-limit"; "15000"; "--max-performance"]
  = String.concat " "
      ["/usr/bin/ryzenadj"; "--stapm-limit"; "15000"; "--max-performance"].
Proof.
  apply (build_ryzenadj_command_needs_no_quoting
           [("stapm_limit", PInt 15000); ("stapm_limit_enabled", PBool true);
            ("max_performance", PBool true)] "/usr/bin/ryzenadj").
  - vm_compute. reflexivity.
  - vm_compute. reflexivity.
Defined.

(** ** The integration scripts *)

(** X21.  The three scripts are made of the same parts: the script that syncs
    both integrations is its preamble, then the lines the boot script has
    after its own, then the lines the resume script has after its own; and
    a script that removes both integrations does not depend on the
    command. *)
Theorem build_sync_script_parts :
  forall (command : list string) (enable_boot enable_resume : bool),
    build_sync_script command enable_boot enable_resume
    = join_lines
        ([ "set -euo pipefail";
           "mkdir -p /etc/systemd/system";
           "mkdir -p /usr/lib/systemd/system-sleep" ]
         ++ boot_lines command enable_boot ++ resume_lines command enable_resume)
    /\ build_boot_script command enable_boot
       = join_lines
           ([ "set -euo pipefail"; "mkdir -p /etc/systemd/system" ]
            ++ boot_lines command enable_boot)
    /\ build_resume_script command enable_resume
       = join_lines
           ([ "set -euo pipefail"; "mkdir -p /usr/lib/systemd/system-sleep" ]
            ++ resume_lines command enable_resume)
    /\ (forall other : list string,
          build_sync_script command false false = build_sync_script other false false).
Proof.
  intros command enable_boot enable_resume.
  unfold build_sync_script, build_boot_script, build_resume_script,
    boot_lines, resume_lines.
  destruct enable_boot, enable_resume; repeat split; reflexivity.
Qed.

(** ** Applying values *)

Lemma numeric_arguments_nil specs values arguments :
  numeric_arguments specs values = Ok arguments -> (arguments = [] <-> specs = []).
Proof.
  intros H. apply numeric_arguments_length in H.
  destruct arguments, specs; cbn [List.length] in H; split; intros E;
    try reflexivity; try discriminate; lia.
Qed.

Lemma apply_current_values_generic specs options values page outcome :
  bind (bind (numeric_arguments (filter (enabled values) specs) values)
             (fun arguments =>
                Ok ("ryzenadj" :: arguments
                      ++ map bcli (filter (switched_on values) options))))
       (fun command =>
          if Nat.eqb (List.length command) 1
          then Ok (mkOutcome "No active settings selected for Apply" false None)
          else if _should_auto_sync_after_apply page
          then
            bind (bind (numeric_arguments (filter (enabled values) specs) values)
                       (fun arguments =>
                          Ok ("/usr/bin/ryzenadj" :: arguments
                                ++ map bcli (filter (switched_on values) options))))
                 (fun command_sync =>
                    if Nat.eqb (List.length command_sync) 1
                    then Ok (mkOutcome "No active settings selected for Apply" false None)
                    else
                      Ok (mkOutcome "Applying profile and syncing active integration..."
                            true
                            (Some (RunShell
                                     (join_lines
                                        [ "set -euo pipefail";
                                          Shlex.join command_sync;
                                          build_sync_script command_sync
                                            (boot_integration_enabled page)
                                            (resume_integration_enabled page) ])
                                     (use_pkexec_checked page)))))
          else Ok (mkOutcome "Applying profile..." true
                     (Some (RunCommand command (use_pkexec_checked page)))))
  = Ok outcome ->
  (request outcome = None
   <-> forallb (fun spec => negb (enabled values spec)) specs = true
       /\ forallb (fun option => negb (switched_on values option)) options = true)
  /\ (status_success outcome = false <-> request outcome = None).
Proof.
  rewrite <- (filter_nil_iff (enabled values)), <- (filter_nil_iff (switched_on values)).
  generalize (filter (enabled values) specs) as chosen.
  generalize (filter (switched_on values) options) as flags.
  intros flags chosen.
  destruct (numeric_arguments chosen values) as [arguments|] eqn:Hargs; [|discriminate].
  apply numeric_arguments_nil in Hargs. cbn [bind].
  destruct arguments as [|a arguments].
  - assert (Hchosen : chosen = []) by now apply Hargs. subst chosen.
    destruct flags as [|flag flags]; cbn [app map List.length Nat.eqb].
    + intros H. assert (outcome = mkOutcome "No active settings selected for Apply"
                                            false None) by congruence.
      subst outcome. cbn [request status_success]. tauto.
    + destruct (_should_auto_sync_after_apply page); intros H;
        match type of H with
        | Ok ?o = Ok _ => assert (outcome = o) by congruence
        end; subst outcome; cbn [request status_success];
        repeat split; intros; try discriminate; intuition discriminate.
  - assert (Hchosen : chosen <> []).
    { intros E. apply Hargs in E. discriminate. }
    cbn [app map List.length Nat.eqb].
    destruct (_should_auto_sync_after_apply page); intros H;
      match type of H with
      | Ok ?o = Ok _ => assert (outcome = o) by congruence
      end; subst outcome; cbn [request status_success];
      repeat split; intros; try discriminate; intuition discriminate.
Qed.

(** X22.  [apply_current_values] runs nothing exactly when nothing is active: it
    makes no request when no numeric option is enabled and no boolean option
    is on, and only then; and its status line reports a failure exactly when
    it makes no request. *)
Theorem apply_current_values_requests :
  forall (values : dict PyVal) (page : SystemPage) (outcome : Outcome),
    apply_current_values values page = Ok outcome ->
    (request outcome = None
     <-> all_disabled values = true /\ all_switched_off values = true)
    /\ (status_success outcome = false <-> request outcome = None).
Proof.
  intros values page outcome.
  unfold apply_current_values, _run_apply_with_active_integration_sync.
  rewrite !build_ryzenadj_command_described.
  unfold described_command, all_disabled, all_switched_off.
  generalize NUMERIC_OPTIONS as specs. generalize BOOLEAN_OPTIONS as options.
  intros options specs. apply apply_current_values_generic.
Qed.

Lemma apply_current_values_requests_witness :
  (request (mkOutcome "No active settings selected for Apply" false None) = None
   <-> all_disabled default_profile_values = true
       /\ all_switched_off default_profile_values = true)
  /\ (status_success (mkOutcome "No active settings selected for Apply" false None)
      = false
      <-> request (mkOutcome "No active settings selected for Apply" false None) = None).
Proof.
  apply (apply_current_values_requests default_profile_values
           (mkSystemPage false false false true true true)).
  vm_compute. reflexivity.
Defined.

Lemma apply_system_integration_generic specs options values page :
  filter (enabled values) specs = [] ->
  filter (switched_on values) options = [] ->
  bind (bind (numeric_arguments (filter (enabled values) specs) values)
             (fun arguments =>
                Ok ("/usr/bin/ryzenadj" :: arguments
                      ++ map bcli (filter (switched_on values) options))))
       (fun command =>
          if (apply_boot_checked page || apply_resume_checked page)
             && Nat.eqb (List.length command) 1
          then Ok (mkOutcome
                     "Enable at least one setting before applying boot/resume integration."
                     false None)
          else
            Ok (mkOutcome "Applying integration settings..." true
                  (Some (RunShell
                           (build_sync_script
                              (if Nat.eqb (List.length command) 1
                               then ["/usr/bin/ryzenadj"] else command)
                              (apply_boot_checked page) (apply_resume_checked page))
                           (use_pkexec_checked page)))))
  = Ok (if apply_boot_checked page || apply_resume_checked page
        then mkOutcome
               "Enable at least one setting before applying boot/resume integration."
               false None
        else mkOutcome "Applying integration settings..." true
               (Some (RunShell (build_sync_script ["/usr/bin/ryzenadj"] false false)
                               (use_pkexec_checked page)))).
Proof.
  intros -> ->. cbn [numeric_arguments bind app map List.length Nat.eqb].
  destruct (apply_boot_checked page), (apply_resume_checked page); reflexivity.
Qed.

(** X23.  With nothing active no integration is installed: when the boot service
    or the resume hook is asked for, [apply_system_integration] refuses and
    runs nothing; when neither is, it runs the script that removes both. *)
Theorem apply_system_integration_nothing_active :
  forall (values : dict PyVal) (page : SystemPage),
    all_disabled values = true -> all_switched_off values = true ->
    apply_system_integration values page
    = Ok (if apply_boot_checked page || apply_resume_checked page
          then mkOutcome
                 "Enable at least one setting before applying boot/resume integration."
                 false None
          else mkOutcome "Applying integration settings..." true
                 (Some (RunShell (build_sync_script ["/usr/bin/ryzenadj"] false false)
                                 (use_pkexec_checked page)))).
Proof.
  intros values page. unfold apply_system_integration.
  rewrite build_ryzenadj_command_described.
  unfold described_command, all_disabled, all_switched_off.
  generalize NUMERIC_OPTIONS as specs. generalize BOOLEAN_OPTIONS as options.
  intros options specs Hnum Hbool.
  apply apply_system_integration_generic; now apply filter_nil_iff.
Qed.

Lemma apply_system_integration_nothing_active_witness :
  apply_system_integration default_profile_values
    (mkSystemPage true true false false false false)
  = Ok (mkOutcome
          "Enable at least one setting before applying boot/resume integration."
          false None).
Proof.
  apply (apply_system_integration_nothing_active default_profile_values
           (mkSystemPage true true false false false false));
    vm_compute; reflexivity.
Defined.

(** ** Classifying the output of a failed run *)


Lemma is_space_lower_char c : is_space (lower_char c) = is_space c.
Proof. destruct c as [[] [] [] [] [] [] [] []]; reflexivity. Qed.

Lemma lower_append a b : lower (a ++ b) = (lower a ++ lower b)%string.
Proof. induction a as [|c a IH]; cbn [append lower]; [reflexivity|now rewrite IH]. Qed.

Lemma lower_lstrip s : lower (lstrip_by is_space s) = lstrip_by is_space (lower s).
Proof.
  induction s as [|c s IH]; [reflexivity|]. cbn [lstrip_by lower].
  rewrite is_space_lower_char. destruct (is_space c); [exact IH|reflexivity].
Qed.

Lemma lower_rstrip s : lower (rstrip_by is_space s) = rstrip_by is_space (lower s).
Proof.
  induction s as [|c s IH]; [reflexivity|]. cbn [rstrip_by lower].
  rewrite <- IH, is_space_lower_char.
  destruct (rstrip_by is_space s); cbn [lower]; [destruct (is_space c)|]; reflexivity.
Qed.

Lemma lower_strip s : lower (strip s) = strip (lower s).
Proof. unfold strip. now rewrite lower_rstrip, lower_lstrip. Qed.

Lemma prefix_head p0 p c s :
  p0 <> c -> String.prefix (String p0 p) (String c s) = false.
Proof. intros Hne. cbn [String.prefix]. destruct (ascii_dec p0 c); congruence. Qed.

Lemma prefix_cons c p s :
  String.prefix (String c p) (String c s) = String.prefix p s.
Proof. cbn [String.prefix]. destruct (ascii_dec c c); congruence. Qed.

Lemma prefix_nil_l s : String.prefix EmptyString s = true.
Proof. now destruct s. Qed.

Lemma prefix_nil_r p : String.prefix p EmptyString = String.eqb p EmptyString.
Proof. destruct p; reflexivity. Qed.

Lemma rstrip_by_cons f c s :
  rstrip_by f (String c s) = EmptyString /\ f c = true /\ rstrip_by f s = EmptyString
  \/ rstrip_by f (String c s) = String c (rstrip_by f s).
Proof.
  cbn [rstrip_by]. destruct (rstrip_by f s); [|now right].
  destruct (f c); [left|right]; auto.
Qed.

Lemma prefix_rstrip f p : forall s,
  match last_char p with Some z => f z = false | None => False end ->
  String.prefix p (rstrip_by f s) = String.prefix p s.
Proof.
  induction p as [|p0 p IH]; intros s Hlast; [contradiction|].
  destruct s as [|c s]; [reflexivity|].
  destruct (ascii_dec p0 c) as [->|Hne].
  - destruct (rstrip_by_cons f c s) as [(E & Hc & Hs)|E]; rewrite E.
    + rewrite prefix_cons. destruct p as [|p1 p].
      * cbn [last_char] in Hlast. congruence.
      * rewrite <- (IH s), Hs by exact Hlast. reflexivity.
    + rewrite !prefix_cons. destruct p as [|p1 p]; [now rewrite !prefix_nil_l|].
      now apply IH.
  - rewrite (prefix_head _ _ _ _ Hne).
    destruct (rstrip_by_cons f c s) as [(E & _)|E]; rewrite E;
      [reflexivity|now apply prefix_head].
Qed.

Lemma contains_nil_r p : contains p EmptyString = String.eqb p EmptyString.
Proof. cbn [contains]. rewrite orb_false_r. apply prefix_nil_r. Qed.

Lemma contains_rstrip f p : forall s,
  match last_char p with Some z => f z = false | None => False end ->
  contains p (rstrip_by f s) = contains p s.
Proof.
  intros s Hlast. induction s as [|c s IH]; [reflexivity|].
  assert (Hne : String.eqb p EmptyString = false) by (destruct p; [contradiction|reflexivity]).
  cbn [contains]. rewrite <- (prefix_rstrip f p (String c s) Hlast), <- IH.
  destruct (rstrip_by_cons f c s) as [(E & _ & Hs)|E]; rewrite E.
  - rewrite Hs, contains_nil_r, prefix_nil_r, Hne. reflexivity.
  - cbn [contains]. reflexivity.
Qed.

Lemma contains_lstrip f p0 p : forall s,
  f p0 = false ->
  contains (String p0 p) (lstrip_by f s) = contains (String p0 p) s.
Proof.
  intros s Hp0. induction s as [|c s IH]; [reflexivity|].
  cbn [lstrip_by]. destruct (f c) eqn:Hc; [|reflexivity].
  rewrite IH. cbn [contains]. rewrite prefix_head; [reflexivity|congruence].
Qed.

Lemma contains_strip p s : solid p = true -> contains p (strip s) = contains p s.
Proof.
  unfold solid, strip. destruct p as [|p0 p]; [discriminate|].
  destruct (last_char (String p0 p)) as [z|] eqn:Hlast; [|discriminate].
  intros H. apply andb_prop in H. destruct H as [Hfirst Hz].
  apply negb_true_iff in Hfirst, Hz.
  rewrite contains_rstrip by now rewrite Hlast.
  now apply contains_lstrip.
Qed.

Lemma prefix_line p : forall a b,
  one_line p = true ->
  String.prefix p (a ++ String (ascii_of_nat 10) b) = String.prefix p a.
Proof.
  unfold one_line. induction p as [|p0 p IH]; intros a b Hp; [now destruct a|].
  cbn [all_in] in Hp. apply andb_prop in Hp. destruct Hp as [Hp0 Hp].
  destruct a as [|c a]; cbn [append].
  - apply prefix_head. intros E. subst p0. discriminate.
  - destruct (ascii_dec p0 c) as [->|Hne].
    + rewrite !prefix_cons. now apply IH.
    + now rewrite !(prefix_head _ _ _ _ Hne).
Qed.

Lemma contains_lines p : forall a b,
  one_line p = true ->
  contains p (a ++ String (ascii_of_nat 10) b) = contains p a || contains p b.
Proof.
  intros a b Hp. induction a as [|c a IH].
  - pose proof (prefix_line p EmptyString b Hp) as Hhead. cbn [append] in Hhead.
    rewrite contains_nil_r. cbn [append contains].
    rewrite Hhead, prefix_nil_r.
    destruct (String.eqb p EmptyString); reflexivity.
  - pose proof (prefix_line p (String c a) b Hp) as Hhead. cbn [append] in Hhead.
    cbn [append contains]. rewrite IH, Hhead. now rewrite orb_assoc.
Qed.

Lemma mentioned_in_output patterns stdout stderr :
  forallb (fun pattern => solid pattern && one_line pattern) patterns = true ->
  existsb (fun pattern => contains pattern (lower (strip (join_lines [stdout; stderr]))))
          patterns
  = mentioned patterns stdout || mentioned patterns stderr.
Proof.
  unfold mentioned. induction patterns as [|pattern patterns IH]; [reflexivity|].
  cbn [forallb existsb]. intros H. apply andb_prop in H. destruct H as [Hp Hrest].
  apply andb_prop in Hp. destruct Hp as [Hsolid Hline].
  rewrite (IH Hrest), lower_strip, (contains_strip _ _ Hsolid).
  unfold join_lines. cbn [String.concat]. rewrite lower_append.
  change (lower (newline ++ stderr))
    with (String (ascii_of_nat 10) (lower stderr)).
  rewrite (contains_lines _ _ _ Hline).
  destruct (contains pattern (lower stdout)), (contains pattern (lower stderr)),
    (existsb (fun p => contains p (lower stdout)) patterns),
    (existsb (fun p => contains p (lower stderr)) patterns); reflexivity.
Qed.

(** X24.  The two streams of a failed run are judged one by one: the output is
    warning-dominated exactly when a warning pattern occurs in the lowercased
    standard output or standard error and no fatal pattern occurs in either.
    Joining and stripping them neither makes nor hides a pattern. *)
Theorem warning_dominated_by_stream :
  forall stdout stderr : string,
    _is_warning_dominated_output stdout stderr
    = (mentioned WARNING_PATTERNS stdout || mentioned WARNING_PATTERNS stderr)
      && negb (mentioned FATAL_PATTERNS stdout || mentioned FATAL_PATTERNS stderr).
Proof.
  intros stdout stderr. unfold _is_warning_dominated_output.
  cbv zeta.
  rewrite <- (mentioned_in_output WARNING_PATTERNS stdout stderr) by reflexivity.
  rewrite <- (mentioned_in_output FATAL_PATTERNS stdout stderr) by reflexivity.
  generalize (lower (strip (join_lines [stdout; stderr]))) as text. intros text.
  destruct (String.eqb_spec text EmptyString) as [->|_]; [reflexivity|].
  destruct (existsb (fun pattern => contains pattern text) WARNING_PATTERNS);
    reflexivity.
Qed.
